(** * GeoFamily: geofence transitions, cooldown gate and notification fan-out

    A shallow embedding of the detection and dispatch logic of the
    repository:
    - [functions/src/index.ts]  (server triggers [checkLowBattery],
      [onSosActivated], [checkGeofences], helper [sendAndStoreNotification],
      the server copy of [getDistance]);
    - [app/(tabs)/index.tsx]    (client foreground loop: the RTDB listener,
      [checkCurrentUserGeofences], the battery listener, [handleSosPress]);
    - [utils/notifications.ts]  ([getOtherFamilyMemberUids],
      [createNotificationsForFamily]);
    - [utils/helpers.ts]        (client [getDistance]);
    - [app/geofences/[geofenceId].tsx] ([handleSave] of the edit screen).

    Beyond the detection and dispatch logic, the development covers:
    - [app/geofences/[geofenceId].tsx] ([handleDelete]);
    - [app/(tabs)/geofences/index.tsx] and [app/(tabs)/index.tsx] (the
      geofences listeners of the list screen and of the map,
      [fetchDeviceLocationAndUpdateRtdb]);
    - [context/AuthContext.tsx] ([signup]) and [app/(tabs)/explore.tsx]
      ([handleCreateFamily], [handleJoinFamily]);
    - [utils/helpers.ts] ([generateInviteCode], [isInviteCodeUnique]).

    JavaScript numbers are IEEE-754 binary64 values, modelled by
    [spec_float] with precision 53 and [emax = 1024]; millisecond
    timestamps ([Date.now()], [Timestamp.toMillis()]) are integers in [Z];
    Firestore collections are lists of documents in snapshot order.

    Conventions of the model:
    - [Math.sin], [Math.cos] and [Math.atan2] are left to the engine by
      ECMAScript; they are variables, and each property states what it
      uses of them.  [Math.sqrt], [Math.round], [Math.max] and [Math.min]
      are defined.
    - One run of a trigger or of a handler takes place at one time [now],
      which is both the value of [Date.now()] and the value that Firestore
      gives to [serverTimestamp()] for the documents written by the run.
    - Reads and writes of Firestore succeed in the triggers and in the
      notification helper; there the calls that may throw are the push call
      [messaging.sendToDevice] and the constructor of [GeoPoint].  In
      [fetchDeviceLocationAndUpdateRtdb] the position request and the two
      writes may fail as well.
    - The constructor of a Firestore [GeoPoint] throws on a latitude or a
      longitude out of range ([newGeoPoint]).  This is modelled where the
      server triggers and [fetchDeviceLocationAndUpdateRtdb] construct one.
      The client helper [createNotificationsForFamily] and [handleSave] get
      their coordinates from the device and from the map; they are modelled
      for coordinates that the constructor accepts.
    - The calls of [sendAndStoreNotification] that a trigger starts and
      awaits with [Promise.all] are run one after the other, in the order
      in which they were started.  In the source they overlap, so that a
      call may still read a push token that an earlier call of the run is
      about to remove; the outcomes differ only when one recipient gets
      several calls in a run and a push to this recipient fails.
    - React closures: a handler sees the state of the render that created
      it.  The properties of the client are stated for the values that a
      handler sees; where the source memoises a handler
      ([fetchDeviceLocationAndUpdateRtdb]), the model says when it is
      created anew ([mapScreenStep]). *)

From Stdlib Require Import ZArith Bool Lia.
From Stdlib.Floats Require Import SpecFloat.
From stdpp Require Import base option list gmap strings.

Local Open Scope Z_scope.

(** ** JavaScript numbers *)

Module Js.

Abbreviation number := spec_float.

Definition prec : Z := 53.
Definition emax : Z := 1024.

Definition add : number -> number -> number := SFadd prec emax.
Definition sub : number -> number -> number := SFsub prec emax.
Definition mul : number -> number -> number := SFmul prec emax.
Definition div : number -> number -> number := SFdiv prec emax.
Definition neg : number -> number := SFopp.

(** [Math.sqrt] is the correctly rounded IEEE square root. *)
Definition Math_sqrt : number -> number := SFsqrt prec emax.

(** [x <= y], [x < y] and [x > y]: all three are false when an operand
    is NaN. *)
Definition le (x y : number) : bool := SFleb x y.
Definition lt (x y : number) : bool := SFltb x y.
Definition gt (x y : number) : bool := SFltb y x.

(** An integer literal: the binary64 value nearest to the integer. *)
Definition ofZ (n : Z) : number := binary_normalize prec emax n 0 false.

Definition pos_zero : number := S754_zero false.

(** [Math.PI] = 0x400921FB54442D18. *)
Definition Math_PI : number := S754_finite false 7074237752028440 (-51).

Definition is_nan (x : number) : bool :=
  match x with S754_nan => true | _ => false end.

(** Neither NaN nor an infinity. *)
Definition is_finite (x : number) : bool :=
  match x with
  | S754_zero _ | S754_finite _ _ _ => true
  | S754_infinity _ | S754_nan => false
  end.

(** [ToBoolean] on a number: [+0], [-0] and NaN are falsy. *)
Definition truthy (x : number) : bool :=
  match x with
  | S754_zero _ | S754_nan => false
  | S754_infinity _ | S754_finite _ _ _ => true
  end.

(** [Math.max] and [Math.min] of two numbers: NaN if either is NaN, and
    [-0] is below [+0]. *)
Definition Math_max (x y : number) : number :=
  match SFcompare x y with
  | None => S754_nan
  | Some Lt => y
  | Some Gt => x
  | Some Eq => match x with S754_zero true => y | _ => x end
  end.

Definition Math_min (x y : number) : number :=
  match SFcompare x y with
  | None => S754_nan
  | Some Lt => x
  | Some Gt => y
  | Some Eq => match x with S754_zero false => y | _ => x end
  end.

(** [Math.round]: the nearest integer, ties towards [+∞]; a result of
    magnitude zero keeps the sign of the argument. *)
Definition Math_round (x : number) : number :=
  match x with
  | S754_finite s m (Zneg k) =>
      let q := Zpos m / 2 ^ Zpos k in
      let r := Zpos m mod 2 ^ Zpos k in
      let half := 2 ^ (Zpos k - 1) in
      let n := if s then (if r <=? half then q else q + 1)
               else (if r <? half then q else q + 1) in
      if n =? 0 then S754_zero s
      else binary_normalize prec emax (if s then - n else n) 0 false
  | _ => x
  end.

End Js.

Declare Scope js_scope.
Delimit Scope js_scope with js.
Infix "+" := Js.add : js_scope.
Infix "-" := Js.sub : js_scope.
Infix "*" := Js.mul : js_scope.
Infix "/" := Js.div : js_scope.
Infix "<=?" := Js.le : js_scope.
Infix "<?" := Js.lt : js_scope.
Infix ">?" := Js.gt : js_scope.

(** ** The distance oracle *)

Section Haversine.

(** [Math.sin], [Math.cos] and [Math.atan2] are implementation-approximated
    in ECMAScript: they are parameters of the development. *)
Variable Math_sin Math_cos : Js.number -> Js.number.
Variable Math_atan2 : Js.number -> Js.number -> Js.number.

(** [utils/helpers.ts], [getDistance]. *)
Definition getDistance (lat1 lon1 lat2 lon2 : Js.number) : Js.number :=
  (let R := Js.ofZ 6371000 in
   let phi1 := lat1 * Js.Math_PI / Js.ofZ 180 in
   let phi2 := lat2 * Js.Math_PI / Js.ofZ 180 in
   let dphi := (lat2 - lat1) * Js.Math_PI / Js.ofZ 180 in
   let dlambda := (lon2 - lon1) * Js.Math_PI / Js.ofZ 180 in
   let a := Math_sin (dphi / Js.ofZ 2) * Math_sin (dphi / Js.ofZ 2) +
            Math_cos phi1 * Math_cos phi2 *
            Math_sin (dlambda / Js.ofZ 2) * Math_sin (dlambda / Js.ofZ 2) in
   let c := Js.ofZ 2 *
            Math_atan2 (Js.Math_sqrt a) (Js.Math_sqrt (Js.ofZ 1 - a)) in
   R * c)%js.

(** [functions/src/index.ts], the server copy of [getDistance]. *)
Definition getDistanceServer (lat1 lon1 lat2 lon2 : Js.number) : Js.number :=
  (let R := Js.ofZ 6371000 in
   let phi1 := lat1 * Js.Math_PI / Js.ofZ 180 in
   let phi2 := lat2 * Js.Math_PI / Js.ofZ 180 in
   let dphi := (lat2 - lat1) * Js.Math_PI / Js.ofZ 180 in
   let dlambda := (lon2 - lon1) * Js.Math_PI / Js.ofZ 180 in
   let a := Math_sin (dphi / Js.ofZ 2) * Math_sin (dphi / Js.ofZ 2) +
            Math_cos phi1 * Math_cos phi2 *
            Math_sin (dlambda / Js.ofZ 2) * Math_sin (dlambda / Js.ofZ 2) in
   let c := Js.ofZ 2 *
            Math_atan2 (Js.Math_sqrt a) (Js.Math_sqrt (Js.ofZ 1 - a)) in
   R * c)%js.

(** The sine of half an angle given in degrees, as [getDistance] writes it. *)
Definition sinHalf (d : Js.number) : Js.number :=
  Math_sin (d * Js.Math_PI / Js.ofZ 180 / Js.ofZ 2)%js.

End Haversine.

(** ** Data model *)

(** A value read from the Realtime Database or from a Firestore document,
    before any run-time check of its type. *)
Inductive JsValue : Type :=
| JsUndefined
| JsNull
| JsBoolean (b : bool)
| JsNumber (x : Js.number)
| JsString (s : string).

(** [!!v] *)
Definition toBoolean (v : JsValue) : bool :=
  match v with
  | JsUndefined | JsNull => false
  | JsBoolean b => b
  | JsNumber x => Js.truthy x
  | JsString s => negb (String.eqb s "")
  end.

(** [typeof v === "number"] *)
Definition typeofNumber (v : JsValue) : bool :=
  match v with JsNumber _ => true | _ => false end.

(** The number held by a value already checked to be one. *)
Definition numberOf (v : JsValue) : Js.number :=
  match v with JsNumber x => x | _ => S754_nan end.

(** Truthiness of an optional string ([undefined] and [""] are falsy). *)
Definition truthyString (o : option string) : bool :=
  match o with Some s => negb (String.eqb s "") | None => false end.

(** [o || dflt] on an optional string. *)
Definition orDefault (o : option string) (dflt : string) : string :=
  match o with
  | Some s => if String.eqb s "" then dflt else s
  | None => dflt
  end.

Inductive NotificationType : Type :=
| sos | low_battery | geofence_entry | geofence_exit | info.

Global Instance NotificationType_eq_dec : EqDecision NotificationType.
Proof. solve_decision. Defined.

Record GeoPoint : Type := mkGeoPoint {
  gp_latitude : Js.number;
  gp_longitude : Js.number }.

(** [new GeoPoint(latitude, longitude)].  The constructor of the Firestore
    SDKs throws unless the latitude is a number from -90 to 90 and the
    longitude a number from -180 to 180, which excludes NaN and the
    infinities; [None] stands for the throw. *)
Definition newGeoPoint (latitude longitude : Js.number) : option GeoPoint :=
  if (Js.ofZ (-90) <=? latitude)%js && (latitude <=? Js.ofZ 90)%js &&
     (Js.ofZ (-180) <=? longitude)%js && (longitude <=? Js.ofZ 180)%js
  then Some (mkGeoPoint latitude longitude)
  else None.

(** Server types, [functions/src/index.ts]. *)
Record UserData : Type := mkUserData {
  u_name : option string;
  u_familyId : option string;
  u_fcmToken : option string;
  u_role : option string }.

Record CenterData : Type := mkCenterData {
  c_latitude : JsValue;
  c_longitude : JsValue }.

Record GeofenceData : Type := mkGeofenceData {
  g_name : option string;
  g_familyId : option string;
  g_center : option CenterData;
  g_radius : JsValue }.

Record LocationData : Type := mkLocationData {
  l_latitude : JsValue;
  l_longitude : JsValue }.

(** A document of the [notifications] collection: the core data of the
    event, the recipient, the server timestamp (milliseconds) and the
    [read] flag.  An absent and a [null] [relatedLocation] are both
    [None]. *)
Record NotificationDoc : Type := mkNotificationDoc {
  n_type : NotificationType;
  n_title : string;
  n_message : string;
  n_familyId : string;
  n_triggeringUid : option string;
  n_relatedGeofenceId : option string;
  n_relatedLocation : option GeoPoint;
  n_recipientUid : string;
  n_timestamp : Z;
  n_read : bool }.

(** The Firestore collections the code reads and writes; each document is
    paired with its id, in snapshot order. *)
Record Firestore : Type := mkFirestore {
  users : list (string * UserData);
  geofences : list (string * GeofenceData);
  notifications : list NotificationDoc }.

(** [collection.doc(id).get()] then [.data()]. *)
Fixpoint getDoc {A : Type} (id : string) (docs : list (string * A)) : option A :=
  match docs with
  | [] => None
  | d :: rest => if decide (d.1 = id) then Some d.2 else getDoc id rest
  end.

(** [db.collection("users").where("familyId", "==", familyId).get()] *)
Definition membersOf (familyId : string) (us : list (string * UserData))
  : list (string * UserData) :=
  filter (λ d, u_familyId d.2 = Some familyId) us.

(** [db.collection("geofences").where("familyId", "==", familyId).get()] *)
Definition geofencesOf (familyId : string) (gs : list (string * GeofenceData))
  : list (string * GeofenceData) :=
  filter (λ d, g_familyId d.2 = Some familyId) gs.

(** [.orderBy("timestamp", "desc").limit(1)]: a document with the greatest
    timestamp, if there is any document. *)
Fixpoint newest (docs : list NotificationDoc) : option NotificationDoc :=
  match docs with
  | [] => None
  | d :: rest =>
      match newest rest with
      | Some d' => if n_timestamp d <? n_timestamp d' then Some d' else Some d
      | None => Some d
      end
  end.

(** ** Server triggers, [functions/src/index.ts] *)

Definition LOW_BATTERY_THRESHOLD : Js.number := Js.ofZ 20.

Module NOTIFICATION_COOLDOWN_MS.
Definition lowBattery : Z := 15 * 60 * 1000.
Definition geofence : Z := 5 * 60 * 1000.
End NOTIFICATION_COOLDOWN_MS.

Record MessagingPayload : Type := mkMessagingPayload {
  mp_title : string;
  mp_body : string;
  mp_sound : string;
  mp_tag : option string }.

Record NotificationCoreData : Type := mkNotificationCoreData {
  core_type : NotificationType;
  core_title : string;
  core_message : string;
  core_familyId : string;
  core_triggeringUid : option string;
  core_relatedGeofenceId : option string;
  core_relatedLocation : option GeoPoint }.

(** What [messaging.sendToDevice] does: it resolves, or it throws an error
    carrying a [code]. *)
Inductive PushResult : Type :=
| PushSent
| PushThrows (code : string).

(** The document written by [db.collection("notifications").add]. *)
Definition notificationDocOf (data : NotificationCoreData)
    (recipientUid : string) (timestamp : Z) : NotificationDoc :=
  {| n_type := core_type data;
     n_title := core_title data;
     n_message := core_message data;
     n_familyId := core_familyId data;
     n_triggeringUid := core_triggeringUid data;
     n_relatedGeofenceId := core_relatedGeofenceId data;
     n_relatedLocation := core_relatedLocation data;
     n_recipientUid := recipientUid;
     n_timestamp := timestamp;
     n_read := false |}.

Definition addNotification (d : NotificationDoc) (db : Firestore) : Firestore :=
  {| users := users db;
     geofences := geofences db;
     notifications := notifications db ++ [d] |}.

(** [users/{uid}.update({fcmToken: FieldValue.delete()})] *)
Definition deleteFcmToken (uid : string) (db : Firestore) : Firestore :=
  {| users :=
       (λ d : string * UserData,
          if decide (d.1 = uid)
          then (d.1, {| u_name := u_name d.2; u_familyId := u_familyId d.2;
                        u_fcmToken := None; u_role := u_role d.2 |})
          else d) <$> users db;
     geofences := geofences db;
     notifications := notifications db |}.

Definition invalidTokenCode (code : string) : bool :=
  String.eqb code "messaging/registration-token-not-registered" ||
  String.eqb code "messaging/invalid-registration-token".

Section Server.

Variable Math_sin Math_cos : Js.number -> Js.number.
Variable Math_atan2 : Js.number -> Js.number -> Js.number.

(** The push provider, [messaging.sendToDevice(token, payload, options)]. *)
Variable sendToDevice : string -> MessagingPayload -> PushResult.

(** A number inside a template literal, and [x.toFixed(4)]. *)
Variable numberToString toFixed4 : Js.number -> string.

(** [sendAndStoreNotification]; [now] is the value the server gives to
    [FieldValue.serverTimestamp()]. *)
Definition sendAndStoreNotification (now : Z) (recipientUid : string)
    (payload : MessagingPayload) (notificationDbData : NotificationCoreData)
    (db : Firestore) : Firestore :=
  let userData := getDoc recipientUid (users db) in
  let fcmToken := userData ≫= u_fcmToken in
  match fcmToken with
  | None => db
  | Some token =>
      if String.eqb token "" then db
      else
        match sendToDevice token payload with
        | PushSent =>
            addNotification
              (notificationDocOf notificationDbData recipientUid now) db
        | PushThrows code =>
            if invalidTokenCode code then deleteFcmToken recipientUid db
            else db
        end
  end.

(** One pending call of [sendAndStoreNotification]. *)
Record Dispatch : Type := mkDispatch {
  d_recipientUid : string;
  d_payload : MessagingPayload;
  d_data : NotificationCoreData }.

(** [Promise.all] over the pending calls, run in the order they were made. *)
Definition runDispatches (now : Z) (calls : list Dispatch) (db : Firestore)
  : Firestore :=
  foldl (λ acc c,
           sendAndStoreNotification now (d_recipientUid c) (d_payload c)
             (d_data c) acc)
        db calls.

(** [docs.filter((doc) => doc.id !== userId)] mapped to one call of
    [sendAndStoreNotification] per remaining member. *)
Definition othersOf (userId : string) (members : list (string * UserData))
    (payload : MessagingPayload) (notificationDbData : NotificationCoreData)
  : list Dispatch :=
  (λ doc : string * UserData, mkDispatch doc.1 payload notificationDbData)
  <$> filter (λ doc, doc.1 ≠ userId) members.

Definition notifyOthers (now : Z) (userId : string)
    (members : list (string * UserData)) (payload : MessagingPayload)
    (notificationDbData : NotificationCoreData) (db : Firestore) : Firestore :=
  runDispatches now (othersOf userId members payload notificationDbData) db.

(** The cooldown test shared by the two triggers: the newest matching
    document exists and [Date.now() < cooldownEnd]. *)
Definition cooldownActive (now window : Z) (matching : list NotificationDoc)
  : bool :=
  match newest matching with
  | Some last => now <? n_timestamp last + window
  | None => false
  end.

(** *** 1. [checkLowBattery] *)

Definition lowBatteryDetected (previousBatteryLevel batteryLevel : option Js.number)
  : bool :=
  match batteryLevel with
  | None => false
  | Some level =>
      (level <=? LOW_BATTERY_THRESHOLD)%js &&
      match previousBatteryLevel with
      | None => true
      | Some previous => (previous >? LOW_BATTERY_THRESHOLD)%js
      end
  end.

Definition recentLowBattery (userId : string) (db : Firestore)
  : list NotificationDoc :=
  filter (λ d, n_triggeringUid d = Some userId ∧ n_type d = low_battery)
         (notifications db).

Definition checkLowBattery (userId : string)
    (previousBatteryLevel batteryLevel : option Js.number) (now : Z)
    (db : Firestore) : Firestore :=
  if lowBatteryDetected previousBatteryLevel batteryLevel then
    if cooldownActive now NOTIFICATION_COOLDOWN_MS.lowBattery
         (recentLowBattery userId db)
    then db
    else
      let userData := getDoc userId (users db) in
      match userData ≫= u_familyId with
      | None => db
      | Some familyId =>
          if String.eqb familyId "" then db
          else
            let userName := orDefault (userData ≫= u_name) "A family member" in
            let level := numberToString (default S754_nan batteryLevel) in
            let membersSnapshot := membersOf familyId (users db) in
            let message :=
              userName +:+ "'s phone battery is low (" +:+ level +:+ "%)." in
            let notificationPayload :=
              {| mp_title := "Low Battery Alert";
                 mp_body := message;
                 mp_sound := "default";
                 mp_tag := Some ("low_battery_" +:+ userId) |} in
            let notificationDbData :=
              {| core_type := low_battery;
                 core_title := "Low Battery: " +:+ userName;
                 core_message := message;
                 core_familyId := familyId;
                 core_triggeringUid := Some userId;
                 core_relatedGeofenceId := None;
                 core_relatedLocation := None |} in
            notifyOthers now userId membersSnapshot notificationPayload
              notificationDbData db
      end
  else db.

(** *** 2. [onSosActivated] *)

(** "Location handling": the values of [locationString] and
    [locationGeoPoint]; [None] when [new GeoPoint] throws. *)
Definition sosLocation (location : option LocationData)
  : option (string * option GeoPoint) :=
  match location with
  | Some {| l_latitude := JsNumber lat; l_longitude := JsNumber lon |} =>
      match newGeoPoint lat lon with
      | Some locationGeoPoint =>
          Some ("near " +:+ toFixed4 lat +:+ ", " +:+ toFixed4 lon,
                Some locationGeoPoint)
      | None => None
      end
  | _ => Some ("at their last known location", None)
  end.

(** The trigger returns the Firestore state and whether it wrote [false]
    back to [sosActive]; [location] is the value read from
    [/liveData/{userId}/currentLocation].  When [new GeoPoint] throws, the
    trigger ends there: [sosActive] is reset and no call of
    [sendAndStoreNotification] has been made. *)
Definition onSosActivated (userId : string) (after : option JsValue)
    (location : option LocationData) (now : Z) (db : Firestore)
  : bool * Firestore :=
  match after with
  | Some (JsBoolean true) =>
      let userData := getDoc userId (users db) in
      match userData ≫= u_familyId with
      | None => (true, db)
      | Some familyId =>
          if String.eqb familyId "" then (true, db)
          else
            let userName := orDefault (userData ≫= u_name) "A family member" in
            match sosLocation location with
            | None => (true, db)
            | Some (locationString, locationGeoPoint) =>
                let membersSnapshot := membersOf familyId (users db) in
                let message :=
                  userName +:+ " needs help " +:+ locationString +:+ "!" in
                let notificationPayload :=
                  {| mp_title := " SOS Activated!";
                     mp_body := message;
                     mp_sound := "default";
                     mp_tag := None |} in
                let notificationDbData :=
                  {| core_type := sos;
                     core_title := " SOS: " +:+ userName;
                     core_message := message;
                     core_familyId := familyId;
                     core_triggeringUid := Some userId;
                     core_relatedGeofenceId := None;
                     core_relatedLocation := locationGeoPoint |} in
                (true, notifyOthers now userId membersSnapshot notificationPayload
                         notificationDbData db)
            end
      end
  | _ => (false, db)
  end.

(** *** 3. [checkGeofences] *)

(** [!v || typeof v !== "number"] *)
Definition notANonZeroNumber (v : JsValue) : bool :=
  negb (toBoolean v) || negb (typeofNumber v).

(** [location?.latitude] and [location?.longitude] *)
Definition latitudeOf (location : option LocationData) : JsValue :=
  match location with Some l => l_latitude l | None => JsUndefined end.

Definition longitudeOf (location : option LocationData) : JsValue :=
  match location with Some l => l_longitude l | None => JsUndefined end.

(** The location data validation at the head of the trigger. *)
Definition invalidLocationData (oldLocation newLocation : option LocationData)
  : bool :=
  notANonZeroNumber (latitudeOf newLocation) ||
  notANonZeroNumber (longitudeOf newLocation) ||
  notANonZeroNumber (latitudeOf oldLocation) ||
  notANonZeroNumber (longitudeOf oldLocation).

(** [fence.center?.latitude] and [fence.center?.longitude] *)
Definition centerLatitude (fence : GeofenceData) : JsValue :=
  match g_center fence with Some c => c_latitude c | None => JsUndefined end.

Definition centerLongitude (fence : GeofenceData) : JsValue :=
  match g_center fence with Some c => c_longitude c | None => JsUndefined end.

(** The geofence data validation inside the loop. *)
Definition invalidGeofence (fence : GeofenceData) : bool :=
  notANonZeroNumber (centerLatitude fence) ||
  notANonZeroNumber (centerLongitude fence) ||
  notANonZeroNumber (g_radius fence).

(** "Determine Geofence Event": the value of [eventType] after the
    [if ... else if ...]. *)
Definition eventType (wasInside isInside : bool) : option NotificationType :=
  if negb wasInside && isInside then Some geofence_entry
  else if wasInside && negb isInside then Some geofence_exit
  else None.

(** Validation, distances and event of one fence of the loop. *)
Definition fenceTransition (oldLocation newLocation : option LocationData)
    (fence : GeofenceData) : option NotificationType :=
  if invalidGeofence fence then None
  else
    let radius := numberOf (g_radius fence) in
    let distanceOld :=
      getDistanceServer Math_sin Math_cos Math_atan2
        (numberOf (latitudeOf oldLocation)) (numberOf (longitudeOf oldLocation))
        (numberOf (centerLatitude fence)) (numberOf (centerLongitude fence)) in
    let distanceNew :=
      getDistanceServer Math_sin Math_cos Math_atan2
        (numberOf (latitudeOf newLocation)) (numberOf (longitudeOf newLocation))
        (numberOf (centerLatitude fence)) (numberOf (centerLongitude fence)) in
    let wasInside := (distanceOld <=? radius)%js in
    let isInside := (distanceNew <=? radius)%js in
    eventType wasInside isInside.

Definition geofenceMessage (ty : NotificationType) (userName fenceName : string)
  : string :=
  match ty with
  | geofence_entry => userName +:+ " arrived at " +:+ fenceName +:+ "."
  | geofence_exit => userName +:+ " left " +:+ fenceName +:+ "."
  | _ => ""
  end.

(** The cooldown query of one fence event. *)
Definition recentGeofence (userId fenceId : string) (ty : NotificationType)
    (db : Firestore) : list NotificationDoc :=
  filter (λ d, n_triggeringUid d = Some userId ∧
               n_relatedGeofenceId d = Some fenceId ∧
               n_type d = ty)
         (notifications db).

(** The body of the loop for one fence document: the calls of
    [sendAndStoreNotification] it pushes on [notificationPromises].  The
    cooldown query reads the log [db]; it only selects documents of this
    fence, whose id is the one of a single document of the snapshot.
    When [new GeoPoint] throws, the trigger ends there.  The constructor
    gets the coordinates of [newLocation] at every fence, so that it throws
    at the first transition that the cooldown lets through, before any call
    of [sendAndStoreNotification]: no fence pushes a call. *)
Definition fenceDispatches (userId familyId userName : string)
    (oldLocation newLocation : option LocationData) (now : Z) (db : Firestore)
    (membersSnapshot : list (string * UserData))
    (fenceDoc : string * GeofenceData) : list Dispatch :=
  let fence := fenceDoc.2 in
  let fenceId := fenceDoc.1 in
  let fenceName := orDefault (g_name fence) "Unnamed Geofence" in
  match fenceTransition oldLocation newLocation fence with
  | None => []
  | Some ty =>
      if cooldownActive now NOTIFICATION_COOLDOWN_MS.geofence
           (recentGeofence userId fenceId ty db)
      then []
      else
        let message := geofenceMessage ty userName fenceName in
        let notificationPayload :=
          {| mp_title := fenceName;
             mp_body := message;
             mp_sound := "default";
             mp_tag := Some ("geofence_" +:+ userId +:+ "_" +:+ fenceId) |} in
        match newGeoPoint (numberOf (latitudeOf newLocation))
                (numberOf (longitudeOf newLocation)) with
        | None => []
        | Some relatedLocation =>
            let notificationDbData :=
              {| core_type := ty;
                 core_title := fenceName;
                 core_message := message;
                 core_familyId := familyId;
                 core_triggeringUid := Some userId;
                 core_relatedGeofenceId := Some fenceId;
                 core_relatedLocation := Some relatedLocation |} in
            othersOf userId membersSnapshot notificationPayload
              notificationDbData
        end
  end.

Definition checkGeofences (userId : string)
    (oldLocation newLocation : option LocationData) (now : Z) (db : Firestore)
  : Firestore :=
  if invalidLocationData oldLocation newLocation then db
  else
    let userData := getDoc userId (users db) in
    match userData ≫= u_familyId with
    | None => db
    | Some familyId =>
        if String.eqb familyId "" then db
        else
          let userName := orDefault (userData ≫= u_name) "A family member" in
          let geofencesSnapshot := geofencesOf familyId (geofences db) in
          match geofencesSnapshot with
          | [] => db
          | _ =>
              let membersSnapshot := membersOf familyId (users db) in
              let notificationPromises :=
                geofencesSnapshot ≫=
                  fenceDispatches userId familyId userName oldLocation
                    newLocation now db membersSnapshot in
              runDispatches now notificationPromises db
          end
    end.

(** The transitions the trigger detects, before the cooldown check: the
    fence ids and event types of one location update. *)
Definition serverTransitions (oldLocation newLocation : option LocationData)
    (fences : list (string * GeofenceData)) : list (string * NotificationType) :=
  if invalidLocationData oldLocation newLocation then []
  else
    omap (λ fenceDoc : string * GeofenceData,
            pair fenceDoc.1 <$> fenceTransition oldLocation newLocation fenceDoc.2)
         fences.

(** The distance from a server sample to the center of a fence. *)
Definition serverDistance (location : option LocationData) (fence : GeofenceData)
  : Js.number :=
  getDistanceServer Math_sin Math_cos Math_atan2
    (numberOf (latitudeOf location)) (numberOf (longitudeOf location))
    (numberOf (centerLatitude fence)) (numberOf (centerLongitude fence)).

End Server.

(** ** Client notification helper, [utils/notifications.ts] *)

Record LatLng : Type := mkLatLng {
  latitude : Js.number;
  longitude : Js.number }.

Record NotificationPayload : Type := mkNotificationPayload {
  p_type : NotificationType;
  p_title : string;
  p_message : string;
  p_familyId : string;
  p_triggeringUid : option string;
  p_relatedGeofenceId : option string;
  p_relatedLocation : option LatLng }.

(** [getOtherFamilyMemberUids] *)
Definition getOtherFamilyMemberUids (familyId selfUid : string) (db : Firestore)
  : list string :=
  if String.eqb familyId "" || String.eqb selfUid "" then []
  else
    let membersSnapshot := membersOf familyId (users db) in
    fst <$> filter (λ doc, doc.1 ≠ selfUid) membersSnapshot.

(** [...(o && { field: o })]: the field is written when the string is
    truthy. *)
Definition whenTruthy (o : option string) : option string :=
  if truthyString o then o else None.

(** [notificationData]: the base data of the payload with the recipient;
    [now] is the value given to [serverTimestamp()]. *)
Definition notificationData (now : Z) (payload : NotificationPayload)
    (recipientUid : string) : NotificationDoc :=
  {| n_type := p_type payload;
     n_title := p_title payload;
     n_message := p_message payload;
     n_familyId := p_familyId payload;
     n_triggeringUid := whenTruthy (p_triggeringUid payload);
     n_relatedGeofenceId := whenTruthy (p_relatedGeofenceId payload);
     n_relatedLocation :=
       (λ l, mkGeoPoint (latitude l) (longitude l)) <$> p_relatedLocation payload;
     n_recipientUid := recipientUid;
     n_timestamp := now;
     n_read := false |}.

(** [createNotificationsForFamily]: one [addDoc] per recipient. *)
Definition createNotificationsForFamily (now : Z) (senderUid : string)
    (payload : NotificationPayload) (db : Firestore) : bool * Firestore :=
  if String.eqb (p_familyId payload) "" then (false, db)
  else
    let recipientUids := getOtherFamilyMemberUids (p_familyId payload) senderUid db in
    match recipientUids with
    | [] => (true, db)
    | _ =>
        (true, foldl (λ acc recipientUid,
                        addNotification (notificationData now payload recipientUid) acc)
                     db recipientUids)
    end.

(** ** Client foreground loop, [app/(tabs)/index.tsx] *)

Record Settings : Type := mkSettings {
  shareLocation : option bool;
  batteryAlerts : option bool }.

Record UserProfile : Type := mkUserProfile {
  up_id : string;
  up_name : string;
  up_familyId : option string;
  up_settings : option Settings }.

Record LiveData : Type := mkLiveData {
  currentLocation : option LatLng;
  batteryLevel : option Js.number }.

Record Geofence : Type := mkGeofence {
  f_id : string;
  f_name : string;
  f_center : LatLng;
  f_radius : Js.number;
  f_familyId : option string }.

Definition BATTERY_COOLDOWN_PERIOD : Z := 15 * 60 * 1000.
Definition GEOFENCE_COOLDOWN_PERIOD : Z := 5 * 60 * 1000.

(** The refs of [MapScreen] that the two checks read and write. *)
Record Refs : Type := mkRefs {
  previousUserLocation : option LatLng;
  lastLowBatteryAlertSent : option Z;
  geofenceCooldowns : gmap string Z }.

(** [!t] on a remembered time: [undefined], [null] and [0] are falsy. *)
Definition noAlertTime (t : option Z) : bool :=
  match t with Some t => t =? 0 | None => true end.

(** [!lastAlertTime || (now - lastAlertTime > period)] *)
Definition clientCooldownOver (now period : Z) (lastAlertTime : option Z) : bool :=
  noAlertTime lastAlertTime || (period <? now - default 0 lastAlertTime).

(** [s || dflt] on a string. *)
Definition orElse (s dflt : string) : string :=
  if String.eqb s "" then dflt else s.

Section Client.

Variable Math_sin Math_cos : Js.number -> Js.number.
Variable Math_atan2 : Js.number -> Js.number -> Js.number.
Variable numberToString : Js.number -> string.

(** The title and the body of the SOS alert, built by [handleSosPress] from
    the name, the last location and the battery level of the user. *)
Variable sosTitle : string -> string.
Variable sosMessageBody : string -> option LatLng -> option Js.number -> string.

Definition setPreviousUserLocation (l : option LatLng) (refs : Refs) : Refs :=
  {| previousUserLocation := l;
     lastLowBatteryAlertSent := lastLowBatteryAlertSent refs;
     geofenceCooldowns := geofenceCooldowns refs |}.

Definition setLastLowBatteryAlertSent (t : option Z) (refs : Refs) : Refs :=
  {| previousUserLocation := previousUserLocation refs;
     lastLowBatteryAlertSent := t;
     geofenceCooldowns := geofenceCooldowns refs |}.

Definition setGeofenceCooldown (fenceId : string) (t : Z) (refs : Refs) : Refs :=
  {| previousUserLocation := previousUserLocation refs;
     lastLowBatteryAlertSent := lastLowBatteryAlertSent refs;
     geofenceCooldowns := <[fenceId := t]> (geofenceCooldowns refs) |}.

(** The [if ... else if ...] on [wasInside] and [isInside] in
    [checkCurrentUserGeofences]. *)
Definition eventTypeClient (wasInside isInside : bool) : option NotificationType :=
  if negb wasInside && isInside then Some geofence_entry
  else if wasInside && negb isInside then Some geofence_exit
  else None.

(** Validation, distances and event of one fence of the [forEach]. *)
Definition fenceTransitionClient (previousLoc currentLoc : LatLng)
    (fence : Geofence) : option NotificationType :=
  if negb (Js.truthy (latitude (f_center fence))) ||
     negb (Js.truthy (longitude (f_center fence))) ||
     negb (Js.truthy (f_radius fence))
  then None
  else
    let distanceOld :=
      getDistance Math_sin Math_cos Math_atan2
        (latitude previousLoc) (longitude previousLoc)
        (latitude (f_center fence)) (longitude (f_center fence)) in
    let distanceNew :=
      getDistance Math_sin Math_cos Math_atan2
        (latitude currentLoc) (longitude currentLoc)
        (latitude (f_center fence)) (longitude (f_center fence)) in
    let wasInside := (distanceOld <=? f_radius fence)%js in
    let isInside := (distanceNew <=? f_radius fence)%js in
    eventTypeClient wasInside isInside.

Definition geofenceMessageClient (ty : NotificationType) (name fenceName : string)
  : string :=
  match ty with
  | geofence_entry => orElse name "A member" +:+ " arrived at " +:+ fenceName +:+ "."
  | geofence_exit => orElse name "A member" +:+ " left " +:+ fenceName +:+ "."
  | _ => ""
  end.

(** The callback of [geofences.forEach], as a step on the refs and the
    database. *)
Definition checkOneGeofence (uid : string) (profile : UserProfile)
    (familyId : string) (previousLoc currentLoc : LatLng) (now : Z)
    (st : Refs * Firestore) (fence : Geofence) : Refs * Firestore :=
  match fenceTransitionClient previousLoc currentLoc fence with
  | None => st
  | Some ty =>
      let lastAlertTime := geofenceCooldowns st.1 !! f_id fence in
      if clientCooldownOver now GEOFENCE_COOLDOWN_PERIOD lastAlertTime then
        let notificationPayload :=
          {| p_type := ty;
             p_title := f_name fence;
             p_message := geofenceMessageClient ty (up_name profile) (f_name fence);
             p_familyId := familyId;
             p_triggeringUid := Some uid;
             p_relatedGeofenceId := Some (f_id fence);
             p_relatedLocation :=
               Some (mkLatLng (latitude currentLoc) (longitude currentLoc)) |} in
        (setGeofenceCooldown (f_id fence) now st.1,
         (createNotificationsForFamily now uid notificationPayload st.2).2)
      else st
  end.

(** [checkCurrentUserGeofences]; [user] is the uid of the signed-in user,
    [now] the value of [Date.now()]. *)
Definition checkCurrentUserGeofences (user : option string)
    (currentUserProfile : option UserProfile) (geofences : list Geofence)
    (newLocation : option LatLng) (now : Z) (refs : Refs) (db : Firestore)
  : Refs * Firestore :=
  let currentLoc := newLocation in
  let previousLoc := previousUserLocation refs in
  match user, currentLoc, previousLoc, currentUserProfile with
  | Some uid, Some cur, Some prev, Some profile =>
      if negb (Js.truthy (latitude cur)) || negb (Js.truthy (latitude prev)) ||
         bool_decide (geofences = []) || negb (truthyString (up_familyId profile))
      then (refs, db)
      else
        foldl (checkOneGeofence uid profile (default "" (up_familyId profile))
                 prev cur now)
              (refs, db) geofences
  | _, _, _, _ => (refs, db)
  end.

(** The part of the RTDB [onValue] handler that feeds the geofence check
    and remembers the sample. *)
Definition onLiveData (user : option string)
    (currentUserProfile : option UserProfile) (geofences : list Geofence)
    (memberId : string) (liveData : option LiveData) (now : Z)
    (refs : Refs) (db : Firestore) : Refs * Firestore :=
  match liveData ≫= currentLocation with
  | Some loc =>
      if bool_decide (Some memberId = user) then
        let st :=
          match previousUserLocation refs with
          | Some _ =>
              checkCurrentUserGeofences user currentUserProfile geofences
                (Some loc) now refs db
          | None => (refs, db)
          end in
        (setPreviousUserLocation (Some loc) st.1, st.2)
      else (refs, db)
  | None => (refs, db)
  end.

(** What the battery listener decides after it has published the level. *)
Inductive BatteryAction : Type :=
| SendLowBatteryAlert
| ResetLowBatteryCooldown
| NoBatteryAction.

(** The branches of the listener on [newLevel], the profile and the
    remembered time of the last alert. *)
Definition batteryAction (currentUserProfile : option UserProfile)
    (newLevel : Js.number) (now : Z) (refs : Refs) : BatteryAction :=
  let currentFamilyId := currentUserProfile ≫= up_familyId in
  if (newLevel <=? LOW_BATTERY_THRESHOLD)%js &&
     bool_decide (is_Some currentUserProfile) && truthyString currentFamilyId
  then
    let batteryAlertsEnabled :=
      default true ((currentUserProfile ≫= up_settings) ≫= batteryAlerts) in
    if negb batteryAlertsEnabled then NoBatteryAction
    else if clientCooldownOver now BATTERY_COOLDOWN_PERIOD
              (lastLowBatteryAlertSent refs)
    then SendLowBatteryAlert
    else NoBatteryAction
  else if (newLevel >? LOW_BATTERY_THRESHOLD)%js then ResetLowBatteryCooldown
  else NoBatteryAction.

(** The battery level listener: [level] is the level reported by the
    device, between 0 and 1.  (The writes of the level to the Realtime
    Database and to the state map are left out.) *)
Definition onBatteryLevel (uid : string) (currentUserProfile : option UserProfile)
    (level : Js.number) (now : Z) (refs : Refs) (db : Firestore)
  : Refs * Firestore :=
  let newLevel := Js.Math_round (level * Js.ofZ 100)%js in
  match batteryAction currentUserProfile newLevel now refs with
  | SendLowBatteryAlert =>
      let name :=
        orElse (default "" (up_name <$> currentUserProfile)) "A family member" in
      let notificationPayload :=
        {| p_type := low_battery;
           p_title := "Low Battery: " +:+ name;
           p_message :=
             name +:+ "'s phone battery is low (" +:+
             numberToString newLevel +:+ "%).";
           p_familyId := default "" (currentUserProfile ≫= up_familyId);
           p_triggeringUid := Some uid;
           p_relatedGeofenceId := None;
           p_relatedLocation := None |} in
      (setLastLowBatteryAlertSent (Some now) refs,
       (createNotificationsForFamily now uid notificationPayload db).2)
  | ResetLowBatteryCooldown => (setLastLowBatteryAlertSent None refs, db)
  | NoBatteryAction => (refs, db)
  end.

(** [handleSosPress], from the data read in the state map to the stored
    alert; [None] when the handler stops on the missing profile. *)
Definition handleSosPress (user : option string)
    (currentUserProfile : option UserProfile)
    (latestMemberData : option (UserProfile * LiveData)) (now : Z)
    (db : Firestore) : option bool * Firestore :=
  match user, currentUserProfile with
  | Some uid, Some profile =>
      if truthyString (up_familyId profile) then
        let latestName := default "" (up_name ∘ fst <$> latestMemberData) in
        let userName :=
          orElse latestName (orElse (up_name profile) "A family member") in
        let familyId := default "" (up_familyId profile) in
        let locationData := latestMemberData ≫= currentLocation ∘ snd in
        let batteryData := latestMemberData ≫= batteryLevel ∘ snd in
        let notificationPayload :=
          {| p_type := sos;
             p_title := sosTitle userName;
             p_message := sosMessageBody userName locationData batteryData;
             p_familyId := familyId;
             p_triggeringUid := Some uid;
             p_relatedGeofenceId := None;
             p_relatedLocation := locationData |} in
        let r := createNotificationsForFamily now uid notificationPayload db in
        (Some r.1, r.2)
      else (None, db)
  | _, _ => (None, db)
  end.

(** The distance from a client sample to the center of a fence. *)
Definition clientDistance (location : LatLng) (fence : Geofence) : Js.number :=
  getDistance Math_sin Math_cos Math_atan2
    (latitude location) (longitude location)
    (latitude (f_center fence)) (longitude (f_center fence)).

(** The decisions of the client listener along a sequence of reported
    levels and times. *)
Fixpoint clientBatteryTrace (uid : string) (profile : option UserProfile)
    (samples : list (Js.number * Z)) (refs : Refs) (db : Firestore)
  : list BatteryAction :=
  match samples with
  | [] => []
  | (level, now) :: rest =>
      let after := onBatteryLevel uid profile level now refs db in
      batteryAction profile (Js.Math_round (level * Js.ofZ 100)%js) now refs
      :: clientBatteryTrace uid profile rest after.1 after.2
  end.

End Client.

(** ** The geofence edit screen, [app/geofences/[geofenceId].tsx] *)

Definition INITIAL_RADIUS : Js.number := Js.ofZ 200.
Definition MIN_RADIUS : Js.number := Js.ofZ 50.
Definition MAX_RADIUS : Js.number := Js.ofZ 5000.

(** The part of the profile of the signed-in user that the screen reads. *)
Record AuthProfile : Type := mkAuthProfile {
  ap_familyId : option string;
  ap_role : option string }.

(** The form state: [name], [radius] and [center]. *)
Record EditScreen : Type := mkEditScreen {
  name : string;
  radius : Js.number;
  center : option LatLng }.

Definition initialEditScreen : EditScreen :=
  {| name := ""; radius := INITIAL_RADIUS; center := None |}.

Inductive SaveResult : Type :=
| Alerted (title : string)
| Saved.

(** What the user does on the edit screen. *)
Inductive ScreenEvent : Type :=
| SetupScreen (fetchedCenter : LatLng)
| ChangeName (text : string)
| ChangeRadiusText (text : string)
| MapPress (coordinate : LatLng)
| Save (newId : string).

Section EditScreen.

(** [String.prototype.trim] and [parseInt(text, 10)]. *)
Variable trim : string -> string.
Variable parseInt : string -> Js.number.

(** The signed-in user, the profile and the route parameter [geofenceId]. *)
Variable user : option string.
Variable currentUserProfile : option AuthProfile.
Variable geofenceId : string.

Definition isCreating : bool := String.eqb geofenceId "new".
Definition actualGeofenceId : option string :=
  if isCreating then None else Some geofenceId.
Definition isAdmin : bool :=
  bool_decide (currentUserProfile ≫= ap_role = Some "admin").

(** [geofenceDataToSave] *)
Definition geofenceDataToSave (familyId : string) (scr : EditScreen) (c : LatLng)
  : GeofenceData :=
  {| g_name := Some (trim (name scr));
     g_familyId := Some familyId;
     g_center := Some {| c_latitude := JsNumber (latitude c);
                         c_longitude := JsNumber (longitude c) |};
     g_radius := JsNumber (Js.Math_round (radius scr)) |}.

(** [updateDoc(docRef, data)]: the fields of the document [id] are
    replaced; [None] when there is no such document. *)
Fixpoint updateDoc (id : string) (data : GeofenceData)
    (gs : list (string * GeofenceData)) : option (list (string * GeofenceData)) :=
  match gs with
  | [] => None
  | d :: rest =>
      if decide (d.1 = id) then Some ((id, data) :: rest)
      else cons d <$> updateDoc id data rest
  end.

(** [handleSave]; [newId] is the id Firestore gives to an added document.
    The result is the alert shown, or [Saved], and the [geofences]
    collection afterwards. *)
Definition handleSave (newId : string) (scr : EditScreen)
    (gs : list (string * GeofenceData)) : SaveResult * list (string * GeofenceData) :=
  match user, currentUserProfile ≫= ap_familyId with
  | Some _, Some familyId =>
      if String.eqb familyId "" then (Alerted "Error", gs)
      else if negb isAdmin then (Alerted "Permission Denied", gs)
      else
        match center scr with
        | None => (Alerted "Invalid Data", gs)
        | Some c =>
            if String.eqb (trim (name scr)) "" then (Alerted "Invalid Data", gs)
            else if (radius scr <? MIN_RADIUS)%js || (radius scr >? MAX_RADIUS)%js
            then (Alerted "Invalid Data", gs)
            else
              let data := geofenceDataToSave familyId scr c in
              if negb isCreating && truthyString actualGeofenceId then
                match updateDoc geofenceId data gs with
                | Some gs' => (Saved, gs')
                | None => (Alerted "Error Saving Geofence", gs)
                end
              else (Saved, gs ++ [(newId, data)])
        end
  | _, _ => (Alerted "Error", gs)
  end.

(** The radius text field, [onChangeText]. *)
Definition onChangeRadiusText (text : string) (scr : EditScreen) : EditScreen :=
  let num := parseInt text in
  if negb (Js.is_nan num) then
    {| name := name scr;
       radius := Js.Math_max MIN_RADIUS (Js.Math_min MAX_RADIUS num);
       center := center scr |}
  else if String.eqb text "" then
    {| name := name scr; radius := Js.ofZ 0; center := center scr |}
  else scr.

(** The name text field, [onChangeText={setName}]. *)
Definition onChangeName (text : string) (scr : EditScreen) : EditScreen :=
  {| name := text; radius := radius scr; center := center scr |}.

(** [handleMapPress] *)
Definition handleMapPress (coordinate : LatLng) (scr : EditScreen) : EditScreen :=
  if negb isAdmin && negb isCreating then scr
  else {| name := name scr; radius := radius scr; center := Some coordinate |}.

(** [setupScreen] when an existing geofence is edited: the form is filled
    from the document, or left as it is when the data is refused. *)
Definition loadGeofence (gs : list (string * GeofenceData)) (scr : EditScreen)
  : EditScreen :=
  match getDoc geofenceId gs with
  | Some data =>
      if toBoolean (centerLatitude data) && toBoolean (centerLongitude data) &&
         typeofNumber (g_radius data)
      then
        {| name := orDefault (g_name data) "";
           radius := numberOf (g_radius data);
           center := Some (mkLatLng (numberOf (centerLatitude data))
                                    (numberOf (centerLongitude data))) |}
      else scr
  | None => scr
  end.

(** [setupScreen]: an existing geofence is loaded; for a new one the center
    is the current position of the device, or the default one. *)
Definition setupScreen (fetchedCenter : LatLng)
    (gs : list (string * GeofenceData)) (scr : EditScreen) : EditScreen :=
  if negb isCreating && truthyString actualGeofenceId then loadGeofence gs scr
  else {| name := name scr; radius := radius scr; center := Some fetchedCenter |}.

(** One event on the form and on the [geofences] collection. *)
Definition screenStep (st : EditScreen * list (string * GeofenceData))
    (ev : ScreenEvent) : EditScreen * list (string * GeofenceData) :=
  match ev with
  | SetupScreen fetchedCenter =>
      (setupScreen fetchedCenter st.2 st.1, st.2)
  | ChangeName text => (onChangeName text st.1, st.2)
  | ChangeRadiusText text => (onChangeRadiusText text st.1, st.2)
  | MapPress coordinate =>
      (handleMapPress coordinate st.1, st.2)
  | Save newId =>
      (st.1, (handleSave newId st.1 st.2).2)
  end.

End EditScreen.

(** ** Deleting a geofence, [app/geofences/[geofenceId].tsx] *)

(** [deleteDoc(doc(firestore, 'geofences', id))]: the document [id] is
    removed; deleting a document that does not exist succeeds. *)
Definition deleteDoc (id : string) (gs : list (string * GeofenceData))
  : list (string * GeofenceData) :=
  filter (λ d, d.1 ≠ id) gs.

(** What the user does on the edit screen, [handleDelete] included:
    [confirmed] tells whether the user chose "Delete" in the confirmation
    dialog. *)
Inductive ScreenAction : Type :=
| Event (ev : ScreenEvent)
| Delete (confirmed : bool).

Section EditScreenActions.

Variable trim : string -> string.
Variable parseInt : string -> Js.number.
Variable user : option string.
Variable currentUserProfile : option AuthProfile.
Variable geofenceId : string.

(** [handleDelete] *)
Definition handleDelete (confirmed : bool) (gs : list (string * GeofenceData))
  : list (string * GeofenceData) :=
  if negb (isAdmin currentUserProfile) || isCreating geofenceId ||
     negb (truthyString (actualGeofenceId geofenceId))
  then gs
  else if confirmed then deleteDoc geofenceId gs else gs.

Definition screenAction (st : EditScreen * list (string * GeofenceData))
    (a : ScreenAction) : EditScreen * list (string * GeofenceData) :=
  match a with
  | Event ev => screenStep trim parseInt user currentUserProfile geofenceId st ev
  | Delete confirmed => (st.1, handleDelete confirmed st.2)
  end.

End EditScreenActions.

(** ** The geofences shown by the list screen and by the map,
    [app/(tabs)/geofences/index.tsx] and [app/(tabs)/index.tsx] *)

(** An element of the [geofences] state of the two screens, with the
    values as they are read from the document. *)
Record FenceItem : Type := mkFenceItem {
  i_id : string;
  i_name : string;
  i_latitude : JsValue;
  i_longitude : JsValue;
  i_radius : JsValue;
  i_familyId : option string }.

Definition fenceItemOf (doc : string * GeofenceData) : FenceItem :=
  {| i_id := doc.1;
     i_name := orDefault (g_name doc.2) "Unnamed Zone";
     i_latitude := centerLatitude doc.2;
     i_longitude := centerLongitude doc.2;
     i_radius := g_radius doc.2;
     i_familyId := g_familyId doc.2 |}.

(** The snapshot listener of [GeofenceListScreen]. *)
Definition listScreenGeofences (user : option string)
    (currentUserProfile : option AuthProfile)
    (gs : list (string * GeofenceData)) : list FenceItem :=
  match user, currentUserProfile ≫= ap_familyId with
  | Some _, Some familyId =>
      if String.eqb familyId "" then []
      else
        fenceItemOf <$>
        filter (λ doc, toBoolean (centerLatitude doc.2) &&
                       toBoolean (centerLongitude doc.2) &&
                       typeofNumber (g_radius doc.2) = true)
               (geofencesOf familyId gs)
  | _, _ => []
  end.

(** The geofences snapshot listener of [MapScreen]. *)
Definition mapScreenGeofences (user : option string)
    (currentUserProfile : option UserProfile)
    (gs : list (string * GeofenceData)) : list FenceItem :=
  match user, currentUserProfile ≫= up_familyId with
  | Some _, Some familyId =>
      if String.eqb familyId "" then []
      else
        fenceItemOf <$>
        filter (λ doc, toBoolean (centerLatitude doc.2) &&
                       toBoolean (centerLongitude doc.2) &&
                       toBoolean (g_radius doc.2) = true)
               (geofencesOf familyId gs)
  | _, _ => []
  end.

(** ** Publishing the location and recording the history,
    [fetchDeviceLocationAndUpdateRtdb] in [app/(tabs)/index.tsx] *)

Definition MIN_HISTORY_DISTANCE_METERS : Js.number := Js.ofZ 50.

(** A document of the [locationHistory] collection. *)
Record HistoryDoc : Type := mkHistoryDoc {
  h_userId : string;
  h_location : GeoPoint;
  h_timestamp : Z }.

(** What the function reads and writes: the values under
    [liveData/{uid}/currentLocation] of the Realtime Database, with the
    time of the write, the [locationHistory] collection, and the ref
    [lastRecordedHistoryLocation]. *)
Record LocationState : Type := mkLocationState {
  rtdbLocations : gmap string (LatLng * Z);
  locationHistory : list HistoryDoc;
  lastRecordedHistoryLocation : option LatLng }.

(** What the device and the two databases answer during one run: the
    position ([None] when [getCurrentPositionAsync] throws), and whether
    the write to the Realtime Database and the write to Firestore
    succeed. *)
Record LocationRun : Type := mkLocationRun {
  position : option LatLng;
  rtdbWriteSucceeds : bool;
  historyWriteSucceeds : bool;
  runTime : Z }.

(** A history write that a call has issued and awaits: the document given
    to [addDoc], and whether the write succeeds. *)
Record PendingHistoryWrite : Type := mkPendingHistoryWrite {
  pend_doc : HistoryDoc;
  pend_succeeds : bool }.

(** One call of [fetchDeviceLocationAndUpdateRtdb] during the life of the
    map screen: the profile, the permission and the mounted flag that the
    call sees, and what the device and the databases answer. *)
Record LocationCall : Type := mkLocationCall {
  call_profile : option UserProfile;
  call_granted : bool;
  call_isMounted : bool;
  call_run : LocationRun }.

Inductive LocationStep : Type :=
| CallStarts (c : LocationCall)
| HistoryWriteReturns (i : nat).

Section LocationHistory.

Variable Math_sin Math_cos : Js.number -> Js.number.
Variable Math_atan2 : Js.number -> Js.number -> Js.number.

(** [shouldWriteHistory] *)
Definition shouldWriteHistory (last : option LatLng) (newLoc : LatLng) : bool :=
  match last with
  | Some l =>
      let distanceMoved :=
        getDistance Math_sin Math_cos Math_atan2 (latitude l) (longitude l)
          (latitude newLoc) (longitude newLoc) in
      negb (distanceMoved <? MIN_HISTORY_DISTANCE_METERS)%js
  | None => true
  end.

(** [fetchDeviceLocationAndUpdateRtdb] up to its [await addDoc(...)], or to
    its end when it does not get there: the state it leaves and the history
    write it awaits.  [granted] is [locationPermissionStatus === 'granted'].
    When [new GeoPoint] throws, the function catches the error and writes
    no history. *)
Definition fetchUpToHistoryWrite (user : option string)
    (currentUserProfile : option UserProfile) (granted isMounted : bool)
    (run : LocationRun) (st : LocationState)
  : LocationState * option PendingHistoryWrite :=
  let shareLocationEnabled :=
    default true ((currentUserProfile ≫= up_settings) ≫= shareLocation) in
  if negb shareLocationEnabled then (st, None)
  else
    match user with
    | Some uid =>
        if negb granted || negb isMounted then (st, None)
        else
          match position run with
          | None => (st, None)
          | Some newLoc =>
              if negb (rtdbWriteSucceeds run) then (st, None)
              else
                let st1 :=
                  {| rtdbLocations :=
                       <[uid := (newLoc, runTime run)]> (rtdbLocations st);
                     locationHistory := locationHistory st;
                     lastRecordedHistoryLocation :=
                       lastRecordedHistoryLocation st |} in
                if shouldWriteHistory (lastRecordedHistoryLocation st) newLoc
                then
                  match newGeoPoint (latitude newLoc) (longitude newLoc) with
                  | Some location =>
                      (st1,
                       Some {| pend_doc := {| h_userId := uid;
                                              h_location := location;
                                              h_timestamp := runTime run |};
                               pend_succeeds := historyWriteSucceeds run |})
                  | None => (st1, None)
                  end
                else (st1, None)
          end
    | None => (st, None)
    end.

(** The function after its [await addDoc(...)]: the document is in the
    collection and the ref is written, or the write has failed and the ref
    is left as it is. *)
Definition afterHistoryWrite (w : PendingHistoryWrite) (st : LocationState)
  : LocationState :=
  if pend_succeeds w then
    {| rtdbLocations := rtdbLocations st;
       locationHistory := locationHistory st ++ [pend_doc w];
       lastRecordedHistoryLocation :=
         Some (mkLatLng (gp_latitude (h_location (pend_doc w)))
                        (gp_longitude (h_location (pend_doc w)))) |}
  else st.

(** [fetchDeviceLocationAndUpdateRtdb], run from its start to its end with
    no other call in between. *)
Definition fetchDeviceLocationAndUpdateRtdb (user : option string)
    (currentUserProfile : option UserProfile) (granted isMounted : bool)
    (run : LocationRun) (st : LocationState) : LocationState :=
  let started :=
    fetchUpToHistoryWrite user currentUserProfile granted isMounted run st in
  match started.2 with
  | Some w => afterHistoryWrite w started.1
  | None => started.1
  end.

(** The function is started by a timer ([setInterval], every 30 s) and by
    [handleSosPress], and it awaits its writes: a call can start while the
    history write of an earlier call is pending.  A step is the start of a
    call, which runs up to its [await addDoc(...)], or the return of the
    [i]-th pending write, after which its call writes the ref. *)
Definition locationStep (user : option string)
    (s : LocationState * list PendingHistoryWrite) (step : LocationStep)
  : LocationState * list PendingHistoryWrite :=
  match step with
  | CallStarts c =>
      let started :=
        fetchUpToHistoryWrite user (call_profile c) (call_granted c)
          (call_isMounted c) (call_run c) s.1 in
      (started.1, s.2 ++ option_list started.2)
  | HistoryWriteReturns i =>
      match s.2 !! i with
      | Some w => (afterHistoryWrite w s.1, delete i s.2)
      | None => s
      end
  end.

(** *** The profile that the function sees

    The function is memoised,
    [useCallback(..., [user, locationPermissionStatus])]: it is created anew
    in a render in which [user] or [locationPermissionStatus] has changed,
    and it reads [currentUserProfile] from that render.  A render after
    [setCurrentUserProfile] alone keeps the function, and with it the
    profile it has read.  The timer of Effect 2 and [handleSosPress] call
    the function of the latest render. *)
Record MapScreen : Type := mkMapScreen {
  ms_user : option string;
  ms_locationPermissionStatus : option string;
  ms_currentUserProfile : option UserProfile;
  ms_callbackProfile : option UserProfile;
  ms_location : LocationState;
  ms_pending : list PendingHistoryWrite }.

Inductive MapScreenEvent : Type :=
| SetUser (user : option string)
| SetLocationPermissionStatus (status : option string)
| SetCurrentUserProfile (profile : option UserProfile)
| CallbackCalled (isMounted : bool) (run : LocationRun)
| HistoryWriteDone (i : nat).

Definition mapScreenStep (s : MapScreen) (ev : MapScreenEvent) : MapScreen :=
  match ev with
  | SetUser user =>
      if decide (user = ms_user s) then s
      else {| ms_user := user;
              ms_locationPermissionStatus := ms_locationPermissionStatus s;
              ms_currentUserProfile := ms_currentUserProfile s;
              ms_callbackProfile := ms_currentUserProfile s;
              ms_location := ms_location s;
              ms_pending := ms_pending s |}
  | SetLocationPermissionStatus status =>
      if decide (status = ms_locationPermissionStatus s) then s
      else {| ms_user := ms_user s;
              ms_locationPermissionStatus := status;
              ms_currentUserProfile := ms_currentUserProfile s;
              ms_callbackProfile := ms_currentUserProfile s;
              ms_location := ms_location s;
              ms_pending := ms_pending s |}
  | SetCurrentUserProfile profile =>
      {| ms_user := ms_user s;
         ms_locationPermissionStatus := ms_locationPermissionStatus s;
         ms_currentUserProfile := profile;
         ms_callbackProfile := ms_callbackProfile s;
         ms_location := ms_location s;
         ms_pending := ms_pending s |}
  | CallbackCalled isMounted run =>
      let after :=
        locationStep (ms_user s) (ms_location s, ms_pending s)
          (CallStarts
             {| call_profile := ms_callbackProfile s;
                call_granted :=
                  bool_decide (ms_locationPermissionStatus s = Some "granted");
                call_isMounted := isMounted;
                call_run := run |}) in
      {| ms_user := ms_user s;
         ms_locationPermissionStatus := ms_locationPermissionStatus s;
         ms_currentUserProfile := ms_currentUserProfile s;
         ms_callbackProfile := ms_callbackProfile s;
         ms_location := after.1;
         ms_pending := after.2 |}
  | HistoryWriteDone i =>
      let after :=
        locationStep (ms_user s) (ms_location s, ms_pending s)
          (HistoryWriteReturns i) in
      {| ms_user := ms_user s;
         ms_locationPermissionStatus := ms_locationPermissionStatus s;
         ms_currentUserProfile := ms_currentUserProfile s;
         ms_callbackProfile := ms_callbackProfile s;
         ms_location := after.1;
         ms_pending := after.2 |}
  end.

End LocationHistory.

(** ** Signing up, creating and joining a family, [context/AuthContext.tsx]
    and [app/(tabs)/explore.tsx] *)

(** A document of the [families] collection; [members] is the object
    whose keys are the uids of the members, each with the value [true]. *)
Record FamilyData : Type := mkFamilyData {
  fam_familyName : string;
  fam_members : gset string;
  fam_inviteCode : string;
  fam_createdAt : Z;
  fam_adminId : string }.

(** The two collections that the handlers read and write. *)
Record FamilyDb : Type := mkFamilyDb {
  fdb_users : list (string * UserData);
  fdb_families : list (string * FamilyData) }.

(** [setDoc(ref, data)] and [transaction.set(ref, data)]: the document is
    replaced when it exists and created otherwise. *)
Fixpoint setDoc {A : Type} (id : string) (data : A) (docs : list (string * A))
  : list (string * A) :=
  match docs with
  | [] => [(id, data)]
  | d :: rest =>
      if decide (d.1 = id) then (id, data) :: rest else d :: setDoc id data rest
  end.

(** [transaction.update(ref, fields)]: the fields of an existing document
    are changed by [f]; [None] when there is no such document, which makes
    the transaction fail. *)
Fixpoint updateFields {A : Type} (id : string) (f : A → A)
    (docs : list (string * A)) : option (list (string * A)) :=
  match docs with
  | [] => None
  | d :: rest =>
      if decide (d.1 = id) then Some ((d.1, f d.2) :: rest)
      else cons d <$> updateFields id f rest
  end.

(** [email.split('@')[0]] *)
Fixpoint beforeAt (email : string) : string :=
  match email with
  | EmptyString => EmptyString
  | String c rest =>
      if String.eqb (String c EmptyString) "@" then EmptyString
      else String c (beforeAt rest)
  end.

(** [signup], after [createUserWithEmailAndPassword] has returned the new
    user [uid]: the user document is created without family and role. *)
Definition signup (uid email : string) (db : FamilyDb) : FamilyDb :=
  let userDocData :=
    {| u_name := Some (orElse (beforeAt email) "New User");
       u_familyId := None;
       u_fcmToken := None;
       u_role := None |} in
  {| fdb_users := setDoc uid userDocData (fdb_users db);
     fdb_families := fdb_families db |}.

(** The alert that a handler of the family screen shows. *)
Inductive FamilyAlert : Type :=
| AlertError
| AlertFamilyCreated (inviteCode : string)
| AlertInputNeeded
| AlertInvalidCode
| AlertJoined.

(** The first document of a query on the invite code, [limit(1)]. *)
Definition familyWithCode (code : string) (families : list (string * FamilyData))
  : option (string * FamilyData) :=
  head (filter (λ d, fam_inviteCode d.2 = code) families).

Section FamilyScreen.

(** [String.prototype.trim] and [String.prototype.toUpperCase]. *)
Variable trim toUpperCase : string -> string.

(** The fields that joining or creating a family writes to the user
    document. *)
Definition withFamily (familyId role : string) (u : UserData) : UserData :=
  {| u_name := u_name u;
     u_familyId := Some familyId;
     u_fcmToken := u_fcmToken u;
     u_role := Some role |}.

(** [handleCreateFamily]: [inviteCode] is the code returned by
    [generateInviteCode(6)], [newFamilyId] the id of the new document
    reference, [now] the server timestamp. *)
Definition handleCreateFamily (user : option string)
    (currentUserProfile : option UserProfile) (inviteCode newFamilyId : string)
    (now : Z) (db : FamilyDb) : FamilyAlert * FamilyDb :=
  match user, currentUserProfile with
  | Some uid, Some profile =>
      let userSnap := getDoc uid (fdb_users db) in
      if truthyString (userSnap ≫= u_familyId) then (AlertError, db)
      else
        let families :=
          setDoc newFamilyId
            {| fam_familyName := orElse (up_name profile) "My" +:+ "'s Family";
               fam_members := {[ uid ]};
               fam_inviteCode := inviteCode;
               fam_createdAt := now;
               fam_adminId := uid |}
            (fdb_families db) in
        match updateFields uid (withFamily newFamilyId "admin") (fdb_users db) with
        | Some users =>
            (AlertFamilyCreated inviteCode,
             {| fdb_users := users; fdb_families := families |})
        | None => (AlertError, db)
        end
  | _, _ => (AlertError, db)
  end.

(** [handleJoinFamily]: [familyCodeInput] is the text of the input field. *)
Definition handleJoinFamily (user : option string) (familyCodeInput : string)
    (db : FamilyDb) : FamilyAlert * FamilyDb :=
  match user with
  | Some uid =>
      if String.eqb familyCodeInput "" then (AlertInputNeeded, db)
      else
        let codeToJoin := toUpperCase (trim familyCodeInput) in
        if String.eqb codeToJoin "" then (AlertInputNeeded, db)
        else
          match familyWithCode codeToJoin (fdb_families db) with
          | None => (AlertInvalidCode, db)
          | Some familyDoc =>
              let familyId := familyDoc.1 in
              let userSnap := getDoc uid (fdb_users db) in
              if truthyString (userSnap ≫= u_familyId) then (AlertError, db)
              else
                match updateFields uid (withFamily familyId "member")
                        (fdb_users db),
                      updateFields familyId
                        (λ f, {| fam_familyName := fam_familyName f;
                                 fam_members := {[ uid ]} ∪ fam_members f;
                                 fam_inviteCode := fam_inviteCode f;
                                 fam_createdAt := fam_createdAt f;
                                 fam_adminId := fam_adminId f |})
                        (fdb_families db) with
                | Some users, Some families =>
                    (AlertJoined,
                     {| fdb_users := users; fdb_families := families |})
                | _, _ => (AlertError, db)
                end
          end
  | None => (AlertInputNeeded, db)
  end.

(** [isInviteCodeUnique], [utils/helpers.ts]; [queryFails] tells whether
    the query throws. *)
Definition isInviteCodeUnique (queryFails : bool) (code : string)
    (families : list (string * FamilyData)) : bool :=
  if queryFails then false
  else bool_decide (filter (λ d, fam_inviteCode d.2 = code) families = []).

End FamilyScreen.

(** ** Invite codes, [generateInviteCode] in [utils/helpers.ts] *)

(** [Math.floor] *)
Definition Math_floor (x : Js.number) : Js.number :=
  match x with
  | S754_finite s m e =>
      if 0 <=? e then x
      else
        let q := Zpos m / 2 ^ (- e) in
        let r := Zpos m mod 2 ^ (- e) in
        if s then binary_normalize Js.prec Js.emax (- (if r =? 0 then q else q + 1))
                   0 false
        else binary_normalize Js.prec Js.emax q 0 false
  | _ => x
  end.

(** [ToIntegerOrInfinity]: [None] stands for the two infinities. *)
Definition toIntegerOrInfinity (x : Js.number) : option Z :=
  match x with
  | S754_nan | S754_zero _ => Some 0
  | S754_infinity _ => None
  | S754_finite s m e =>
      Some (cond_Zopp s (if 0 <=? e then Zpos m * 2 ^ e else Zpos m / 2 ^ (- e)))
  end.

(** [String.prototype.charAt]: the empty string when the position is out
    of range. *)
Definition charAt (s : string) (pos : Js.number) : string :=
  match toIntegerOrInfinity pos with
  | Some p =>
      if p <? 0 then ""
      else match String.get (Z.to_nat p) s with
           | Some c => String c EmptyString
           | None => ""
           end
  | None => ""
  end.

Definition characters : string := "ABCDEFGHJKLMNPQRSTUVWXYZ23456789".

(** [characters.length] *)
Definition charactersLength : Js.number := Js.ofZ 32.

(** The loop of [generateInviteCode]: [random i] is the value that the
    call of [Math.random()] in the iteration [i] returns, [remaining] the
    number of iterations left. *)
Fixpoint inviteCodeLoop (random : nat → Js.number) (i remaining : nat)
    (result : string) : string :=
  match remaining with
  | O => result
  | S k =>
      inviteCodeLoop random (S i) k
        (result +:+
         charAt characters (Math_floor (random i * charactersLength)%js))
  end.

(** [generateInviteCode(length)], for a [length] that is a natural number
    (the screen calls [generateInviteCode(6)]). *)
Definition generateInviteCode (random : nat → Js.number) (length : nat) : string :=
  inviteCodeLoop random 0 length "".

(** * Vocabulary of the properties *)

(** ** Predicates and derived functions *)

(** Zero or finite, of a given sign, with bounded size. *)
Definition small (s : bool) (D E : Z) (x : spec_float) : Prop :=
  match x with
  | S754_zero s' => s' = s
  | S754_finite s' m e => s' = s ∧ Zpos (digits2_pos m) ≤ D ∧ e ≤ E
  | _ => False
  end.

(** A number that is a binary64 value in canonical form and is not NaN. *)
Definition wellFormed (x : Js.number) : bool :=
  valid_binary Js.prec Js.emax x && negb (Js.is_nan x).

(** Numbers that are binary64 values in canonical form and lie in the
    range of a latitude or of a longitude, in degrees. *)
Definition validLatitude (lat : Js.number) : bool :=
  valid_binary Js.prec Js.emax lat && (SFabs lat <=? Js.ofZ 90)%js.

Definition validLongitude (lon : Js.number) : bool :=
  valid_binary Js.prec Js.emax lon && (SFabs lon <=? Js.ofZ 180)%js.

(** The table of the detector for one fence: an entry when the previous
    sample was strictly outside and the current one is inside, an exit when
    the previous one was inside and the current one is strictly outside, and
    nothing otherwise. *)
Definition TransitionTable (distanceOld distanceNew radius : Js.number)
    (emitted : option NotificationType) : Prop :=
  (emitted = Some geofence_entry ↔
     (distanceOld >? radius)%js = true ∧ (distanceNew <=? radius)%js = true) ∧
  (emitted = Some geofence_exit ↔
     (distanceOld <=? radius)%js = true ∧ (distanceNew >? radius)%js = true) ∧
  (emitted = None ↔
     ¬ ((distanceOld >? radius)%js = true ∧ (distanceNew <=? radius)%js = true) ∧
     ¬ ((distanceOld <=? radius)%js = true ∧ (distanceNew >? radius)%js = true)).

(** The same table with "outside" read as "not inside", which is what the
    code tests; the two readings differ only when a distance is NaN. *)
Definition TransitionTableNotInside (distanceOld distanceNew radius : Js.number)
    (emitted : option NotificationType) : Prop :=
  (emitted = Some geofence_entry ↔
     (distanceOld <=? radius)%js = false ∧ (distanceNew <=? radius)%js = true) ∧
  (emitted = Some geofence_exit ↔
     (distanceOld <=? radius)%js = true ∧ (distanceNew <=? radius)%js = false) ∧
  (emitted = None ↔
     (distanceOld <=? radius)%js = (distanceNew <=? radius)%js).

(** A fence that passes the client's check of its center and radius. *)
Definition validGeofenceClient (fence : Geofence) : bool :=
  Js.truthy (latitude (f_center fence)) &&
  Js.truthy (longitude (f_center fence)) &&
  Js.truthy (f_radius fence).

(** A field that is missing, is not a number, or is the number zero. *)
Definition missingNonNumericOrZero (v : JsValue) : Prop :=
  v = JsUndefined ∨ typeofNumber v = false ∨ ∃ s, v = JsNumber (S754_zero s).

(** The push token the dispatcher finds for a recipient, if it is usable. *)
Definition usableToken (us : list (string * UserData)) (recipientUid : string)
  : option string :=
  match getDoc recipientUid us ≫= u_fcmToken with
  | Some token => if String.eqb token "" then None else Some token
  | None => None
  end.

(** A stored notification about [userId] that is addressed to somebody
    else. *)
Definition notifiesAnother (userId : string) (d : NotificationDoc) : Prop :=
  n_triggeringUid d = Some userId ∧ n_recipientUid d ≠ userId.

(** A stored notification whose recipient is its triggering user. *)
Definition selfAddressed (d : NotificationDoc) : Prop :=
  n_triggeringUid d = Some (n_recipientUid d).

(** The log after an operation is the log before it followed by documents
    about [userId] addressed to others. *)
Definition appendsForOthers (userId : string) (before after : Firestore) : Prop :=
  ∃ new, notifications after = notifications before ++ new ∧
         Forall (λ d, notifiesAnother userId d ∧ ¬ selfAddressed d) new.

(** Calls about [userId] that go to other members. *)
Definition callsForOthers (userId : string) (calls : list Dispatch) : Prop :=
  Forall (λ c, d_recipientUid c ≠ userId ∧
               core_triggeringUid (d_data c) = Some userId) calls.

(** The members of a family other than the user, in the order of the
    members snapshot. *)
Definition otherMembers (userId familyId : string) (us : list (string * UserData))
  : list (string * UserData) :=
  filter (λ doc, doc.1 ≠ userId) (membersOf familyId us).

(** The push to a user succeeds: the user document holds a token, and the
    provider accepts every message for this token. *)
Definition pushSucceeds (sendToDevice : string → MessagingPayload → PushResult)
    (us : list (string * UserData)) (uid : string) : Prop :=
  ∃ token, usableToken us uid = Some token ∧
           ∀ payload, sendToDevice token payload = PushSent.

(** [d] is a most recent document of [log] among those that satisfy [P]. *)
Definition mostRecent (P : NotificationDoc → Prop) (log : list NotificationDoc)
    (d : NotificationDoc) : Prop :=
  d ∈ log ∧ P d ∧ ∀ d', d' ∈ log → P d' → n_timestamp d' ≤ n_timestamp d.

(** The documents the low-battery cooldown query selects: the low-battery
    notifications triggered by [userId]. *)
Definition matchesLowBattery (userId : string) (d : NotificationDoc) : Prop :=
  n_triggeringUid d = Some userId ∧ n_type d = low_battery.

(** The documents the geofence cooldown query selects: the notifications
    of kind [ty] triggered by [userId] about the fence [fenceId]. *)
Definition matchesGeofence (userId fenceId : string) (ty : NotificationType)
    (d : NotificationDoc) : Prop :=
  n_triggeringUid d = Some userId ∧ n_relatedGeofenceId d = Some fenceId ∧
  n_type d = ty.

(** The detections of the server trigger along a sequence of battery
    levels, each update seeing the level before it. *)
Fixpoint serverBatteryDetections (previous : option Js.number)
    (levels : list Js.number) : list bool :=
  match levels with
  | [] => []
  | level :: rest =>
      lowBatteryDetected previous (Some level)
      :: serverBatteryDetections (Some level) rest
  end.

(** A battery level of [n] percent as the device reports it. *)
Definition percent (n : Z) : Js.number := (Js.ofZ n / Js.ofZ 100)%js.

(** The refs after one report of the battery level. *)
Definition refsAfterBattery (profile : option UserProfile) (newLevel : Js.number)
    (now : Z) (refs : Refs) : Refs :=
  match batteryAction profile newLevel now refs with
  | SendLowBatteryAlert => setLastLowBatteryAlertSent (Some now) refs
  | ResetLowBatteryCooldown => setLastLowBatteryAlertSent None refs
  | NoBatteryAction => refs
  end.

(** The bounded-radius invariant of a stored geofence: the radius is an
    integer between 50 and 5000. *)
Definition boundedRadius (g : GeofenceData) : Prop :=
  ∃ n, 50 ≤ n ≤ 5000 ∧ g_radius g = JsNumber (Js.ofZ n).

(** ** Sample data, on which the definitions are run *)

(** A crude engine: enough to evaluate [getDistance] on concrete inputs. *)
Definition sampleSin (x : Js.number) : Js.number := x.
Definition sampleCos (_ : Js.number) : Js.number := Js.ofZ 1.
Definition sampleAtan2 (y _ : Js.number) : Js.number := y.

(** A finer engine at the arguments that the distance between the points
    (-87.5, -180) and (87.5, 0) needs.  At 87.5 and at 90 degrees (in
    radians, as [getDistance] computes them) [Math.sin] and [Math.cos]
    return the binary64 numbers nearest to the sine and the cosine; sine is
    odd and cosine is even.  Elsewhere the engine is as crude as the sample
    engine.  [Math.atan2] returns NaN when an argument is NaN. *)
Definition radians87_5 : Js.number := S754_finite false 6877731147805427 (-52).
Definition radians90 : Js.number := S754_finite false 7074237752028440 (-52).

Definition signOf (x : Js.number) : bool :=
  match x with
  | S754_zero s | S754_infinity s | S754_finite s _ _ => s
  | S754_nan => false
  end.

Definition antipodeSin (x : Js.number) : Js.number :=
  let v :=
    if SFeqb (SFabs x) radians87_5 then S754_finite false 8998626396882423 (-53)
    else if SFeqb (SFabs x) radians90 then Js.ofZ 1
    else SFabs x in
  if signOf x then Js.neg v else v.

Definition antipodeCos (x : Js.number) : Js.number :=
  if SFeqb (SFabs x) radians87_5 then S754_finite false 6286216213909042 (-57)
  else Js.ofZ 1.

Definition antipodeAtan2 (y x : Js.number) : Js.number :=
  if Js.is_nan y || Js.is_nan x then S754_nan else y.

(** 87.5 *)
Definition degrees87_5 : Js.number := (Js.ofZ 175 / Js.ofZ 2)%js.

(** A sample with whole-degree coordinates, as the server reads it and as
    the client holds it. *)
Definition sampleLocation (lat lon : Z) : option LocationData :=
  Some {| l_latitude := JsNumber (Js.ofZ lat); l_longitude := JsNumber (Js.ofZ lon) |}.

Definition sampleLatLng (lat lon : Z) : LatLng := mkLatLng (Js.ofZ lat) (Js.ofZ lon).

(** A fence of radius 100 m centered at (10, 10), as a server document and
    as the client holds it. *)
Definition homeFence : GeofenceData :=
  {| g_name := Some "Home"; g_familyId := Some "fam";
     g_center := Some {| c_latitude := JsNumber (Js.ofZ 10);
                         c_longitude := JsNumber (Js.ofZ 10) |};
     g_radius := JsNumber (Js.ofZ 100) |}.

Definition homeFenceClient : Geofence :=
  {| f_id := "home"; f_name := "Home";
     f_center := mkLatLng (Js.ofZ 10) (Js.ofZ 10);
     f_radius := Js.ofZ 100; f_familyId := Some "fam" |}.

Definition sampleUser (name family : string) (token : option string) : UserData :=
  {| u_name := Some name; u_familyId := Some family; u_fcmToken := token;
     u_role := None |}.

(** A family of three: alice and bob have a push token, carol has none. *)
Definition sampleDb : Firestore :=
  {| users := [("alice", sampleUser "Alice" "fam" (Some "tokA"));
               ("bob", sampleUser "Bob" "fam" (Some "tokB"));
               ("carol", sampleUser "Carol" "fam" None)];
     geofences := [("home", homeFence)];
     notifications := [] |}.

(** The profile of alice on her device. *)
Definition sampleProfile : UserProfile :=
  {| up_id := "alice"; up_name := "Alice"; up_familyId := Some "fam";
     up_settings := None |}.

(** A stored entry of alice into the home fence, recorded for bob at time
    1000, and the sample database with this entry in its log. *)
Definition sampleEntryDoc : NotificationDoc :=
  {| n_type := geofence_entry; n_title := "Home";
     n_message := "Alice arrived at Home."; n_familyId := "fam";
     n_triggeringUid := Some "alice"; n_relatedGeofenceId := Some "home";
     n_relatedLocation := None; n_recipientUid := "bob";
     n_timestamp := 1000; n_read := false |}.

Definition sampleDbWithEntry : Firestore := addNotification sampleEntryDoc sampleDb.


Definition sampleData : NotificationCoreData :=
  {| core_type := low_battery; core_title := "Low Battery: Alice";
     core_message := "Alice's phone battery is low (18%)."; core_familyId := "fam";
     core_triggeringUid := Some "alice"; core_relatedGeofenceId := None;
     core_relatedLocation := None |}.

(** A stored low-battery alert of alice, recorded for bob at time 1000, and
    the sample database with this alert in its log. *)
Definition sampleLowBatteryDoc : NotificationDoc :=
  notificationDocOf sampleData "bob" 1000.

Definition sampleDbWithLowBattery : Firestore :=
  addNotification sampleLowBatteryDoc sampleDb.

(** An admin of the sample family, and what the admin does on the edit
    screen to create a geofence. *)
Definition adminProfile : AuthProfile :=
  {| ap_familyId := Some "fam"; ap_role := Some "admin" |}.

Definition sampleEvents : list ScreenEvent :=
  [SetupScreen (sampleLatLng 10 10); ChangeName "Home"; ChangeRadiusText "120";
   MapPress (sampleLatLng 20 10); Save "g1"].

(** ** Vocabulary of the further properties *)

(** The documents that an operation appended to the log. *)
Definition newDocs (before after : Firestore) : list NotificationDoc :=
  drop (length (notifications before)) (notifications after).

(** A user document after an operation: the same document, where the push
    token may have been removed. *)
Definition tokenCleared (u u' : string * UserData) : Prop :=
  u'.1 = u.1 ∧ u_name u'.2 = u_name u.2 ∧
  u_familyId u'.2 = u_familyId u.2 ∧ u_role u'.2 = u_role u.2 ∧
  (u_fcmToken u'.2 = u_fcmToken u.2 ∨ u_fcmToken u'.2 = None).

Definition onlyTokensCleared (before after : list (string * UserData)) : Prop :=
  Forall2 tokenCleared before after.

(** What a server trigger may do to the database: append to the log and
    remove push tokens. *)
Definition serverFrame (before after : Firestore) : Prop :=
  geofences after = geofences before ∧
  onlyTokensCleared (users before) (users after) ∧
  notifications before `prefix_of` notifications after.

(** What a client path may do to the database: append to the log. *)
Definition clientFrame (before after : Firestore) : Prop :=
  users after = users before ∧ geofences after = geofences before ∧
  notifications before `prefix_of` notifications after.

(** The document that a call of [sendAndStoreNotification] records when it
    records one. *)
Definition docOfCall (now : Z) (c : Dispatch) : NotificationDoc :=
  notificationDocOf (d_data c) (d_recipientUid c) now.

(** A notification that stays inside a family: it carries the id of the
    family and its recipient is a user of this family. *)
Definition withinFamily (us : list (string * UserData)) (familyId : string)
    (d : NotificationDoc) : Prop :=
  n_familyId d = familyId ∧
  ∃ u, (n_recipientUid d, u) ∈ us ∧ u_familyId u = Some familyId.

(** A family of two, alice and bob, who both have a push token. *)
Definition sampleDbTwo : Firestore :=
  {| users := [("alice", sampleUser "Alice" "fam" (Some "tokA"));
               ("bob", sampleUser "Bob" "fam" (Some "tokB"))];
     geofences := [("home", homeFence)];
     notifications := [] |}.

(** Whom a notification is for and which fence it is about. *)
Definition recipientAndFence (d : NotificationDoc) : string * option string :=
  (n_recipientUid d, n_relatedGeofenceId d).

(** The value under [currentLocation] that the client holds as [l], and the
    geofence document that the client holds as [fence]. *)
Definition locationDataOf (l : LatLng) : option LocationData :=
  Some {| l_latitude := JsNumber (latitude l);
          l_longitude := JsNumber (longitude l) |}.

Definition geofenceDocOf (fence : Geofence) : string * GeofenceData :=
  (f_id fence,
   {| g_name := Some (f_name fence);
      g_familyId := f_familyId fence;
      g_center := Some {| c_latitude := JsNumber (latitude (f_center fence));
                          c_longitude := JsNumber (longitude (f_center fence)) |};
      g_radius := JsNumber (f_radius fence) |}).

(** The element of the [geofences] state read at the types that the
    screens declare for it, when its coordinates and radius are numbers. *)
Definition asGeofence (item : FenceItem) : option Geofence :=
  match i_latitude item, i_longitude item, i_radius item with
  | JsNumber lat, JsNumber lon, JsNumber r =>
      Some {| f_id := i_id item; f_name := i_name item;
              f_center := mkLatLng lat lon; f_radius := r;
              f_familyId := i_familyId item |}
  | _, _, _ => None
  end.

(** The center is off the equator and off the prime meridian (and neither
    coordinate is NaN). *)
Definition offTheAxes (c : LatLng) : bool :=
  Js.truthy (latitude c) && Js.truthy (longitude c).

(** The point of a history document. *)
Definition pointOf (d : HistoryDoc) : LatLng :=
  mkLatLng (gp_latitude (h_location d)) (gp_longitude (h_location d)).

Section LocationSession.

Variable Math_sin Math_cos : Js.number -> Js.number.
Variable Math_atan2 : Js.number -> Js.number -> Js.number.

(** The calls of one session of the signed-in user, in order, when no call
    starts before the call before it has ended. *)
Definition locationSession (user : option string) (calls : list LocationCall)
    (st : LocationState) : LocationState :=
  foldl (λ st c,
           fetchDeviceLocationAndUpdateRtdb Math_sin Math_cos Math_atan2 user
             (call_profile c) (call_granted c) (call_isMounted c) (call_run c) st)
        st calls.

(** Consecutive points are not closer than the history threshold: the
    test [distanceMoved < 50] is false for each point and the next. *)
Fixpoint spaced (pts : list LatLng) : Prop :=
  match pts with
  | p :: rest =>
      match rest with
      | q :: _ => shouldWriteHistory Math_sin Math_cos Math_atan2 (Some p) q = true
      | [] => True
      end ∧ spaced rest
  | [] => True
  end.

End LocationSession.

(** The steps of a session in which no two calls overlap: the history
    write of a call returns before the next call starts. *)
Definition oneAfterTheOther (calls : list LocationCall) : list LocationStep :=
  calls ≫= λ c, [CallStarts c; HistoryWriteReturns 0].

(** An event of the map screen after which the memoised function is the
    one from before: neither the user nor the permission is set. *)
Definition keepsCallback (ev : MapScreenEvent) : Prop :=
  match ev with
  | SetUser _ | SetLocationPermissionStatus _ => False
  | _ => True
  end.

(** A profile that has switched location sharing off. *)
Definition sharingOff (profile : option UserProfile) : Prop :=
  (profile ≫= up_settings) ≫= shareLocation = Some false.

(** What happens to the users and the families. *)
Inductive FamilyEvent : Type :=
| SignUp (uid email : string)
| CreateFamily (uid : string) (profile : option UserProfile)
    (inviteCode newFamilyId : string) (now : Z)
| JoinFamily (uid familyCodeInput : string).

Section FamilyLife.

Variable trim toUpperCase : string -> string.

Definition familyStep (db : FamilyDb) (ev : FamilyEvent) : FamilyDb :=
  match ev with
  | SignUp uid email => signup uid email db
  | CreateFamily uid profile inviteCode newFamilyId now =>
      (handleCreateFamily (Some uid) profile inviteCode newFamilyId now db).2
  | JoinFamily uid familyCodeInput =>
      (handleJoinFamily trim toUpperCase (Some uid) familyCodeInput db).2
  end.

(** The id of every new family document is unused when the document is
    created. *)
Fixpoint freshFamilyIds (db : FamilyDb) (events : list FamilyEvent) : Prop :=
  match events with
  | [] => True
  | ev :: rest =>
      match ev with
      | CreateFamily _ _ _ newFamilyId _ =>
          newFamilyId ∉ fst <$> fdb_families db
      | _ => True
      end ∧ freshFamilyIds (familyStep db ev) rest
  end.

End FamilyLife.

(** The user documents and the family documents agree: a user who holds a
    family id is a member of this family, and a user who holds the role
    [admin] in a family is the admin that the family document names. *)
Definition familyConsistent (db : FamilyDb) : Prop :=
  ∀ uid u familyId,
    (uid, u) ∈ fdb_users db → u_familyId u = Some familyId →
    (familyId ≠ "" →
     ∃ f, getDoc familyId (fdb_families db) = Some f ∧ uid ∈ fam_members f) ∧
    (u_role u = Some "admin" →
     ∃ f, getDoc familyId (fdb_families db) = Some f ∧ fam_adminId f = uid).

(** The profile that the screens hold for a user document. *)
Definition authProfileOf (u : UserData) : AuthProfile :=
  {| ap_familyId := u_familyId u; ap_role := u_role u |}.

(** A value that [Math.random()] may return: a binary64 number that is at
    least 0 and less than 1. *)
Definition randomValue (x : Js.number) : bool :=
  valid_binary Js.prec Js.emax x && (Js.ofZ 0 <=? x)%js && (x <? Js.ofZ 1)%js.

(** The characters of a string. *)
Fixpoint charsOf (s : string) : list Ascii.ascii :=
  match s with
  | EmptyString => []
  | String c rest => c :: charsOf rest
  end.

(** ** Sample data of the further properties *)

(** The entry of alice into the home fence as the server trigger records
    it for bob at time 1000, with the location of the update. *)
Definition sampleServerEntryDoc : NotificationDoc :=
  {| n_type := geofence_entry; n_title := "Home";
     n_message := "Alice arrived at Home."; n_familyId := "fam";
     n_triggeringUid := Some "alice"; n_relatedGeofenceId := Some "home";
     n_relatedLocation := Some (mkGeoPoint (Js.ofZ 10) (Js.ofZ 10));
     n_recipientUid := "bob"; n_timestamp := 1000; n_read := false |}.

(** The sample family, and dave who has just signed up. *)
Definition newcomer : UserData :=
  {| u_name := Some "dave"; u_familyId := None; u_fcmToken := None;
     u_role := None |}.

Definition sampleDbNewcomer : Firestore :=
  {| users := users sampleDb ++ [("dave", newcomer)];
     geofences := geofences sampleDb;
     notifications := [] |}.

(** The profile of alice with the battery alerts and the location sharing
    switched off. *)
Definition quietProfile : UserProfile :=
  {| up_id := "alice"; up_name := "Alice"; up_familyId := Some "fam";
     up_settings := Some {| shareLocation := Some false;
                            batteryAlerts := Some false |} |}.

(** A member of the sample family who is not its admin. *)
Definition memberProfile : AuthProfile :=
  {| ap_familyId := Some "fam"; ap_role := Some "member" |}.

(** A second geofence of the sample family. *)
Definition schoolFence : GeofenceData :=
  {| g_name := Some "School"; g_familyId := Some "fam";
     g_center := Some {| c_latitude := JsNumber (Js.ofZ 30);
                         c_longitude := JsNumber (Js.ofZ 30) |};
     g_radius := JsNumber (Js.ofZ 200) |}.

(** The form of the edit screen before the save of the sample run. *)
Definition sampleForm : EditScreen :=
  {| name := "Home"; radius := Js.ofZ 120; center := Some (sampleLatLng 20 10) |}.

(** Two reports of the device of alice, at (10, 10) and at (20, 20), and
    the state of a session that starts. *)
Definition sampleCall (profile : option UserProfile) (lat lon time : Z)
  : LocationCall :=
  {| call_profile := profile; call_granted := true; call_isMounted := true;
     call_run := {| position := Some (sampleLatLng lat lon);
                    rtdbWriteSucceeds := true; historyWriteSucceeds := true;
                    runTime := time |} |}.

Definition sessionStart : LocationState :=
  {| rtdbLocations := ∅; locationHistory := [];
     lastRecordedHistoryLocation := None |}.

(** The map screen of alice when the permission has just been granted: the
    function has been created, no profile has arrived yet. *)
Definition sampleScreen : MapScreen :=
  {| ms_user := Some "alice";
     ms_locationPermissionStatus := Some "granted";
     ms_currentUserProfile := None;
     ms_callbackProfile := None;
     ms_location := sessionStart;
     ms_pending := [] |}.

(** The users and the families before dave creates a family: dave and erin
    have signed up and hold no family. *)
Definition sampleFamilyDb : FamilyDb :=
  signup "erin" "erin@example.org"
    (signup "dave" "dave@example.org" {| fdb_users := []; fdb_families := [] |}).

Definition daveProfile : UserProfile :=
  {| up_id := "dave"; up_name := "dave"; up_familyId := None;
     up_settings := None |}.

(** The family of dave, once created. *)
Definition sampleFamilyDbCreated : FamilyDb :=
  (handleCreateFamily (Some "dave") (Some daveProfile) "ABC234" "fam1" 1000
     sampleFamilyDb).2.

(** A random number generator that returns 0, 1/8, 2/8, ... *)
Definition sampleRandom (i : nat) : Js.number :=
  (Js.ofZ (Z.of_nat i) / Js.ofZ 8)%js.

(** * Properties *)

(** ** Signs in binary64 arithmetic *)

Section SignFacts.

Variables prec emax : Z.

Lemma SFopp_involutive x : SFopp (SFopp x) = x.
Proof. destruct x as [[]|[]| |[] ? ?]; reflexivity. Qed.

Lemma binary_round_aux_negb s m e l :
  binary_round_aux prec emax (negb s) m e l =
  SFopp (binary_round_aux prec emax s m e l).
Proof.
  unfold binary_round_aux.
  destruct (shr_fexp prec emax m e l) as [mrs' e'].
  destruct (shr_fexp prec emax _ e' loc_Exact) as [mrs'' e''].
  destruct (shr_m mrs''); try reflexivity.
  destruct (e'' <=? emax - prec); reflexivity.
Qed.

Lemma binary_round_negb s m e :
  binary_round prec emax (negb s) m e = SFopp (binary_round prec emax s m e).
Proof.
  unfold binary_round. destruct (shl_align _ _ _) as [mz ez].
  apply binary_round_aux_negb.
Qed.

Lemma SFmul_comm x y : SFmul prec emax x y = SFmul prec emax y x.
Proof.
  destruct x as [sx|sx| |sx mx ex], y as [sy|sy| |sy my ey]; simpl;
    rewrite ?(xorb_comm sx sy); try reflexivity.
  by rewrite Pos.mul_comm, Z.add_comm.
Qed.

Lemma SFmul_opp_l x y :
  SFmul prec emax (SFopp x) y = SFopp (SFmul prec emax x y).
Proof.
  destruct x as [sx|sx| |sx mx ex], y as [sy|sy| |sy my ey]; simpl;
    rewrite <- ?negb_xorb_l; try reflexivity.
  apply binary_round_aux_negb.
Qed.

Lemma SFmul_opp_r x y :
  SFmul prec emax x (SFopp y) = SFopp (SFmul prec emax x y).
Proof. by rewrite SFmul_comm, SFmul_opp_l, SFmul_comm. Qed.

Lemma SFdiv_opp_l x y :
  SFdiv prec emax (SFopp x) y = SFopp (SFdiv prec emax x y).
Proof.
  destruct x as [sx|sx| |sx mx ex], y as [sy|sy| |sy my ey]; simpl;
    rewrite <- ?negb_xorb_l; try reflexivity.
  destruct (SFdiv_core_binary _ _ _ _ _ _) as [[mz ez] lz].
  apply binary_round_aux_negb.
Qed.

Lemma binary_normalize_opp m e :
  m ≠ 0 ->
  binary_normalize prec emax (- m) e false =
  SFopp (binary_normalize prec emax m e false).
Proof.
  destruct m as [|p|p]; [done| |]; intros _; simpl.
  - apply (binary_round_negb false).
  - rewrite (binary_round_negb false). by rewrite SFopp_involutive.
Qed.

(** [y - x] is the opposite of [x - y], unless both are [+0]. *)
Lemma SFsub_swap x y :
  SFsub prec emax y x = SFopp (SFsub prec emax x y) ∨
  (SFsub prec emax x y = S754_zero false ∧ SFsub prec emax y x = S754_zero false).
Proof.
  destruct x as [sx|sx| |sx mx ex], y as [sy|sy| |sy my ey]; simpl;
    try (destruct sx, sy; simpl; auto; fail); try (destruct sx; simpl; auto; fail);
    try (destruct sy; simpl; auto; fail); auto.
  rewrite (Z.min_comm ey ex).
  set (a := cond_Zopp sx _). set (b := cond_Zopp sy _).
  destruct (Z.eq_dec (a - b) 0) as [E|E].
  - right. replace (b - a) with 0 by lia. rewrite E. done.
  - left. replace (b - a) with (- (a - b)) by lia. by apply binary_normalize_opp.
Qed.

(** A finite number minus itself is [+0]. *)
Lemma SFsub_diag x :
  Js.is_finite x = true -> SFsub prec emax x x = S754_zero false.
Proof.
  destruct x as [[]|[]| |s m e]; try done; intros _; simpl.
  by rewrite Z.sub_diag.
Qed.

(** Comparing the other way round gives the opposite answer. *)
Lemma SFcompare_swap x y : SFcompare y x = CompOpp <$> SFcompare x y.
Proof.
  destruct x as [sx|sx| |sx mx ex], y as [sy|sy| |sy my ey]; simpl;
    try (destruct sx, sy; reflexivity); try (destruct sx; reflexivity);
    try (destruct sy; reflexivity); try reflexivity.
  f_equal. rewrite (Z.compare_antisym ex ey).
  pose proof (Pos.compare_cont_antisym mx my Eq) as H; simpl in H.
  rewrite <- H.
  destruct sx, sy; simpl; try reflexivity;
    destruct (ex ?= ey); simpl; rewrite ?CompOpp_involutive; reflexivity.
Qed.

End SignFacts.

Lemma Js_mul_comm (x y : Js.number) : (x * y)%js = (y * x)%js.
Proof. apply SFmul_comm. Qed.

(** Away from NaN, [!(x <= y)] is [x > y]. *)
Lemma not_le_gt (x y : Js.number) :
  Js.is_nan x = false -> Js.is_nan y = false ->
  (x <=? y)%js = negb (x >? y)%js.
Proof.
  unfold Js.le, Js.gt, SFleb, SFltb. rewrite (SFcompare_swap x y).
  destruct x as [sx|sx| |sx mx ex], y as [sy|sy| |sy my ey]; try done;
    intros _ _; destruct (SFcompare _ _) as [[]|] eqn:E; try reflexivity;
    simpl in E; done.
Qed.

(** ** Sizes in binary64 arithmetic

    Sufficient conditions for a product or a quotient to be zero or
    finite: no overflow to an infinity and no NaN. *)

Lemma digits2_pos_size p : digits2_pos p = Pos.size p.
Proof. induction p; simpl; congruence. Qed.

Lemma Zdigits2_log2 m : 0 < m → Zdigits2 m = Z.log2 m + 1.
Proof.
  destruct m as [|p|p]; try lia. intros _. simpl.
  rewrite digits2_pos_size. destruct p; simpl; lia.
Qed.

Lemma Zdigits2_nonneg m : 0 ≤ Zdigits2 m.
Proof. destruct m; simpl; lia. Qed.

Lemma Zdigits2_mono a b : 0 ≤ a ≤ b → Zdigits2 a ≤ Zdigits2 b.
Proof.
  intros [Ha Hab]. destruct (Z.eq_dec a 0) as [->|Hne].
  - apply Zdigits2_nonneg.
  - rewrite !Zdigits2_log2 by lia. pose proof (Z.log2_le_mono a b Hab). lia.
Qed.

Lemma Zdigits2_succ a : 0 ≤ a → Zdigits2 (a + 1) ≤ Zdigits2 a + 1.
Proof.
  intros Ha. destruct (Z.eq_dec a 0) as [->|Hne]; [simpl; lia|].
  rewrite !Zdigits2_log2 by lia.
  pose proof (Z.log2_succ_le a). unfold Z.succ in *. lia.
Qed.

Lemma Zdigits2_mul a b : 0 < a → 0 < b → Zdigits2 (a * b) ≤ Zdigits2 a + Zdigits2 b.
Proof.
  intros Ha Hb. rewrite !Zdigits2_log2 by nia.
  pose proof (Z.log2_mul_above a b). lia.
Qed.

Lemma shr_1_bounds mrs : 0 ≤ shr_m mrs → 0 ≤ shr_m (shr_1 mrs) ≤ shr_m mrs.
Proof.
  destruct mrs as [m r s]; simpl. destruct m as [|[p|p|]|[p|p|]]; simpl; lia.
Qed.

Lemma iter_shr_1_bounds p mrs :
  0 ≤ shr_m mrs → 0 ≤ shr_m (SpecFloat.iter_pos shr_1 p mrs) ≤ shr_m mrs.
Proof.
  revert mrs. induction p as [p IH|p IH|]; intros mrs H; simpl.
  - pose proof (shr_1_bounds mrs H) as H1.
    pose proof (IH (shr_1 mrs) (proj1 H1)) as H2.
    pose proof (IH _ (proj1 H2)). lia.
  - pose proof (IH mrs H) as H2. pose proof (IH _ (proj1 H2)). lia.
  - by apply shr_1_bounds.
Qed.

Lemma shr_m_of_loc m l : shr_m (shr_record_of_loc m l) = m.
Proof. destruct l as [|[]]; reflexivity. Qed.

Lemma shr_fexp_bounds m e l :
  0 ≤ m →
  0 ≤ shr_m (shr_fexp 53 1024 m e l).1 ≤ m ∧
  (shr_fexp 53 1024 m e l).2 ≤ Z.max e (Z.max (Zdigits2 m + e - 53) (-1074)).
Proof.
  intros Hm. unfold shr_fexp, shr, fexp, emin.
  destruct (_ - e) as [|p|p] eqn:E; simpl; rewrite ?shr_m_of_loc; try lia.
  pose proof (iter_shr_1_bounds p (shr_record_of_loc m l)) as H.
  rewrite shr_m_of_loc in H. split; [by apply H|]. lia.
Qed.

Lemma round_nearest_even_bounds m l :
  m ≤ round_nearest_even m l ≤ m + 1.
Proof. destruct l as [|[]]; simpl; try lia. destruct (Z.even m); lia. Qed.

Lemma binary_round_aux_small s m e l D E :
  0 ≤ m → Zdigits2 m ≤ D → e ≤ E →
  Z.max E (-1074) + 2 * D ≤ 971 →
  small s (D + 1) (Z.max E (-1074) + 2 * D) (binary_round_aux 53 1024 s m e l).
Proof.
  intros Hm HD HE Hb. unfold binary_round_aux.
  pose proof (shr_fexp_bounds m e l Hm) as [H1 H1e].
  destruct (shr_fexp 53 1024 m e l) as [mrs' e']. simpl in H1, H1e.
  pose proof (round_nearest_even_bounds (shr_m mrs') (loc_of_shr_record mrs')) as H2.
  set (m1 := round_nearest_even _ _) in *.
  assert (0 ≤ m1) as Hm1 by lia.
  pose proof (shr_fexp_bounds m1 e' loc_Exact Hm1) as [H3 H3e].
  destruct (shr_fexp 53 1024 m1 e' loc_Exact) as [mrs'' e'']. simpl in H3, H3e.
  assert (Zdigits2 m1 ≤ D + 1) as Hd1.
  { etrans; [apply (Zdigits2_mono m1 (m + 1)); lia|].
    pose proof (Zdigits2_succ m Hm). lia. }
  pose proof (Zdigits2_nonneg m).
  destruct (shr_m mrs'') as [|p|p] eqn:Ep; simpl; [done| |lia].
  assert (e'' ≤ Z.max E (-1074) + 2 * D) by lia.
  replace (e'' <=? 1024 - 53) with true by (symmetry; apply Z.leb_le; lia).
  simpl. split; [done|]. split; [|done].
  change (Zdigits2 (Zpos p) ≤ D + 1). etrans; [|exact Hd1].
  apply Zdigits2_mono. lia.
Qed.

Lemma SFmul_small x y sx sy Dx Ex Dy Ey :
  small sx Dx Ex x → small sy Dy Ey y →
  Z.max (Ex + Ey) (-1074) + 2 * (Dx + Dy) ≤ 971 →
  small (xorb sx sy) (Dx + Dy + 1) (Z.max (Ex + Ey) (-1074) + 2 * (Dx + Dy))
        (SFmul 53 1024 x y).
Proof.
  destruct x as [sx'|sx'| |sx' mx ex], y as [sy'|sy'| |sy' my ey]; simpl; try done;
    try (intros; subst; done); try (intros [-> _] ->; done).
  - intros -> [-> _] _; done.
  - intros [-> [Hdx Hex]] [-> [Hdy Hey]] Hb.
    apply binary_round_aux_small; try lia.
    change (Zdigits2 (Zpos mx * Zpos my) ≤ Dx + Dy).
    pose proof (Zdigits2_mul (Zpos mx) (Zpos my)). simpl in *. lia.
Qed.

Lemma Zdigits2_shiftl m s : 0 < m → 0 ≤ s → Zdigits2 (Z.shiftl m s) = Zdigits2 m + s.
Proof.
  intros Hm Hs. rewrite !Zdigits2_log2; rewrite ?Z.log2_shiftl by lia; try lia.
  rewrite Z.shiftl_mul_pow2 by lia. pose proof (Z.pow_pos_nonneg 2 s). nia.
Qed.

Lemma SFdiv_core_binary_bounds mx ex my ey :
  let '(q, e', _) := SFdiv_core_binary 53 1024 (Zpos mx) ex (Zpos my) ey in
  0 ≤ q ∧
  Zdigits2 q ≤ Z.max (Zpos (digits2_pos mx)) (Zpos (digits2_pos my) + 53) ∧
  e' ≤ ex - ey.
Proof.
  unfold SFdiv_core_binary, fexp, emin. simpl Zdigits2.
  set (d1 := Zpos (digits2_pos mx)). set (d2 := Zpos (digits2_pos my)).
  set (e' := Z.min _ _).
  set (m' := match ex - ey - e' with Z0 => Zpos mx | Zpos _ => _ | Zneg _ => 0 end).
  assert (0 ≤ m' ∧ Zdigits2 m' ≤ Z.max d1 (d2 + 53)) as [Hm' Hd'].
  { subst m'. destruct (ex - ey - e') as [|p|p] eqn:Es.
    - simpl. fold d1. lia.
    - split; [apply Z.shiftl_nonneg; lia|].
      rewrite Zdigits2_shiftl by lia. simpl Zdigits2. fold d1. lia.
    - simpl. lia. }
  pose proof (Z_div_mod m' (Zpos my) eq_refl) as H.
  destruct (Z.div_eucl m' (Zpos my)) as [q r]. destruct H as [H1 H2].
  assert (0 ≤ q ≤ m') as Hq by nia.
  split; [lia|]. split; [|lia].
  etrans; [apply (Zdigits2_mono q m'); lia|done].
Qed.

Lemma SFdiv_small x sx Dx Ex sy my ey :
  small sx Dx Ex x →
  let D := Z.max Dx (Zpos (digits2_pos my) + 53) in
  Z.max (Ex - ey) (-1074) + 2 * D ≤ 971 →
  small (xorb sx sy) (D + 1) (Z.max (Ex - ey) (-1074) + 2 * D)
        (SFdiv 53 1024 x (S754_finite sy my ey)).
Proof.
  destruct x as [sx'|sx'| |sx' mx ex]; simpl; try done.
  - by intros ->.
  - intros [-> [Hdx Hex]] Hb.
    pose proof (SFdiv_core_binary_bounds mx ex my ey) as H.
    destruct (SFdiv_core_binary 53 1024 (Zpos mx) ex (Zpos my) ey) as [[q e'] l].
    destruct H as (Hq & Hdq & He').
    apply binary_round_aux_small; lia.
Qed.

Lemma valid_le_small x n mn en :
  Js.ofZ n = S754_finite false mn en →
  valid_binary Js.prec Js.emax x = true → (SFabs x <=? Js.ofZ n)%js = true →
  ∃ s, small s 53 en x.
Proof.
  intros En Hv Hle. rewrite En in Hle.
  destruct x as [s|s| |s m e]; try done.
  - by exists s.
  - exists s. simpl. split; [done|].
    unfold valid_binary, bounded in Hv. apply andb_prop in Hv as [Hc _].
    unfold canonical_mantissa, fexp, emin, Js.prec, Js.emax in Hc.
    apply Z.eqb_eq in Hc.
    unfold Js.le, SFleb, SFabs, SFcompare in Hle.
    destruct (e ?= en) eqn:Ec; try done.
    + apply Z.compare_eq in Ec. split; lia.
    + rewrite Z.compare_lt_iff in Ec. split; lia.
Qed.

(** ** The distance oracle: symmetry and zero distance *)

Section HaversineFacts.

Variable Math_sin Math_cos : Js.number -> Js.number.
Variable Math_atan2 : Js.number -> Js.number -> Js.number.

(** What the proofs use of the engine: [Math.sin] is odd, and the two
    values ECMAScript fixes, [Math.sin(+0) = +0] and
    [Math.atan2(+0, 1) = +0]. *)
Hypothesis Math_sin_odd : ∀ x, Math_sin (Js.neg x) = Js.neg (Math_sin x).
Hypothesis Math_sin_zero : Math_sin Js.pos_zero = Js.pos_zero.
Hypothesis Math_atan2_zero : Math_atan2 Js.pos_zero (Js.ofZ 1) = Js.pos_zero.

Lemma sinHalf_neg d : sinHalf Math_sin (Js.neg d) = Js.neg (sinHalf Math_sin d).
Proof.
  unfold sinHalf, Js.mul, Js.div, Js.neg.
  by rewrite SFmul_opp_l, !SFdiv_opp_l, Math_sin_odd.
Qed.

(** Swapping the two points leaves both squared sines unchanged. *)
Lemma sinHalf_square_swap (x y c : Js.number) :
  (sinHalf Math_sin (y - x) * sinHalf Math_sin (y - x) =
   sinHalf Math_sin (x - y) * sinHalf Math_sin (x - y))%js ∧
  (c * sinHalf Math_sin (y - x) * sinHalf Math_sin (y - x) =
   c * sinHalf Math_sin (x - y) * sinHalf Math_sin (x - y))%js.
Proof.
  unfold Js.sub.
  destruct (SFsub_swap Js.prec Js.emax x y) as [E | [E1 E2]].
  - rewrite E. fold (Js.neg (SFsub Js.prec Js.emax x y)).
    rewrite sinHalf_neg. unfold Js.mul, Js.neg.
    by rewrite !SFmul_opp_r, !SFmul_opp_l, !SFopp_involutive.
  - by rewrite E1, E2.
Qed.

Lemma getDistance_sym lat1 lon1 lat2 lon2 :
  getDistance Math_sin Math_cos Math_atan2 lat1 lon1 lat2 lon2 =
  getDistance Math_sin Math_cos Math_atan2 lat2 lon2 lat1 lon1.
Proof.
  unfold getDistance; cbv zeta.
  fold (sinHalf Math_sin (lat2 - lat1)%js) (sinHalf Math_sin (lon2 - lon1)%js)
       (sinHalf Math_sin (lat1 - lat2)%js) (sinHalf Math_sin (lon1 - lon2)%js).
  destruct (sinHalf_square_swap lat1 lat2 Js.pos_zero) as [-> _].
  destruct (sinHalf_square_swap lon1 lon2
              (Math_cos (lat1 * Js.Math_PI / Js.ofZ 180) *
               Math_cos (lat2 * Js.Math_PI / Js.ofZ 180))%js) as [_ ->].
  by rewrite (Js_mul_comm (Math_cos (lat2 * Js.Math_PI / Js.ofZ 180)%js)).
Qed.

(** The last fact used of the engine: on a finite argument [Math.cos]
    returns a binary64 value of magnitude at most 1. *)
Hypothesis Math_cos_range : ∀ x,
  Js.is_finite x = true →
  valid_binary Js.prec Js.emax (Math_cos x) = true ∧
  (SFabs (Math_cos x) <=? Js.ofZ 1)%js = true.

Lemma small_is_finite s D E x : small s D E x → Js.is_finite x = true.
Proof. by destruct x. Qed.

(** A valid latitude in radians is a finite number. *)
Lemma radians_finite lat :
  validLatitude lat = true →
  Js.is_finite (lat * Js.Math_PI / Js.ofZ 180)%js = true.
Proof.
  intros [Hv Hle]%andb_prop.
  destruct (valid_le_small lat 90 _ (-46) eq_refl Hv Hle) as [s Hs].
  assert (small false 53 (-51) Js.Math_PI) as Hpi by (vm_compute; intuition congruence).
  pose proof (SFmul_small _ _ _ _ _ _ _ _ Hs Hpi ltac:(vm_compute; congruence)) as Hm.
  change (Js.ofZ 180) with (S754_finite false 6333186975989760 (-45)).
  eapply small_is_finite.
  apply (SFdiv_small _ _ _ _ false _ _ Hm). vm_compute; congruence.
Qed.

(** The square of a cosine is zero or a finite positive number. *)
Lemma cos_square_small x :
  Js.is_finite x = true → ∃ D E, small false D E (Math_cos x * Math_cos x)%js.
Proof.
  intros Hx. destruct (Math_cos_range x Hx) as [Hv Hle].
  destruct (valid_le_small _ 1 _ (-52) eq_refl Hv Hle) as [s Hs].
  do 2 eexists. rewrite <- (xorb_nilpotent s).
  apply (SFmul_small _ _ _ _ _ _ _ _ Hs Hs). vm_compute; congruence.
Qed.

Lemma getDistance_diag lat lon :
  validLatitude lat = true → validLongitude lon = true →
  getDistance Math_sin Math_cos Math_atan2 lat lon lat lon = Js.pos_zero.
Proof.
  intros Hlat Hlon.
  assert (Js.is_finite lat = true ∧ Js.is_finite lon = true) as [Flat Flon].
  { apply andb_prop in Hlat as [_ Hlat], Hlon as [_ Hlon].
    split; [by destruct lat as [| [] | |]|by destruct lon as [| [] | |]]. }
  unfold getDistance; cbv zeta. unfold Js.sub.
  rewrite !SFsub_diag by done.
  change (S754_zero false * Js.Math_PI / Js.ofZ 180 / Js.ofZ 2)%js
    with Js.pos_zero.
  rewrite Math_sin_zero.
  destruct (cos_square_small _ (radians_finite lat Hlat)) as (D & E & Hc).
  assert ((Math_cos (lat * Js.Math_PI / Js.ofZ 180) *
           Math_cos (lat * Js.Math_PI / Js.ofZ 180) * Js.pos_zero)%js
          = Js.pos_zero) as ->.
  { destruct (_ * _)%js as [s|s| |s m e]; try done.
    - by rewrite Hc.
    - destruct Hc as [-> _]. reflexivity. }
  change (Js.pos_zero * Js.pos_zero + Js.pos_zero * Js.pos_zero)%js
    with Js.pos_zero.
  change (Js.Math_sqrt Js.pos_zero) with Js.pos_zero.
  replace (Js.Math_sqrt (SFsub Js.prec Js.emax (Js.ofZ 1) Js.pos_zero))
    with (Js.ofZ 1) by (by vm_compute).
  by rewrite Math_atan2_zero.
Qed.

Lemma getDistanceServer_eq lat1 lon1 lat2 lon2 :
  getDistanceServer Math_sin Math_cos Math_atan2 lat1 lon1 lat2 lon2 =
  getDistance Math_sin Math_cos Math_atan2 lat1 lon1 lat2 lon2.
Proof. reflexivity. Qed.

(** JavaScript [x == y] on numbers holds of a number and itself, NaN
    apart. *)
Lemma SFeqb_refl x : Js.is_nan x = false → SFeqb x x = true.
Proof.
  destruct x as [s|s| |s m e]; try done; intros _; unfold SFeqb; simpl.
  - by destruct s.
  - rewrite Z.compare_refl, Pos.compare_cont_refl. by destruct s.
Qed.

(** C9, as the code has it.  On the sphere of radius 6,371,000 m,
    [getDistance(a, b)] and [getDistance(b, a)] are the same value, for the
    client helper and for the server copy, which are the same function; the
    two results are [==] in the JavaScript sense unless they are NaN; and
    the distance from a valid coordinate pair to itself is [+0], which is
    [== 0]. *)
Theorem C9_getDistance_symmetric_zero_same :
  (∀ lat1 lon1 lat2 lon2,
     getDistance Math_sin Math_cos Math_atan2 lat1 lon1 lat2 lon2 =
     getDistance Math_sin Math_cos Math_atan2 lat2 lon2 lat1 lon1 ∧
     getDistanceServer Math_sin Math_cos Math_atan2 lat1 lon1 lat2 lon2 =
     getDistanceServer Math_sin Math_cos Math_atan2 lat2 lon2 lat1 lon1 ∧
     getDistanceServer Math_sin Math_cos Math_atan2 lat1 lon1 lat2 lon2 =
     getDistance Math_sin Math_cos Math_atan2 lat1 lon1 lat2 lon2 ∧
     (Js.is_nan (getDistance Math_sin Math_cos Math_atan2 lat1 lon1 lat2 lon2)
      = false →
      SFeqb (getDistance Math_sin Math_cos Math_atan2 lat1 lon1 lat2 lon2)
            (getDistance Math_sin Math_cos Math_atan2 lat2 lon2 lat1 lon1)
      = true)) ∧
  (∀ lat lon,
     validLatitude lat = true → validLongitude lon = true →
     getDistance Math_sin Math_cos Math_atan2 lat lon lat lon = Js.pos_zero ∧
     getDistanceServer Math_sin Math_cos Math_atan2 lat lon lat lon
     = Js.pos_zero ∧
     SFeqb (getDistance Math_sin Math_cos Math_atan2 lat lon lat lon) (Js.ofZ 0)
     = true).
Proof.
  split.
  - intros lat1 lon1 lat2 lon2.
    change (getDistanceServer Math_sin Math_cos Math_atan2)
      with (getDistance Math_sin Math_cos Math_atan2).
    repeat split; try apply getDistance_sym.
    intros Hnan. rewrite (getDistance_sym lat2 lon2 lat1 lon1).
    by apply SFeqb_refl.
  - intros lat lon Hlat Hlon.
    change (getDistanceServer Math_sin Math_cos Math_atan2)
      with (getDistance Math_sin Math_cos Math_atan2).
    rewrite getDistance_diag by done. by repeat split.
Qed.

End HaversineFacts.

(** The theorem at an engine whose sine is the identity and whose cosine is
    constant, at latitude 37 and longitude -122. *)
Lemma C9_getDistance_witness :
  getDistance (λ x, x) (λ _, Js.ofZ 1) (λ y _, y)
    (Js.ofZ 37) (Js.ofZ (-122)) (Js.ofZ 37) (Js.ofZ (-122)) = Js.pos_zero.
Proof.
  refine (proj1 (proj2 (C9_getDistance_symmetric_zero_same
            (λ x, x) (λ _, Js.ofZ 1) (λ y _, y) _ _ _ _) _ _ _ _)).
  - intros x; reflexivity.
  - reflexivity.
  - reflexivity.
  - intros x _. split; reflexivity.
  - reflexivity.
  - reflexivity.
Defined.

(** The finer engine has what the theorem uses of an engine. *)
Lemma antipode_engine :
  (∀ x, antipodeSin (Js.neg x) = Js.neg (antipodeSin x)) ∧
  antipodeSin Js.pos_zero = Js.pos_zero ∧
  antipodeAtan2 Js.pos_zero (Js.ofZ 1) = Js.pos_zero ∧
  (∀ x, Js.is_finite x = true →
        valid_binary Js.prec Js.emax (antipodeCos x) = true ∧
        (SFabs (antipodeCos x) <=? Js.ofZ 1)%js = true).
Proof.
  split; [|split; [done|split; [done|]]].
  - intros x. destruct x as [[]|[]| |s m e]; try reflexivity.
    unfold antipodeSin. cbn [Js.neg SFopp SFabs signOf].
    destruct (if SFeqb _ _ then _ else _) as [[]|[]| |[] ? ?];
      destruct s; reflexivity.
  - intros x _. unfold antipodeCos.
    by destruct (SFeqb (SFabs x) radians87_5).
Qed.

(** C9 fails for [==].  The points (-87.5, -180) and (87.5, 0) are nearly
    antipodal.  With the sines and cosines rounded to the nearest binary64
    number, the haversine term [a] is 1.0000000000000002, [Math.sqrt(1 - a)]
    is NaN and so is the distance, in both directions and in both copies:
    the two distances are not [==]. *)
Lemma C9_counterexample :
  validLatitude (Js.neg degrees87_5) = true ∧
  validLongitude (Js.ofZ (-180)) = true ∧
  validLatitude degrees87_5 = true ∧ validLongitude (Js.ofZ 0) = true ∧
  getDistance antipodeSin antipodeCos antipodeAtan2
    (Js.neg degrees87_5) (Js.ofZ (-180)) degrees87_5 (Js.ofZ 0) = S754_nan ∧
  SFeqb (getDistance antipodeSin antipodeCos antipodeAtan2
           (Js.neg degrees87_5) (Js.ofZ (-180)) degrees87_5 (Js.ofZ 0))
        (getDistance antipodeSin antipodeCos antipodeAtan2
           degrees87_5 (Js.ofZ 0) (Js.neg degrees87_5) (Js.ofZ (-180)))
  = false ∧
  SFeqb (getDistanceServer antipodeSin antipodeCos antipodeAtan2
           (Js.neg degrees87_5) (Js.ofZ (-180)) degrees87_5 (Js.ofZ 0))
        (getDistanceServer antipodeSin antipodeCos antipodeAtan2
           degrees87_5 (Js.ofZ 0) (Js.neg degrees87_5) (Js.ofZ (-180)))
  = false.
Proof. by vm_compute. Qed.

(** ** The transition detector *)

Lemma eventType_table dOld dNew r :
  TransitionTableNotInside dOld dNew r
    (eventType (dOld <=? r)%js (dNew <=? r)%js).
Proof.
  unfold TransitionTableNotInside, eventType.
  destruct (dOld <=? r)%js, (dNew <=? r)%js; simpl; intuition congruence.
Qed.

Lemma eventTypeClient_table dOld dNew r :
  TransitionTableNotInside dOld dNew r
    (eventTypeClient (dOld <=? r)%js (dNew <=? r)%js).
Proof.
  unfold TransitionTableNotInside, eventTypeClient.
  destruct (dOld <=? r)%js, (dNew <=? r)%js; simpl; intuition congruence.
Qed.

Lemma table_not_nan dOld dNew r emitted :
  Js.is_nan dOld = false → Js.is_nan dNew = false → Js.is_nan r = false →
  TransitionTableNotInside dOld dNew r emitted →
  TransitionTable dOld dNew r emitted.
Proof.
  intros H1 H2 H3. unfold TransitionTableNotInside, TransitionTable.
  rewrite (not_le_gt dOld r H1 H3), (not_le_gt dNew r H2 H3).
  destruct (dOld >? r)%js, (dNew >? r)%js; simpl; intuition congruence.
Qed.

Lemma truthy_not_nan x : Js.truthy x = true → Js.is_nan x = false.
Proof. by destruct x. Qed.

Lemma notANonZeroNumber_false v :
  notANonZeroNumber v = false →
  ∃ x, v = JsNumber x ∧ Js.truthy x = true.
Proof.
  unfold notANonZeroNumber.
  destruct v as [| |b|x|s]; simpl; rewrite ?orb_true_r, ?orb_false_r; try done.
  intros H. eexists; split; [done|]. by destruct (Js.truthy x).
Qed.

Section DetectorFacts.

Variable Math_sin Math_cos : Js.number -> Js.number.
Variable Math_atan2 : Js.number -> Js.number -> Js.number.

Lemma fenceTransition_valid oldLocation newLocation fence :
  invalidGeofence fence = false →
  fenceTransition Math_sin Math_cos Math_atan2 oldLocation newLocation fence =
  eventType
    (serverDistance Math_sin Math_cos Math_atan2 oldLocation fence
     <=? numberOf (g_radius fence))%js
    (serverDistance Math_sin Math_cos Math_atan2 newLocation fence
     <=? numberOf (g_radius fence))%js.
Proof. unfold fenceTransition. by intros ->. Qed.

Lemma fenceTransitionClient_valid previousLoc currentLoc fence :
  validGeofenceClient fence = true →
  fenceTransitionClient Math_sin Math_cos Math_atan2 previousLoc currentLoc fence =
  eventTypeClient
    (clientDistance Math_sin Math_cos Math_atan2 previousLoc fence
     <=? f_radius fence)%js
    (clientDistance Math_sin Math_cos Math_atan2 currentLoc fence
     <=? f_radius fence)%js.
Proof.
  unfold fenceTransitionClient, validGeofenceClient.
  intros [[-> ->]%andb_prop ->]%andb_prop. reflexivity.
Qed.

Lemma gt_not_le (x y : Js.number) : (x >? y)%js = true → (x <=? y)%js = false.
Proof.
  unfold Js.gt, Js.le, SFltb, SFleb. rewrite (SFcompare_swap y x).
  by destruct (SFcompare y x) as [[]|].
Qed.

Lemma serverTransitions_single oldLocation newLocation fenceId fence :
  invalidLocationData oldLocation newLocation = false →
  serverTransitions Math_sin Math_cos Math_atan2 oldLocation newLocation
    [(fenceId, fence)] =
  match fenceTransition Math_sin Math_cos Math_atan2 oldLocation newLocation fence
  with
  | Some ty => [(fenceId, ty)]
  | None => []
  end.
Proof.
  unfold serverTransitions. intros ->. simpl.
  by destruct (fenceTransition _ _ _ _ _ _).
Qed.

(** C1. For one (previous, current) pair and one geofence that pass the
    validation, the detector of the server trigger and the one of the client
    loop emit an entry iff the previous sample was not inside and the current
    one is inside (distance <= radius, boundary included), an exit iff the
    previous one was inside and the current one is not, and nothing
    otherwise; when the distances are numbers, "not inside" is
    "distance > radius".  A move from strictly outside to inside yields
    exactly one entry and no exit for that fence. *)
Theorem C1_transition_detector :
  (∀ oldLocation newLocation fenceId fence,
     invalidLocationData oldLocation newLocation = false →
     invalidGeofence fence = false →
     let dOld := serverDistance Math_sin Math_cos Math_atan2 oldLocation fence in
     let dNew := serverDistance Math_sin Math_cos Math_atan2 newLocation fence in
     let r := numberOf (g_radius fence) in
     let emitted :=
       fenceTransition Math_sin Math_cos Math_atan2 oldLocation newLocation fence in
     TransitionTableNotInside dOld dNew r emitted ∧
     (Js.is_nan dOld = false → Js.is_nan dNew = false →
      TransitionTable dOld dNew r emitted) ∧
     ((dOld >? r)%js = true → (dNew <=? r)%js = true →
      serverTransitions Math_sin Math_cos Math_atan2 oldLocation newLocation
        [(fenceId, fence)] = [(fenceId, geofence_entry)])) ∧
  (∀ previousLoc currentLoc fence,
     validGeofenceClient fence = true →
     let dOld := clientDistance Math_sin Math_cos Math_atan2 previousLoc fence in
     let dNew := clientDistance Math_sin Math_cos Math_atan2 currentLoc fence in
     let r := f_radius fence in
     let emitted :=
       fenceTransitionClient Math_sin Math_cos Math_atan2 previousLoc currentLoc
         fence in
     TransitionTableNotInside dOld dNew r emitted ∧
     (Js.is_nan dOld = false → Js.is_nan dNew = false →
      TransitionTable dOld dNew r emitted) ∧
     ((dOld >? r)%js = true → (dNew <=? r)%js = true →
      emitted = Some geofence_entry)).
Proof.
  split.
  - intros oldLocation newLocation fenceId fence Hloc Hfence dOld dNew r emitted.
    assert (TransitionTableNotInside dOld dNew r emitted) as Htable.
    { subst emitted. rewrite fenceTransition_valid by done. apply eventType_table. }
    assert (Js.is_nan r = false) as Hr.
    { unfold invalidGeofence in Hfence.
      apply orb_false_elim in Hfence as [_ Hfence].
      apply notANonZeroNumber_false in Hfence as (x & Hx & Ht).
      subst r. rewrite Hx. by apply truthy_not_nan. }
    split; [done|]. split.
    + intros H1 H2. by apply table_not_nan.
    + intros Hout Hin. rewrite serverTransitions_single by done.
      fold emitted. apply gt_not_le in Hout.
      destruct Htable as [Hentry _].
      by rewrite (proj2 Hentry (conj Hout Hin)).
  - intros previousLoc currentLoc fence Hfence dOld dNew r emitted.
    assert (TransitionTableNotInside dOld dNew r emitted) as Htable.
    { subst emitted. rewrite fenceTransitionClient_valid by done.
      apply eventTypeClient_table. }
    assert (Js.is_nan r = false) as Hr.
    { apply andb_prop in Hfence as [_ Hfence]. by apply truthy_not_nan. }
    split; [done|]. split.
    + intros H1 H2. by apply table_not_nan.
    + intros Hout Hin. apply gt_not_le in Hout.
      destruct Htable as [Hentry _]. by apply Hentry.
Qed.

End DetectorFacts.

(** The witness of C1: from (20, 20) to the center of the fence. *)
Lemma C1_transition_detector_witness :
  serverTransitions sampleSin sampleCos sampleAtan2
    (sampleLocation 20 20) (sampleLocation 10 10) [("home", homeFence)]
  = [("home", geofence_entry)].
Proof.
  refine (proj2 (proj2 (proj1 (C1_transition_detector
            sampleSin sampleCos sampleAtan2)
            (sampleLocation 20 20) (sampleLocation 10 10) "home" homeFence
            _ _)) _ _); reflexivity.
Defined.

(** ** First sample and invalid data *)

Section ValidationFacts.

Variable Math_sin Math_cos : Js.number -> Js.number.
Variable Math_atan2 : Js.number -> Js.number -> Js.number.
Variable sendToDevice : string -> MessagingPayload -> PushResult.
Variable numberToString : Js.number -> string.

(** C6. When the previous location sample is absent, no geofence entry or
    exit is emitted, for every fence set and every current sample: the
    server trigger detects no transition and leaves the database as it is;
    the client handler does not run the check, sends nothing and only
    remembers the sample. *)
Theorem C6_no_event_without_previous_sample :
  (∀ userId newLocation now db fences,
     serverTransitions Math_sin Math_cos Math_atan2 None newLocation fences = [] ∧
     checkGeofences Math_sin Math_cos Math_atan2 sendToDevice
       userId None newLocation now db = db) ∧
  (∀ user profile fences newLocation now lastAlert cooldowns db,
     checkCurrentUserGeofences Math_sin Math_cos Math_atan2
       user profile fences newLocation now (mkRefs None lastAlert cooldowns) db
     = (mkRefs None lastAlert cooldowns, db)) ∧
  (∀ user profile fences memberId liveData now lastAlert cooldowns db,
     let after :=
       onLiveData Math_sin Math_cos Math_atan2 user profile fences memberId
         liveData now (mkRefs None lastAlert cooldowns) db in
     after.2 = db ∧
     geofenceCooldowns after.1 = cooldowns ∧
     lastLowBatteryAlertSent after.1 = lastAlert).
Proof.
  split; [|split].
  - intros userId newLocation now db fences.
    unfold serverTransitions, checkGeofences, invalidLocationData.
    simpl. by rewrite !orb_true_r.
  - intros user profile fences newLocation now lastAlert cooldowns db.
    unfold checkCurrentUserGeofences. simpl. by destruct user, newLocation.
  - intros user profile fences memberId liveData now lastAlert cooldowns db.
    unfold onLiveData. simpl.
    destruct (liveData ≫= currentLocation); [|done]. by case_bool_decide.
Qed.

Lemma missingNonNumericOrZero_rejected v :
  missingNonNumericOrZero v → notANonZeroNumber v = true.
Proof.
  unfold notANonZeroNumber. intros [-> | [H | [s ->]]]; [done| |done].
  rewrite H. apply orb_true_r.
Qed.

(** C10. In the server geofence trigger, a location update whose old or new
    sample has a latitude or longitude that is missing, not a number, or
    equal to 0 produces no geofence event at all and leaves the database as
    it is; a fence whose center latitude, center longitude or radius is
    missing, not a number or 0 is skipped.  In particular a sample on the
    equator or on the prime meridian suppresses the detection for that
    update. *)
Theorem C10_zero_or_missing_coordinates_suppress_detection :
  (∀ userId oldLocation newLocation now db fences,
     missingNonNumericOrZero (latitudeOf oldLocation) ∨
     missingNonNumericOrZero (longitudeOf oldLocation) ∨
     missingNonNumericOrZero (latitudeOf newLocation) ∨
     missingNonNumericOrZero (longitudeOf newLocation) →
     serverTransitions Math_sin Math_cos Math_atan2 oldLocation newLocation fences
     = [] ∧
     checkGeofences Math_sin Math_cos Math_atan2 sendToDevice
       userId oldLocation newLocation now db = db) ∧
  (∀ userId familyId userName oldLocation newLocation now db members fenceId fence,
     missingNonNumericOrZero (centerLatitude fence) ∨
     missingNonNumericOrZero (centerLongitude fence) ∨
     missingNonNumericOrZero (g_radius fence) →
     fenceTransition Math_sin Math_cos Math_atan2 oldLocation newLocation fence
     = None ∧
     fenceDispatches Math_sin Math_cos Math_atan2 userId familyId userName
       oldLocation newLocation now db members (fenceId, fence) = []) ∧
  (∀ userId other now db s lat lon,
     let onEquator :=
       Some {| l_latitude := JsNumber (S754_zero s); l_longitude := lon |} in
     let onPrimeMeridian :=
       Some {| l_latitude := lat; l_longitude := JsNumber (S754_zero s) |} in
     checkGeofences Math_sin Math_cos Math_atan2 sendToDevice
       userId other onEquator now db = db ∧
     checkGeofences Math_sin Math_cos Math_atan2 sendToDevice
       userId onEquator other now db = db ∧
     checkGeofences Math_sin Math_cos Math_atan2 sendToDevice
       userId other onPrimeMeridian now db = db ∧
     checkGeofences Math_sin Math_cos Math_atan2 sendToDevice
       userId onPrimeMeridian other now db = db).
Proof.
  assert (∀ oldLocation newLocation,
            missingNonNumericOrZero (latitudeOf oldLocation) ∨
            missingNonNumericOrZero (longitudeOf oldLocation) ∨
            missingNonNumericOrZero (latitudeOf newLocation) ∨
            missingNonNumericOrZero (longitudeOf newLocation) →
            invalidLocationData oldLocation newLocation = true) as Hinvalid.
  { intros oldLocation newLocation H. unfold invalidLocationData.
    destruct H as [H | [H | [H | H]]];
      apply missingNonNumericOrZero_rejected in H; rewrite H;
      rewrite ?orb_true_r; reflexivity. }
  split; [|split].
  - intros userId oldLocation newLocation now db fences H.
    unfold serverTransitions, checkGeofences. by rewrite (Hinvalid _ _ H).
  - intros userId familyId userName oldLocation newLocation now db members
      fenceId fence H.
    assert (invalidGeofence fence = true) as Hfence.
    { unfold invalidGeofence.
      destruct H as [H | [H | H]];
        apply missingNonNumericOrZero_rejected in H; rewrite H;
        rewrite ?orb_true_r; reflexivity. }
    unfold fenceDispatches, fenceTransition. simpl. by rewrite Hfence.
  - intros userId other now db s lat lon onEquator onPrimeMeridian.
    unfold checkGeofences.
    rewrite !Hinvalid; [done| | | |]; simpl; unfold missingNonNumericOrZero;
      eauto 8.
Qed.

End ValidationFacts.

(** The witness of C10: the new sample lies on the equator. *)
Lemma C10_zero_or_missing_coordinates_witness :
  serverTransitions sampleSin sampleCos sampleAtan2
    (sampleLocation 20 20) (sampleLocation 0 10) [("home", homeFence)] = [] ∧
  checkGeofences sampleSin sampleCos sampleAtan2 (λ _ _, PushSent) "alice"
    (sampleLocation 20 20) (sampleLocation 0 10) 1000 sampleDb = sampleDb.
Proof.
  refine (proj1 (C10_zero_or_missing_coordinates_suppress_detection
            sampleSin sampleCos sampleAtan2 (λ _ _, PushSent))
            "alice" (sampleLocation 20 20) (sampleLocation 0 10) 1000 sampleDb
            [("home", homeFence)] _).
  right; right; left. right; right. exists false. reflexivity.
Defined.

(** ** The server dispatcher *)

Lemma newDocs_app us gs us' gs' log new :
  newDocs (mkFirestore us gs log) (mkFirestore us' gs' (log ++ new)) = new.
Proof. unfold newDocs. simpl. by rewrite drop_app_length. Qed.

Lemma newDocs_same db : newDocs db db = [].
Proof. unfold newDocs. by rewrite drop_all. Qed.

Lemma membersOf_elem familyId us doc :
  doc ∈ membersOf familyId us ↔ u_familyId doc.2 = Some familyId ∧ doc ∈ us.
Proof. unfold membersOf. by rewrite list_elem_of_filter. Qed.

Lemma othersOf_elem userId members payload data c :
  c ∈ othersOf userId members payload data →
  d_payload c = payload ∧ d_data c = data ∧ d_recipientUid c ≠ userId ∧
  ∃ u, (d_recipientUid c, u) ∈ members.
Proof.
  unfold othersOf. intros (doc & -> & Hdoc)%list_elem_of_fmap.
  apply list_elem_of_filter in Hdoc as [Hne Hdoc]. simpl.
  repeat split; [done|]. exists doc.2. by destruct doc.
Qed.

Lemma othersOf_recipients userId members payload data :
  d_recipientUid <$> othersOf userId members payload data =
  fst <$> filter (λ doc, doc.1 ≠ userId) members.
Proof. unfold othersOf. rewrite <- list_fmap_compose. by apply list_fmap_ext. Qed.

Section DispatchFacts.

Variable sendToDevice : string -> MessagingPayload -> PushResult.

(** What one call of [sendAndStoreNotification] does to the database. *)
Lemma sendAndStoreNotification_cases now recipientUid payload data db :
  sendAndStoreNotification sendToDevice now recipientUid payload data db =
  match usableToken (users db) recipientUid with
  | None => db
  | Some token =>
      match sendToDevice token payload with
      | PushSent => addNotification (notificationDocOf data recipientUid now) db
      | PushThrows code =>
          if invalidTokenCode code then deleteFcmToken recipientUid db else db
      end
  end.
Proof.
  unfold sendAndStoreNotification, usableToken.
  destruct (getDoc recipientUid (users db) ≫= u_fcmToken) as [token|]; [|done].
  by destruct (String.eqb token "").
Qed.

Lemma runDispatches_cons now c calls db :
  runDispatches sendToDevice now (c :: calls) db =
  runDispatches sendToDevice now calls
    (sendAndStoreNotification sendToDevice now (d_recipientUid c) (d_payload c)
       (d_data c) db).
Proof. reflexivity. Qed.

(** A batch of calls appends documents to the log; which documents it
    appends, and what it does to the users, does not depend on the log. *)
Lemma runDispatches_log now calls us gs :
  ∃ us' new,
    (∀ log, runDispatches sendToDevice now calls (mkFirestore us gs log)
            = mkFirestore us' gs (log ++ new)) ∧
    Forall (λ d, ∃ c, c ∈ calls ∧
                      d = notificationDocOf (d_data c) (d_recipientUid c) now)
           new.
Proof.
  revert us. induction calls as [|c calls IH]; intros us.
  - exists us, []. split; [|constructor]. intros log. by rewrite app_nil_r.
  - assert (∃ us1 new1,
              (∀ log, sendAndStoreNotification sendToDevice now (d_recipientUid c)
                        (d_payload c) (d_data c) (mkFirestore us gs log)
                      = mkFirestore us1 gs (log ++ new1)) ∧
              (new1 = [] ∨
               new1 = [notificationDocOf (d_data c) (d_recipientUid c) now]))
      as (us1 & new1 & Hstep & Hnew1).
    { destruct (usableToken us (d_recipientUid c)) as [token|] eqn:Et.
      - destruct (sendToDevice token (d_payload c)) as [|code] eqn:Es.
        + exists us, [notificationDocOf (d_data c) (d_recipientUid c) now].
          split; [|by right]. intros log.
          rewrite sendAndStoreNotification_cases. simpl. by rewrite Et, Es.
        + destruct (invalidTokenCode code) eqn:Ec.
          * eexists _, []. split; [|by left]. intros log.
            rewrite sendAndStoreNotification_cases. simpl. rewrite Et, Es, Ec.
            unfold deleteFcmToken. simpl. by rewrite app_nil_r.
          * exists us, []. split; [|by left]. intros log.
            rewrite sendAndStoreNotification_cases. simpl. rewrite Et, Es, Ec.
            by rewrite app_nil_r.
      - exists us, []. split; [|by left]. intros log.
        rewrite sendAndStoreNotification_cases. simpl. rewrite Et.
        by rewrite app_nil_r. }
    destruct (IH us1) as (us' & new & Hrest & Hnew).
    exists us', (new1 ++ new). split.
    + intros log. by rewrite runDispatches_cons, Hstep, Hrest, app_assoc.
    + apply Forall_app. split.
      * destruct Hnew1 as [-> | ->]; [constructor|].
        constructor; [|constructor]. exists c. split; [left|done].
      * eapply Forall_impl; [exact Hnew|].
        intros d (c' & Hc' & ->). exists c'. split; [by right|done].
Qed.

(** When the push succeeds for the recipient of every call, every call
    records its document and the users are left as they are. *)
Lemma runDispatches_all_sent now calls us gs log :
  Forall (λ c, ∃ token, usableToken us (d_recipientUid c) = Some token ∧
                        sendToDevice token (d_payload c) = PushSent) calls →
  runDispatches sendToDevice now calls (mkFirestore us gs log)
  = mkFirestore us gs (log ++ (docOfCall now <$> calls)).
Proof.
  revert log. induction calls as [|c calls IH]; intros log Hall.
  - simpl. by rewrite app_nil_r.
  - inversion Hall as [|? ? (token & Et & Es) Hrest]; subst.
    rewrite runDispatches_cons, sendAndStoreNotification_cases. simpl.
    rewrite Et, Es. unfold addNotification. simpl. rewrite IH by done.
    by rewrite <- app_assoc.
Qed.

End DispatchFacts.

(** ** Nobody is notified of their own event *)

Lemma notifiesAnother_not_self userId d : notifiesAnother userId d → ¬ selfAddressed d.
Proof. unfold notifiesAnother, selfAddressed. intros [-> Hne] [= ->]. done. Qed.

Lemma appendsForOthers_refl userId db : appendsForOthers userId db db.
Proof. exists []. split; [by rewrite app_nil_r|constructor]. Qed.

Lemma appendsForOthers_trans userId db1 db2 db3 :
  appendsForOthers userId db1 db2 → appendsForOthers userId db2 db3 →
  appendsForOthers userId db1 db3.
Proof.
  intros (new1 & E1 & H1) (new2 & E2 & H2). exists (new1 ++ new2).
  split; [by rewrite E2, E1, app_assoc|]. by apply Forall_app.
Qed.

Section SelfNotificationFacts.

Variable Math_sin Math_cos : Js.number -> Js.number.
Variable Math_atan2 : Js.number -> Js.number -> Js.number.
Variable sendToDevice : string -> MessagingPayload -> PushResult.
Variable numberToString toFixed4 : Js.number -> string.
Variable sosTitle : string -> string.
Variable sosMessageBody : string -> option LatLng -> option Js.number -> string.

Lemma othersOf_callsForOthers userId members payload data :
  core_triggeringUid data = Some userId →
  callsForOthers userId (othersOf userId members payload data).
Proof.
  intros Hdata. apply Forall_forall. intros c Hc. unfold othersOf in Hc.
  apply list_elem_of_fmap in Hc as (doc & -> & Hdoc).
  apply list_elem_of_filter in Hdoc as [Hne _]. by split.
Qed.

Lemma fenceDispatches_callsForOthers userId familyId userName oldLocation
    newLocation now db members fenceDoc :
  callsForOthers userId
    (fenceDispatches Math_sin Math_cos Math_atan2 userId familyId userName
       oldLocation newLocation now db members fenceDoc).
Proof.
  unfold fenceDispatches.
  destruct (fenceTransition _ _ _ _ _ _) as [ty|]; [|constructor].
  destruct (cooldownActive _ _ _); [constructor|].
  destruct (newGeoPoint _ _); [|constructor].
  by apply othersOf_callsForOthers.
Qed.

Lemma runDispatches_appendsForOthers now userId calls db :
  callsForOthers userId calls →
  appendsForOthers userId db (runDispatches sendToDevice now calls db).
Proof.
  intros Hcalls. destruct db as [us gs log].
  destruct (runDispatches_log sendToDevice now calls us gs)
    as (us' & new & Hrun & Hnew).
  exists new. rewrite Hrun. split; [done|].
  eapply Forall_impl; [exact Hnew|]. intros d (c & Hc & ->).
  pose proof (proj1 (Forall_forall _ _) Hcalls c Hc) as [Hne Htrig].
  assert (notifiesAnother userId
            (notificationDocOf (d_data c) (d_recipientUid c) now)) as H
    by (by split).
  split; [done|]. by eapply notifiesAnother_not_self.
Qed.

Lemma checkLowBattery_appendsForOthers userId previous level now db :
  appendsForOthers userId db
    (checkLowBattery sendToDevice numberToString userId previous level now db).
Proof.
  unfold checkLowBattery.
  destruct (lowBatteryDetected _ _); [|apply appendsForOthers_refl].
  destruct (cooldownActive _ _ _); [apply appendsForOthers_refl|].
  destruct (getDoc userId (users db) ≫= u_familyId) as [familyId|];
    [|apply appendsForOthers_refl].
  destruct (String.eqb familyId ""); [apply appendsForOthers_refl|].
  apply runDispatches_appendsForOthers. by apply othersOf_callsForOthers.
Qed.

Lemma onSosActivated_appendsForOthers userId after location now db :
  appendsForOthers userId db
    (onSosActivated sendToDevice toFixed4 userId after location now db).2.
Proof.
  unfold onSosActivated.
  destruct after as [[| |[]| |]|]; simpl; try apply appendsForOthers_refl.
  destruct (getDoc userId (users db) ≫= u_familyId) as [familyId|];
    [|apply appendsForOthers_refl].
  destruct (String.eqb familyId ""); [apply appendsForOthers_refl|].
  destruct (sosLocation toFixed4 location) as [[locationString locationGeoPoint]|];
    [|apply appendsForOthers_refl].
  apply runDispatches_appendsForOthers. by apply othersOf_callsForOthers.
Qed.

Lemma checkGeofences_appendsForOthers userId oldLocation newLocation now db :
  appendsForOthers userId db
    (checkGeofences Math_sin Math_cos Math_atan2 sendToDevice userId
       oldLocation newLocation now db).
Proof.
  unfold checkGeofences.
  destruct (invalidLocationData _ _); [apply appendsForOthers_refl|].
  destruct (getDoc userId (users db) ≫= u_familyId) as [familyId|];
    [|apply appendsForOthers_refl].
  destruct (String.eqb familyId ""); [apply appendsForOthers_refl|].
  destruct (geofencesOf familyId (geofences db)) as [|fenceDoc rest];
    [apply appendsForOthers_refl|].
  apply runDispatches_appendsForOthers.
  unfold callsForOthers. apply Forall_bind, Forall_forall.
  intros fd _. apply fenceDispatches_callsForOthers.
Qed.

(** The client helper appends one document per recipient, in order, and
    touches nothing else. *)
Lemma foldl_addNotification (f : string → NotificationDoc) recipients db :
  foldl (λ acc recipientUid, addNotification (f recipientUid) acc) db recipients
  = mkFirestore (users db) (geofences db) (notifications db ++ (f <$> recipients)).
Proof.
  revert db. induction recipients as [|r rs IH]; intros db; simpl.
  - rewrite app_nil_r. by destruct db.
  - rewrite IH. unfold addNotification. simpl. by rewrite <- app_assoc.
Qed.

Lemma createNotificationsForFamily_log now senderUid payload db :
  (createNotificationsForFamily now senderUid payload db).2 =
  mkFirestore (users db) (geofences db)
    (notifications db ++
     if String.eqb (p_familyId payload) "" then []
     else notificationData now payload
          <$> getOtherFamilyMemberUids (p_familyId payload) senderUid db).
Proof.
  unfold createNotificationsForFamily.
  destruct (String.eqb (p_familyId payload) "").
  - simpl. rewrite app_nil_r. by destruct db.
  - destruct (getOtherFamilyMemberUids _ _ _) as [|r rs] eqn:E.
    + simpl. rewrite app_nil_r. by destruct db.
    + cbn [snd]. by rewrite foldl_addNotification.
Qed.

Lemma getOtherFamilyMemberUids_other familyId selfUid db r :
  r ∈ getOtherFamilyMemberUids familyId selfUid db → r ≠ selfUid ∧ selfUid ≠ "".
Proof.
  unfold getOtherFamilyMemberUids.
  destruct (String.eqb familyId "") eqn:Ef; simpl; [by intros ?%elem_of_nil|].
  destruct (String.eqb selfUid "") eqn:Es; simpl; [by intros ?%elem_of_nil|].
  intros (doc & -> & Hdoc)%list_elem_of_fmap.
  apply list_elem_of_filter in Hdoc as [Hne _]. split; [done|].
  intros ->. done.
Qed.

Lemma createNotificationsForFamily_appendsForOthers now uid payload db :
  p_triggeringUid payload = Some uid →
  appendsForOthers uid db (createNotificationsForFamily now uid payload db).2.
Proof.
  intros Htrig. rewrite createNotificationsForFamily_log.
  eexists. split; [reflexivity|].
  destruct (String.eqb (p_familyId payload) ""); [constructor|].
  apply Forall_fmap, Forall_forall. intros r Hr.
  apply getOtherFamilyMemberUids_other in Hr as [Hne Hself].
  assert (notifiesAnother uid (notificationData now payload r)) as H.
  { split; [|done]. simpl. rewrite Htrig. unfold whenTruthy, truthyString.
    destruct (String.eqb uid "") eqn:E; [|done].
    by apply String.eqb_eq in E. }
  simpl. split; [done|]. by eapply notifiesAnother_not_self.
Qed.

Lemma checkOneGeofence_appendsForOthers uid profile familyId prev cur now st fence :
  appendsForOthers uid st.2
    (checkOneGeofence Math_sin Math_cos Math_atan2 uid profile familyId prev cur
       now st fence).2.
Proof.
  unfold checkOneGeofence.
  destruct (fenceTransitionClient _ _ _ _ _ _) as [ty|];
    [|apply appendsForOthers_refl].
  destruct (clientCooldownOver _ _ _); [|apply appendsForOthers_refl].
  by apply createNotificationsForFamily_appendsForOthers.
Qed.

Lemma checkCurrentUserGeofences_appendsForOthers uid profile fences newLocation
    now refs db :
  appendsForOthers uid db
    (checkCurrentUserGeofences Math_sin Math_cos Math_atan2 (Some uid) profile
       fences newLocation now refs db).2.
Proof.
  unfold checkCurrentUserGeofences.
  destruct newLocation as [cur|], (previousUserLocation refs) as [prev|],
    profile as [profile|]; try apply appendsForOthers_refl.
  destruct (_ || _); [apply appendsForOthers_refl|].
  change db with (refs, db).2 at 1. generalize (refs, db).
  induction fences as [|fence fences IH]; intros st; simpl.
  - apply appendsForOthers_refl.
  - eapply appendsForOthers_trans; [|apply IH].
    apply checkOneGeofence_appendsForOthers.
Qed.

(** C7. No stored notification is addressed to the user who triggered it:
    every document that the three server triggers and the three client
    paths (geofence check through the RTDB listener, battery listener, SOS
    button) append to the log names the triggering user and has another
    user as recipient. *)
Theorem C7_no_self_notification :
  (∀ userId previous level now db,
     appendsForOthers userId db
       (checkLowBattery sendToDevice numberToString userId previous level now db)) ∧
  (∀ userId after location now db,
     appendsForOthers userId db
       (onSosActivated sendToDevice toFixed4 userId after location now db).2) ∧
  (∀ userId oldLocation newLocation now db,
     appendsForOthers userId db
       (checkGeofences Math_sin Math_cos Math_atan2 sendToDevice userId
          oldLocation newLocation now db)) ∧
  (∀ uid profile fences memberId liveData now refs db,
     appendsForOthers uid db
       (onLiveData Math_sin Math_cos Math_atan2 (Some uid) profile fences
          memberId liveData now refs db).2) ∧
  (∀ uid profile level now refs db,
     appendsForOthers uid db
       (onBatteryLevel numberToString uid profile level now refs db).2) ∧
  (∀ uid profile latestMemberData now db,
     appendsForOthers uid db
       (handleSosPress sosTitle sosMessageBody (Some uid) profile
          latestMemberData now db).2).
Proof.
  repeat apply conj.
  - apply checkLowBattery_appendsForOthers.
  - apply onSosActivated_appendsForOthers.
  - apply checkGeofences_appendsForOthers.
  - intros uid profile fences memberId liveData now refs db. unfold onLiveData.
    destruct (liveData ≫= currentLocation) as [loc|];
      [|apply appendsForOthers_refl].
    case_bool_decide; [|apply appendsForOthers_refl].
    destruct (previousUserLocation refs); [|apply appendsForOthers_refl].
    apply checkCurrentUserGeofences_appendsForOthers.
  - intros uid profile level now refs db. unfold onBatteryLevel.
    destruct (batteryAction _ _ _ _); try apply appendsForOthers_refl.
    by apply createNotificationsForFamily_appendsForOthers.
  - intros uid profile latestMemberData now db. unfold handleSosPress.
    destruct profile as [profile|]; [|apply appendsForOthers_refl].
    destruct (truthyString _); [|apply appendsForOthers_refl].
    by apply createNotificationsForFamily_appendsForOthers.
Qed.

End SelfNotificationFacts.

(** ** The cooldown gate of the server *)

Lemma newest_nil docs : newest docs = None ↔ docs = [].
Proof.
  destruct docs as [|d rest]; simpl; [done|].
  destruct (newest rest) as [d'|]; [|done].
  by destruct (n_timestamp d <? n_timestamp d').
Qed.

Lemma newest_greatest docs d :
  newest docs = Some d →
  d ∈ docs ∧ ∀ d', d' ∈ docs → n_timestamp d' ≤ n_timestamp d.
Proof.
  revert d. induction docs as [|d0 rest IH]; intros d; simpl; [done|].
  destruct (newest rest) as [d1|] eqn:E.
  - destruct (IH d1 eq_refl) as [Hin Hmax].
    destruct (Z.ltb_spec (n_timestamp d0) (n_timestamp d1)); intros [= <-].
    + split; [by right|]. intros d' [->|Hd']%elem_of_cons; [lia|by apply Hmax].
    + split; [by left|]. intros d' [->|Hd']%elem_of_cons; [lia|].
      specialize (Hmax d' Hd'). lia.
  - apply newest_nil in E as ->. intros [= <-].
    split; [by left|]. by intros d' [->|?%elem_of_nil]%elem_of_cons.
Qed.

(** The gate in terms of the filtered log: blocked iff the newest matching
    document is younger than the window. *)
Lemma cooldownActive_mostRecent now window (P : NotificationDoc → Prop)
    `{∀ d, Decision (P d)} log :
  cooldownActive now window (filter P log) = false ↔
  (¬ ∃ d, d ∈ log ∧ P d) ∨
  (∃ d, mostRecent P log d ∧ window ≤ now - n_timestamp d).
Proof.
  unfold cooldownActive.
  destruct (newest (filter P log)) as [last|] eqn:E.
  - apply newest_greatest in E as [Hin Hmax].
    apply list_elem_of_filter in Hin as [HP Hin].
    assert (mostRecent P log last) as Hlast.
    { repeat split; try done. intros d' Hd' HP'. apply Hmax.
      by apply list_elem_of_filter. }
    rewrite Z.ltb_ge. split.
    + intros Hw. right. exists last. split; [done|lia].
    + intros [Hnone | (d & (Hd & HPd & Hdmax) & Hw)].
      * destruct Hnone. by exists last.
      * destruct Hlast as (_ & _ & Hlmax).
        specialize (Hdmax last Hin HP). lia.
  - apply newest_nil in E. split; [|done]. intros _. left.
    intros (d & Hd & HP).
    assert (d ∈ filter P log) as Hf by (by apply list_elem_of_filter).
    rewrite E in Hf. by apply elem_of_nil in Hf.
Qed.

(** A document that does not match the key of a query does not change its
    answer. *)
Lemma filter_app_unmatched (P : NotificationDoc → Prop)
    `{∀ d, Decision (P d)} log d :
  ¬ P d → filter P (log ++ [d]) = filter P log.
Proof.
  intros HP. rewrite filter_app, filter_cons_False by done.
  by rewrite filter_nil, app_nil_r.
Qed.

Section GateFacts.

Variable Math_sin Math_cos : Js.number -> Js.number.
Variable Math_atan2 : Js.number -> Js.number -> Js.number.
Variable sendToDevice : string -> MessagingPayload -> PushResult.
Variable numberToString toFixed4 : Js.number -> string.

Lemma onSosActivated_log userId after location now us gs :
  ∃ reset us' new, ∀ log,
    onSosActivated sendToDevice toFixed4 userId after location now
      (mkFirestore us gs log)
    = (reset, mkFirestore us' gs (log ++ new)).
Proof.
  unfold onSosActivated.
  assert (∀ reset : bool, ∃ (reset' : bool) us' new, ∀ log,
            (reset, mkFirestore us gs log)
            = (reset', mkFirestore us' gs (log ++ new))) as Hsame.
  { intros reset. exists reset, us, []. intros log. by rewrite app_nil_r. }
  destruct after as [[| |[]| |]|]; try apply Hsame. simpl.
  destruct (getDoc userId us ≫= u_familyId) as [familyId|]; [|apply Hsame].
  destruct (String.eqb familyId ""); [apply Hsame|].
  destruct (sosLocation toFixed4 location) as [[locationString locationGeoPoint]|];
    [|apply Hsame].
  unfold notifyOthers.
  match goal with
  | |- context [runDispatches _ _ ?calls _] =>
      destruct (runDispatches_log sendToDevice now calls us gs)
        as (us' & new & Hrun & _)
  end.
  exists true, us', new. intros log. by rewrite Hrun.
Qed.

(** The calls of a low-battery run that the gate lets through: one per
    other member of the family. *)
Lemma checkLowBattery_allowed userId previous level now db familyId :
  lowBatteryDetected previous level = true →
  cooldownActive now NOTIFICATION_COOLDOWN_MS.lowBattery
    (recentLowBattery userId db) = false →
  getDoc userId (users db) ≫= u_familyId = Some familyId → familyId ≠ "" →
  ∃ payload data,
    core_type data = low_battery ∧ core_triggeringUid data = Some userId ∧
    checkLowBattery sendToDevice numberToString userId previous level now db
    = runDispatches sendToDevice now
        (othersOf userId (membersOf familyId (users db)) payload data) db.
Proof.
  intros Hdetected Hgate Hfam Hne. unfold checkLowBattery.
  rewrite Hdetected, Hgate, Hfam. apply String.eqb_neq in Hne. rewrite Hne.
  unfold notifyOthers.
  refine (ex_intro _ _ (ex_intro _ _ (conj _ (conj _ eq_refl)))); reflexivity.
Qed.

(** The calls of an SOS run: one per other member of the family, whatever
    the log holds. *)
Lemma onSosActivated_allowed userId location now db familyId locationString
    locationGeoPoint :
  getDoc userId (users db) ≫= u_familyId = Some familyId → familyId ≠ "" →
  sosLocation toFixed4 location = Some (locationString, locationGeoPoint) →
  ∃ payload data,
    core_type data = sos ∧ core_triggeringUid data = Some userId ∧
    core_relatedLocation data = locationGeoPoint ∧
    onSosActivated sendToDevice toFixed4 userId (Some (JsBoolean true)) location
      now db
    = (true,
       runDispatches sendToDevice now
         (othersOf userId (membersOf familyId (users db)) payload data) db).
Proof.
  intros Hfam Hne Hloc. unfold onSosActivated.
  rewrite Hfam, Hloc. apply String.eqb_neq in Hne. rewrite Hne.
  unfold notifyOthers.
  refine (ex_intro _ _ (ex_intro _ _ (conj _ (conj _ (conj _ eq_refl)))));
    reflexivity.
Qed.

(** When the push succeeds for every other member, a batch of calls to the
    other members records one document for each, in the order of the
    snapshot. *)
Lemma othersOf_all_sent userId familyId payload data now db :
  (∀ doc, doc ∈ otherMembers userId familyId (users db) →
          pushSucceeds sendToDevice (users db) doc.1) →
  let db' :=
    runDispatches sendToDevice now
      (othersOf userId (membersOf familyId (users db)) payload data) db in
  users db' = users db ∧
  newDocs db db' =
  (λ doc, notificationDocOf data doc.1 now)
  <$> otherMembers userId familyId (users db).
Proof.
  intros Hpush db'. subst db'. destruct db as [us gs log]. simpl in *.
  rewrite runDispatches_all_sent.
  - split; [done|]. rewrite newDocs_app. unfold othersOf, otherMembers.
    by rewrite <- list_fmap_compose.
  - apply Forall_forall. intros c Hc. unfold othersOf in Hc.
    apply list_elem_of_fmap in Hc as (doc & -> & Hdoc).
    destruct (Hpush doc Hdoc) as (token & Htoken & Hsent).
    exists token. split; [done|]. apply Hsent.
Qed.

(** The calls that one fence pushes go to other members of the family. *)
Lemma fenceDispatches_recipients userId familyId userName oldLocation newLocation
    now db us fenceDoc c :
  c ∈ fenceDispatches Math_sin Math_cos Math_atan2 userId familyId userName
        oldLocation newLocation now db (membersOf familyId us) fenceDoc →
  ∃ doc, doc ∈ otherMembers userId familyId us ∧ d_recipientUid c = doc.1.
Proof.
  unfold fenceDispatches.
  destruct (fenceTransition _ _ _ _ _ _) as [ty|]; [|by intros ?%elem_of_nil].
  destruct (cooldownActive _ _ _); [by intros ?%elem_of_nil|].
  destruct (newGeoPoint _ _); [|by intros ?%elem_of_nil].
  unfold othersOf. intros (doc & -> & Hdoc)%list_elem_of_fmap. by exists doc.
Qed.

(** C4. The cooldown gate of the server allows a candidate iff no stored
    notification matches its subject, its kind and (for geofence kinds) its
    fence id, or the most recent matching one is at least as old as the
    window: 15 minutes for [low_battery], 5 minutes for [geofence_entry] and
    [geofence_exit].  A blocked candidate is dropped.  An allowed
    low-battery candidate of a user in a family starts one call of
    [sendAndStoreNotification] per other member, and an allowed geofence
    candidate does so when the constructor of [GeoPoint] accepts the new
    location; otherwise the run ends with no call.  When the pushes succeed
    the trigger records the documents of these calls.  Hence, when there is
    another member to notify, the low-battery trigger records a notification
    iff the gate allows the candidate, and a fence pushes calls iff the gate
    allows its transition.  The key is per fence and per kind: a stored
    notification with another fence id, kind or subject never changes the
    answer.  An SOS is dispatched to every other member without looking at
    the log. *)
Theorem C4_server_cooldown_gate :
  (∀ userId now db,
     cooldownActive now NOTIFICATION_COOLDOWN_MS.lowBattery
       (recentLowBattery userId db) = false ↔
     (¬ ∃ d, d ∈ notifications db ∧ matchesLowBattery userId d) ∨
     (∃ d, mostRecent (matchesLowBattery userId) (notifications db) d ∧
           15 * 60 * 1000 ≤ now - n_timestamp d)) ∧
  (∀ userId fenceId ty now db,
     cooldownActive now NOTIFICATION_COOLDOWN_MS.geofence
       (recentGeofence userId fenceId ty db) = false ↔
     (¬ ∃ d, d ∈ notifications db ∧ matchesGeofence userId fenceId ty d) ∨
     (∃ d, mostRecent (matchesGeofence userId fenceId ty) (notifications db) d ∧
           5 * 60 * 1000 ≤ now - n_timestamp d)) ∧
  (∀ userId previous level now db,
     lowBatteryDetected previous level = true →
     cooldownActive now NOTIFICATION_COOLDOWN_MS.lowBattery
       (recentLowBattery userId db) = true →
     checkLowBattery sendToDevice numberToString userId previous level now db
     = db) ∧
  (∀ userId previous level now db familyId,
     lowBatteryDetected previous level = true →
     cooldownActive now NOTIFICATION_COOLDOWN_MS.lowBattery
       (recentLowBattery userId db) = false →
     getDoc userId (users db) ≫= u_familyId = Some familyId → familyId ≠ "" →
     let db' :=
       checkLowBattery sendToDevice numberToString userId previous level now db in
     (∃ payload data,
        core_type data = low_battery ∧ core_triggeringUid data = Some userId ∧
        db' = runDispatches sendToDevice now
                (othersOf userId (membersOf familyId (users db)) payload data)
                db) ∧
     ((∀ doc, doc ∈ otherMembers userId familyId (users db) →
              pushSucceeds sendToDevice (users db) doc.1) →
      n_recipientUid <$> newDocs db db' =
      fst <$> otherMembers userId familyId (users db) ∧
      Forall (λ d, n_type d = low_battery ∧ n_triggeringUid d = Some userId)
             (newDocs db db'))) ∧
  (∀ userId previous level now db familyId,
     lowBatteryDetected previous level = true →
     getDoc userId (users db) ≫= u_familyId = Some familyId → familyId ≠ "" →
     otherMembers userId familyId (users db) ≠ [] →
     (∀ doc, doc ∈ otherMembers userId familyId (users db) →
             pushSucceeds sendToDevice (users db) doc.1) →
     newDocs db
       (checkLowBattery sendToDevice numberToString userId previous level now db)
     ≠ [] ↔
     (¬ ∃ d, d ∈ notifications db ∧ matchesLowBattery userId d) ∨
     (∃ d, mostRecent (matchesLowBattery userId) (notifications db) d ∧
           15 * 60 * 1000 ≤ now - n_timestamp d)) ∧
  (∀ userId familyId userName oldLocation newLocation now db members fenceDoc ty
     relatedLocation,
     fenceTransition Math_sin Math_cos Math_atan2 oldLocation newLocation
       fenceDoc.2 = Some ty →
     newGeoPoint (numberOf (latitudeOf newLocation))
       (numberOf (longitudeOf newLocation)) = Some relatedLocation →
     filter (λ doc, doc.1 ≠ userId) members ≠ [] →
     fenceDispatches Math_sin Math_cos Math_atan2 userId familyId userName
       oldLocation newLocation now db members fenceDoc ≠ [] ↔
     (¬ ∃ d, d ∈ notifications db ∧ matchesGeofence userId fenceDoc.1 ty d) ∨
     (∃ d, mostRecent (matchesGeofence userId fenceDoc.1 ty) (notifications db) d ∧
           5 * 60 * 1000 ≤ now - n_timestamp d)) ∧
  (∀ userId familyId userName oldLocation newLocation now db members fenceDoc ty,
     fenceTransition Math_sin Math_cos Math_atan2 oldLocation newLocation
       fenceDoc.2 = Some ty →
     let calls :=
       fenceDispatches Math_sin Math_cos Math_atan2 userId familyId userName
         oldLocation newLocation now db members fenceDoc in
     let accepted :=
       newGeoPoint (numberOf (latitudeOf newLocation))
         (numberOf (longitudeOf newLocation)) in
     (cooldownActive now NOTIFICATION_COOLDOWN_MS.geofence
        (recentGeofence userId fenceDoc.1 ty db) = true → calls = []) ∧
     (accepted = None → calls = []) ∧
     (cooldownActive now NOTIFICATION_COOLDOWN_MS.geofence
        (recentGeofence userId fenceDoc.1 ty db) = false →
      ∀ relatedLocation, accepted = Some relatedLocation →
      d_recipientUid <$> calls = fst <$> filter (λ doc, doc.1 ≠ userId) members ∧
      Forall (λ c, core_type (d_data c) = ty ∧
                   core_relatedGeofenceId (d_data c) = Some fenceDoc.1 ∧
                   core_relatedLocation (d_data c) = Some relatedLocation)
             calls)) ∧
  (∀ userId oldLocation newLocation now db familyId,
     invalidLocationData oldLocation newLocation = false →
     getDoc userId (users db) ≫= u_familyId = Some familyId → familyId ≠ "" →
     (∀ doc, doc ∈ otherMembers userId familyId (users db) →
             pushSucceeds sendToDevice (users db) doc.1) →
     newDocs db
       (checkGeofences Math_sin Math_cos Math_atan2 sendToDevice userId
          oldLocation newLocation now db) =
     docOfCall now
     <$> (geofencesOf familyId (geofences db) ≫=
            fenceDispatches Math_sin Math_cos Math_atan2 userId familyId
              (orDefault (getDoc userId (users db) ≫= u_name) "A family member")
              oldLocation newLocation now db (membersOf familyId (users db)))) ∧
  (∀ userId fenceId ty now db d,
     n_relatedGeofenceId d ≠ Some fenceId ∨ n_type d ≠ ty ∨
     n_triggeringUid d ≠ Some userId →
     cooldownActive now NOTIFICATION_COOLDOWN_MS.geofence
       (recentGeofence userId fenceId ty (addNotification d db)) =
     cooldownActive now NOTIFICATION_COOLDOWN_MS.geofence
       (recentGeofence userId fenceId ty db)) ∧
  (∀ userId after location now us gs log1 log2,
     ∃ reset us' new,
       onSosActivated sendToDevice toFixed4 userId after location now
         (mkFirestore us gs log1) = (reset, mkFirestore us' gs (log1 ++ new)) ∧
       onSosActivated sendToDevice toFixed4 userId after location now
         (mkFirestore us gs log2) = (reset, mkFirestore us' gs (log2 ++ new))) ∧
  (∀ userId location now db familyId locationString locationGeoPoint,
     getDoc userId (users db) ≫= u_familyId = Some familyId → familyId ≠ "" →
     sosLocation toFixed4 location = Some (locationString, locationGeoPoint) →
     let r :=
       onSosActivated sendToDevice toFixed4 userId (Some (JsBoolean true))
         location now db in
     (∃ payload data,
        core_type data = sos ∧ core_triggeringUid data = Some userId ∧
        r = (true,
             runDispatches sendToDevice now
               (othersOf userId (membersOf familyId (users db)) payload data)
               db)) ∧
     ((∀ doc, doc ∈ otherMembers userId familyId (users db) →
              pushSucceeds sendToDevice (users db) doc.1) →
      n_recipientUid <$> newDocs db r.2 =
      fst <$> otherMembers userId familyId (users db) ∧
      Forall (λ d, n_type d = sos ∧ n_triggeringUid d = Some userId ∧
                   n_relatedLocation d = locationGeoPoint)
             (newDocs db r.2) ∧
      (otherMembers userId familyId (users db) ≠ [] → newDocs db r.2 ≠ []))).
Proof.
  repeat apply conj.
  - intros userId now db. apply cooldownActive_mostRecent.
  - intros userId fenceId ty now db.
    apply (cooldownActive_mostRecent now _ (matchesGeofence userId fenceId ty)).
  - intros userId previous level now db Hdetected Hblocked.
    unfold checkLowBattery. by rewrite Hdetected, Hblocked.
  - intros userId previous level now db familyId Hdetected Hgate Hfam Hne db'.
    destruct (checkLowBattery_allowed userId previous level now db familyId)
      as (payload & data & Hty & Htrig & Hrun); try done.
    subst db'. split; [by exists payload, data|].
    intros Hpush. rewrite Hrun.
    destruct (othersOf_all_sent userId familyId payload data now db Hpush)
      as [_ ->].
    rewrite <- list_fmap_compose. split; [done|].
    apply Forall_fmap, Forall_forall. by intros doc _.
  - intros userId previous level now db familyId Hdetected Hfam Hne Hothers Hpush.
    etrans; [|apply (cooldownActive_mostRecent now _ (matchesLowBattery userId))].
    change (filter (matchesLowBattery userId) (notifications db))
      with (recentLowBattery userId db).
    change (15 * 60 * 1000) with NOTIFICATION_COOLDOWN_MS.lowBattery.
    destruct (cooldownActive _ _ _) eqn:Hgate.
    + unfold checkLowBattery. rewrite Hdetected, Hgate, newDocs_same.
      by split.
    + destruct (checkLowBattery_allowed userId previous level now db familyId)
        as (payload & data & _ & _ & ->); try done.
      destruct (othersOf_all_sent userId familyId payload data now db Hpush)
        as [_ ->].
      split; [done|]. intros _ E. apply fmap_nil_inv in E. done.
  - intros userId familyId userName oldLocation newLocation now db members
      fenceDoc ty relatedLocation Hty Hpoint Hothers.
    etrans; [|apply (cooldownActive_mostRecent now _
                       (matchesGeofence userId fenceDoc.1 ty))].
    change (filter (matchesGeofence userId fenceDoc.1 ty) (notifications db))
      with (recentGeofence userId fenceDoc.1 ty db).
    change (5 * 60 * 1000) with NOTIFICATION_COOLDOWN_MS.geofence.
    unfold fenceDispatches. rewrite Hty.
    destruct (cooldownActive _ _ _); [by split|]. rewrite Hpoint.
    split; [done|]. intros _ E. unfold othersOf in E.
    apply fmap_nil_inv in E. done.
  - intros userId familyId userName oldLocation newLocation now db members
      fenceDoc ty Hty calls accepted. subst calls accepted.
    unfold fenceDispatches. rewrite Hty.
    destruct (cooldownActive _ _ _).
    + split; [done|]. split; [done|]. by intros [=].
    + split; [by intros [=]|].
      destruct (newGeoPoint _ _) as [relatedLocation|]; (split; [done|]).
      * intros _ ? [= <-]. unfold othersOf. split.
        -- rewrite <- list_fmap_compose. by apply list_fmap_ext.
        -- apply Forall_fmap, Forall_forall. by intros doc _.
      * by intros _ ? [=].
  - intros userId oldLocation newLocation now db familyId Hvalid Hfam Hne Hpush.
    unfold checkGeofences. rewrite Hvalid, Hfam.
    apply String.eqb_neq in Hne. rewrite Hne.
    destruct (geofencesOf familyId (geofences db)) as [|fenceDoc fences] eqn:E;
      [by rewrite newDocs_same|].
    rewrite <- E. destruct db as [us gs log]. simpl in *.
    rewrite runDispatches_all_sent; [by rewrite newDocs_app|].
    apply Forall_forall. intros c (fence & Hc & _)%list_elem_of_bind.
    apply fenceDispatches_recipients in Hc as (doc & Hdoc & ->).
    destruct (Hpush doc Hdoc) as (token & Htoken & Hsent).
    exists token. split; [done|]. apply Hsent.
  - intros userId fenceId ty now db d Hd. unfold recentGeofence. simpl.
    rewrite filter_app_unmatched; [done|]. intros (H1 & H2 & H3). tauto.
  - intros userId after location now us gs log1 log2.
    destruct (onSosActivated_log userId after location now us gs)
      as (reset & us' & new & H).
    exists reset, us', new. by rewrite !H.
  - intros userId location now db familyId locationString locationGeoPoint
      Hfam Hne Hloc r.
    destruct (onSosActivated_allowed userId location now db familyId
                locationString locationGeoPoint)
      as (payload & data & Hty & Htrig & Hrel & Hrun); try done.
    subst r. split; [by exists payload, data|].
    intros Hpush. rewrite Hrun. cbn [snd].
    destruct (othersOf_all_sent userId familyId payload data now db Hpush)
      as [_ ->].
    rewrite <- list_fmap_compose. split; [done|]. split.
    + apply Forall_fmap, Forall_forall. by intros doc _.
    + intros Hothers E. apply fmap_nil_inv in E. done.
Qed.

End GateFacts.

(** The witness of C4.  One minute after the stored entry, the same entry is
    blocked; a low battery of alice, with nothing in the log, is recorded
    for bob. *)
Lemma C4_server_cooldown_gate_witness :
  fenceDispatches sampleSin sampleCos sampleAtan2 "alice" "fam" "Alice"
    (sampleLocation 20 20) (sampleLocation 10 10) 61000 sampleDbWithEntry
    (users sampleDb) ("home", homeFence) = [] ∧
  n_recipientUid
    <$> newDocs sampleDbTwo
          (checkLowBattery (λ _ _, PushSent) (λ _, "18") "alice"
             (Some (Js.ofZ 50)) (Some (Js.ofZ 18)) 1000 sampleDbTwo)
  = fst <$> otherMembers "alice" "fam" (users sampleDbTwo).
Proof.
  pose proof (C4_server_cooldown_gate sampleSin sampleCos sampleAtan2
                (λ _ _, PushSent) (λ _, "18") (λ _, ""))
    as (_ & _ & _ & Hlow & _ & _ & Hfence & _).
  split.
  - refine (proj1 (Hfence "alice" "fam" "Alice" (sampleLocation 20 20)
                     (sampleLocation 10 10) 61000 sampleDbWithEntry
                     (users sampleDb) ("home", homeFence) geofence_entry _) _);
      reflexivity.
  - refine (proj1 (proj2 (Hlow "alice" (Some (Js.ofZ 50)) (Some (Js.ofZ 18)) 1000
                            sampleDbTwo "fam" _ _ _ _) _)).
    + reflexivity.
    + reflexivity.
    + reflexivity.
    + discriminate.
    + intros doc Hdoc%list_elem_of_In. simpl in Hdoc.
      destruct Hdoc as [<-|[]]. exists "tokB". split; reflexivity.
Defined.

(** ** What the dispatchers record *)

Section RecordingFacts.

Variable sendToDevice : string -> MessagingPayload -> PushResult.



End RecordingFacts.


(** ** The cooldown of the client loop *)

(** When the remembered time lets a new alert through. *)
Lemma clientCooldownOver_spec now period last :
  clientCooldownOver now period last = true ↔
  last = None ∨ last = Some 0 ∨ ∃ t, last = Some t ∧ period < now - t.
Proof.
  unfold clientCooldownOver, noAlertTime. destruct last as [t|]; simpl.
  - destruct (Z.eqb_spec t 0) as [->|Hne]; simpl.
    + split; [|done]. intros _. right. by left.
    + rewrite Z.ltb_lt. split.
      * intros Hlt. right. right. by exists t.
      * by intros [[=] | [[= ->] | (t' & [= <-] & Hlt)]].
  - split; [|done]. intros _. by left.
Qed.

(** The branches of the battery listener. *)
Lemma batteryAction_low p newLevel now refs :
  (newLevel <=? LOW_BATTERY_THRESHOLD)%js = true →
  truthyString (up_familyId p) = true →
  default true (up_settings p ≫= batteryAlerts) = true →
  batteryAction (Some p) newLevel now refs =
  if clientCooldownOver now BATTERY_COOLDOWN_PERIOD (lastLowBatteryAlertSent refs)
  then SendLowBatteryAlert else NoBatteryAction.
Proof.
  intros H1 H2 H3. unfold batteryAction. simpl. rewrite H1, H2. simpl.
  rewrite ?bool_decide_eq_true_2 by eauto. simpl. by rewrite H3.
Qed.

Lemma batteryAction_send profile newLevel now refs :
  batteryAction profile newLevel now refs = SendLowBatteryAlert ↔
  (newLevel <=? LOW_BATTERY_THRESHOLD)%js = true ∧
  (∃ p, profile = Some p ∧ truthyString (up_familyId p) = true ∧
        default true (up_settings p ≫= batteryAlerts) = true) ∧
  clientCooldownOver now BATTERY_COOLDOWN_PERIOD (lastLowBatteryAlertSent refs)
  = true.
Proof.
  split.
  - unfold batteryAction.
    destruct (newLevel <=? LOW_BATTERY_THRESHOLD)%js eqn:E1; simpl.
    + destruct profile as [p|]; simpl.
      * rewrite ?bool_decide_eq_true_2 by eauto. simpl.
        destruct (truthyString (up_familyId p)) eqn:E2; simpl.
        -- destruct (default true (up_settings p ≫= batteryAlerts)) eqn:E3;
             simpl; [|done].
           destruct (clientCooldownOver _ _ _) eqn:E4; [|done].
           intros _. split; [done|]. split; [|done]. by exists p.
        -- by destruct (_ >? _)%js.
      * rewrite ?bool_decide_eq_false_2 by (by intros [? ?]). simpl.
        by destruct (_ >? _)%js.
    + by destruct (_ >? _)%js.
  - intros (H1 & (p & -> & H2 & H3) & H4).
    by rewrite batteryAction_low, H4.
Qed.

Section ClientGateFacts.

Variable Math_sin Math_cos : Js.number -> Js.number.
Variable Math_atan2 : Js.number -> Js.number -> Js.number.
Variable numberToString : Js.number -> string.

(** The refs after the geofence check are the same whatever the database
    holds. *)
Lemma checkOneGeofence_refs uid profile familyId prev cur now refs db1 db2 fence :
  (checkOneGeofence Math_sin Math_cos Math_atan2 uid profile familyId prev cur
     now (refs, db1) fence).1 =
  (checkOneGeofence Math_sin Math_cos Math_atan2 uid profile familyId prev cur
     now (refs, db2) fence).1.
Proof.
  unfold checkOneGeofence. simpl.
  destruct (fenceTransitionClient _ _ _ _ _ _); [|done].
  by destruct (clientCooldownOver _ _ _).
Qed.

Lemma foldl_checkOneGeofence_refs uid profile familyId prev cur now fences
    refs db1 db2 :
  (foldl (checkOneGeofence Math_sin Math_cos Math_atan2 uid profile familyId
            prev cur now) (refs, db1) fences).1 =
  (foldl (checkOneGeofence Math_sin Math_cos Math_atan2 uid profile familyId
            prev cur now) (refs, db2) fences).1.
Proof.
  revert refs db1 db2. induction fences as [|fence fences IH];
    intros refs db1 db2; simpl; [done|].
  pose proof (checkOneGeofence_refs uid profile familyId prev cur now refs
                db1 db2 fence) as H.
  destruct (checkOneGeofence _ _ _ _ _ _ _ _ _ (refs, db1) fence) as [r1 d1].
  destruct (checkOneGeofence _ _ _ _ _ _ _ _ _ (refs, db2) fence) as [r2 d2].
  simpl in H. subst r2. apply IH.
Qed.

(** The two windows are the same in both runtimes. *)
Lemma same_windows :
  GEOFENCE_COOLDOWN_PERIOD = NOTIFICATION_COOLDOWN_MS.geofence ∧
  BATTERY_COOLDOWN_PERIOD = NOTIFICATION_COOLDOWN_MS.lowBattery.
Proof. done. Qed.

(** When the time remembered by the client is the time of the newest
    matching stored notification, the client and the server decide alike,
    the exact end of the window apart. *)
Lemma synchronized_decisions now window matching last :
  newest matching = Some last →
  n_timestamp last ≠ 0 → now - n_timestamp last ≠ window →
  clientCooldownOver now window (Some (n_timestamp last)) =
  negb (cooldownActive now window matching).
Proof.
  intros E Hzero Hend. unfold clientCooldownOver, cooldownActive, noAlertTime.
  rewrite E. simpl.
  destruct (Z.eqb_spec (n_timestamp last) 0); [done|]. simpl.
  destruct (Z.ltb_spec window (now - n_timestamp last)),
           (Z.ltb_spec now (n_timestamp last + window)); simpl; lia.
Qed.

(** C2, as the code has it.  The server trigger decides from the durable
    log: the answer of its gate is a function of the stored notifications
    that carry the subject, the kind and the fence of the candidate.  The
    client loop decides from its refs: the geofence check allows a
    transition of a fence iff [geofenceCooldowns] holds no time for the fence
    id (whatever the kind of the transition) or holds one more than 5
    minutes old, the battery listener alerts on a low level iff
    [lastLowBatteryAlertSent] is empty or more than 15 minutes old, and the
    refs evolve the same way whatever the database holds.  The windows are
    the same, and the two decisions agree when the time remembered by the
    client is the time of the newest matching stored notification and the
    window does not end at this very millisecond. *)
Theorem C2_server_reads_log_client_reads_refs :
  (∀ userId fenceId ty now db1 db2,
     filter (matchesGeofence userId fenceId ty) (notifications db1) =
     filter (matchesGeofence userId fenceId ty) (notifications db2) →
     cooldownActive now NOTIFICATION_COOLDOWN_MS.geofence
       (recentGeofence userId fenceId ty db1) =
     cooldownActive now NOTIFICATION_COOLDOWN_MS.geofence
       (recentGeofence userId fenceId ty db2)) ∧
  (∀ userId now db1 db2,
     filter (matchesLowBattery userId) (notifications db1) =
     filter (matchesLowBattery userId) (notifications db2) →
     cooldownActive now NOTIFICATION_COOLDOWN_MS.lowBattery
       (recentLowBattery userId db1) =
     cooldownActive now NOTIFICATION_COOLDOWN_MS.lowBattery
       (recentLowBattery userId db2)) ∧
  (∀ uid profile familyId prev cur now refs db fence ty,
     fenceTransitionClient Math_sin Math_cos Math_atan2 prev cur fence = Some ty →
     let allowed :=
       clientCooldownOver now GEOFENCE_COOLDOWN_PERIOD
         (geofenceCooldowns refs !! f_id fence) in
     let after :=
       checkOneGeofence Math_sin Math_cos Math_atan2 uid profile familyId prev
         cur now (refs, db) fence in
     (allowed = true ↔
      geofenceCooldowns refs !! f_id fence = None ∨
      geofenceCooldowns refs !! f_id fence = Some 0 ∨
      ∃ t, geofenceCooldowns refs !! f_id fence = Some t ∧
           5 * 60 * 1000 < now - t) ∧
     (allowed = true → geofenceCooldowns after.1 !! f_id fence = Some now) ∧
     (allowed = false → after = (refs, db))) ∧
  (∀ p newLevel now refs,
     (newLevel <=? LOW_BATTERY_THRESHOLD)%js = true →
     truthyString (up_familyId p) = true →
     default true (up_settings p ≫= batteryAlerts) = true →
     (batteryAction (Some p) newLevel now refs = SendLowBatteryAlert ↔
      lastLowBatteryAlertSent refs = None ∨
      lastLowBatteryAlertSent refs = Some 0 ∨
      ∃ t, lastLowBatteryAlertSent refs = Some t ∧ 15 * 60 * 1000 < now - t)) ∧
  (∀ user profile fences newLocation now refs db1 db2,
     (checkCurrentUserGeofences Math_sin Math_cos Math_atan2 user profile fences
        newLocation now refs db1).1 =
     (checkCurrentUserGeofences Math_sin Math_cos Math_atan2 user profile fences
        newLocation now refs db2).1) ∧
  (∀ uid profile level now refs db1 db2,
     (onBatteryLevel numberToString uid profile level now refs db1).1 =
     (onBatteryLevel numberToString uid profile level now refs db2).1) ∧
  (GEOFENCE_COOLDOWN_PERIOD = NOTIFICATION_COOLDOWN_MS.geofence ∧
   BATTERY_COOLDOWN_PERIOD = NOTIFICATION_COOLDOWN_MS.lowBattery) ∧
  (∀ now window matching last,
     newest matching = Some last →
     n_timestamp last ≠ 0 → now - n_timestamp last ≠ window →
     clientCooldownOver now window (Some (n_timestamp last)) =
     negb (cooldownActive now window matching)) ∧
  (∀ now window,
     clientCooldownOver now window None = negb (cooldownActive now window [])).
Proof.
  repeat apply conj.
  - intros userId fenceId ty now db1 db2 H. unfold recentGeofence.
    unfold matchesGeofence in H. by rewrite H.
  - intros userId now db1 db2 H. unfold recentLowBattery.
    unfold matchesLowBattery in H. by rewrite H.
  - intros uid profile familyId prev cur now refs db fence ty Hty allowed after.
    split; [|split].
    + apply clientCooldownOver_spec.
    + intros Hallowed. subst after. unfold checkOneGeofence. rewrite Hty. simpl.
      subst allowed. rewrite Hallowed. simpl. apply lookup_insert_eq.
    + intros Hallowed. subst after. unfold checkOneGeofence. rewrite Hty. simpl.
      subst allowed. by rewrite Hallowed.
  - intros p newLevel now refs Hlow Hfam Halerts.
    rewrite batteryAction_low by done.
    rewrite <- (clientCooldownOver_spec now BATTERY_COOLDOWN_PERIOD).
    by destruct (clientCooldownOver _ _ _).
  - intros user profile fences newLocation now refs db1 db2.
    unfold checkCurrentUserGeofences.
    destruct user, newLocation, (previousUserLocation refs), profile; try done.
    destruct (_ || _); [done|]. apply foldl_checkOneGeofence_refs.
  - intros uid profile level now refs db1 db2. unfold onBatteryLevel.
    by destruct (batteryAction _ _ _ _).
  - done.
  - done.
  - apply synchronized_decisions.
  - done.
Qed.

End ClientGateFacts.

(** The witness of C2: the client remembers the time of the stored entry. *)
Lemma C2_server_reads_log_client_reads_refs_witness :
  clientCooldownOver 61000 (5 * 60 * 1000) (Some 1000) =
  negb (cooldownActive 61000 (5 * 60 * 1000) [sampleEntryDoc]).
Proof.
  refine (proj1 (proj2 (proj2 (proj2 (proj2 (proj2 (proj2 (proj2
            (C2_server_reads_log_client_reads_refs
               sampleSin sampleCos sampleAtan2 (λ _, ""))))))))) 61000
            (5 * 60 * 1000) [sampleEntryDoc] sampleEntryDoc _ _ _);
    [reflexivity | simpl; lia | simpl; lia].
Defined.

(** C2 fails on the client.  One minute after the server stored a
    low-battery alert of alice, her battery level falls to 18 percent again.
    The server trigger finds the alert in the log and suppresses the event.
    The battery listener of her device, whose refs are fresh, does not look
    at the log and stores two more notifications; with the time 1000 in its
    [lastLowBatteryAlertSent] it suppresses them: its decision depends on
    the refs and not on the log. *)
Lemma C2_counterexample :
  checkLowBattery (λ _ _, PushSent) (λ _, "18") "alice"
    (Some (Js.ofZ 55)) (Some (Js.ofZ 18)) 61000 sampleDbWithLowBattery
  = sampleDbWithLowBattery ∧
  n_recipientUid
    <$> notifications
          (onBatteryLevel (λ _, "18") "alice" (Some sampleProfile) (percent 18)
             61000 (mkRefs None None ∅) sampleDbWithLowBattery).2
  = ["bob"; "bob"; "carol"] ∧
  (onBatteryLevel (λ _, "18") "alice" (Some sampleProfile) (percent 18)
     61000 (mkRefs None (Some 1000) ∅) sampleDbWithLowBattery).2
  = sampleDbWithLowBattery.
Proof. repeat split; vm_compute; reflexivity. Qed.

(** ** Low battery: edge on the server, level and cooldown on the client *)

Section BatteryFacts.

Variable numberToString : Js.number -> string.

Lemma batteryAction_high profile newLevel now refs :
  (newLevel <=? LOW_BATTERY_THRESHOLD)%js = false →
  (newLevel >? LOW_BATTERY_THRESHOLD)%js = true →
  batteryAction profile newLevel now refs = ResetLowBatteryCooldown.
Proof. intros H1 H2. unfold batteryAction. by rewrite H1, H2. Qed.

Lemma clientBatteryTrace_cons uid profile level now rest refs db :
  ∃ db',
    clientBatteryTrace numberToString uid profile ((level, now) :: rest) refs db =
    batteryAction profile (Js.Math_round (level * Js.ofZ 100)%js) now refs
    :: clientBatteryTrace numberToString uid profile rest
         (refsAfterBattery profile (Js.Math_round (level * Js.ofZ 100)%js) now refs)
         db'.
Proof.
  eexists. cbn [clientBatteryTrace]. f_equal. f_equal.
  unfold onBatteryLevel, refsAfterBattery. by destruct (batteryAction _ _ _ _).
Qed.

Lemma round_percent n :
  n ∈ [55; 18; 15; 25; 10] →
  Js.Math_round (percent n * Js.ofZ 100)%js = Js.ofZ n.
Proof.
  rewrite !elem_of_cons, elem_of_nil.
  intros [-> | [-> | [-> | [-> | [-> | []]]]]]; by vm_compute.
Qed.

(** The sequence 55, 18, 15, 25, 10 on the client, at any times: the level
    above the threshold resets the remembered time, so the alerts at 18 and
    at 10 are always sent; the one at 15 is sent iff the cooldown that
    started at 18 is over. *)
Lemma clientBatteryTrace_sequence uid p t0 t1 t2 t3 t4 prev cooldowns db :
  truthyString (up_familyId p) = true →
  default true (up_settings p ≫= batteryAlerts) = true →
  clientBatteryTrace numberToString uid (Some p)
    [(percent 55, t0); (percent 18, t1); (percent 15, t2); (percent 25, t3);
     (percent 10, t4)]
    (mkRefs prev None cooldowns) db
  = [ResetLowBatteryCooldown;
     SendLowBatteryAlert;
     if clientCooldownOver t2 BATTERY_COOLDOWN_PERIOD (Some t1)
     then SendLowBatteryAlert else NoBatteryAction;
     ResetLowBatteryCooldown;
     SendLowBatteryAlert].
Proof.
  intros Hfam Halerts.
  destruct (clientBatteryTrace_cons uid (Some p) (percent 55) t0
              [(percent 18, t1); (percent 15, t2); (percent 25, t3);
               (percent 10, t4)] (mkRefs prev None cooldowns) db)
    as [db0 ->].
  rewrite round_percent by set_solver. unfold refsAfterBattery.
  rewrite batteryAction_high by by vm_compute. f_equal.
  destruct (clientBatteryTrace_cons uid (Some p) (percent 18) t1
              [(percent 15, t2); (percent 25, t3); (percent 10, t4)]
              (setLastLowBatteryAlertSent None (mkRefs prev None cooldowns)) db0)
    as [db1 ->].
  rewrite round_percent by set_solver. unfold refsAfterBattery.
  rewrite batteryAction_low by (done || by vm_compute).
  cbn [setLastLowBatteryAlertSent lastLowBatteryAlertSent clientCooldownOver
       noAlertTime orb]. f_equal.
  match goal with
  | |- clientBatteryTrace _ _ _ _ ?r _ = _ =>
      destruct (clientBatteryTrace_cons uid (Some p) (percent 15) t2
                  [(percent 25, t3); (percent 10, t4)] r db1) as [db2 ->]
  end.
  rewrite round_percent by set_solver. unfold refsAfterBattery.
  rewrite batteryAction_low by (done || by vm_compute).
  cbn [setLastLowBatteryAlertSent lastLowBatteryAlertSent previousUserLocation
       geofenceCooldowns]. f_equal.
  match goal with
  | |- clientBatteryTrace _ _ _ _ ?r _ = _ =>
      destruct (clientBatteryTrace_cons uid (Some p) (percent 25) t3
                  [(percent 10, t4)] r db2) as [db3 ->]
  end.
  rewrite round_percent by set_solver. unfold refsAfterBattery.
  rewrite batteryAction_high by by vm_compute. f_equal.
  match goal with
  | |- clientBatteryTrace _ _ _ _ ?r _ = _ =>
      destruct (clientBatteryTrace_cons uid (Some p) (percent 10) t4 [] r db3)
        as [db4 ->]
  end.
  rewrite round_percent by set_solver.
  rewrite batteryAction_low by (done || by vm_compute).
  by destruct (clientCooldownOver t2 _ _).
Qed.

(** C5, as the code has it.  The server trigger detects a low battery iff
    the current level is at most 20 and the previous one is absent or above
    20: for the sequence 55, 18, 15, 25, 10 it detects one at index 1 and at
    index 4 only, and time is no input of the detection.  The client
    listener looks at the current level and at the time it remembers, not at
    the previous level: it alerts iff the level is at most 20, the profile
    has a family and alerts enabled, and no alert was sent since the level
    was last above 20 or the last one is more than 15 minutes old; for the
    same sequence it alerts at index 1 and 4, and at index 2 iff the
    cooldown started at index 1 is over. *)
Theorem C5_low_battery_edge_on_server_cooldown_on_client :
  (∀ previous level,
     lowBatteryDetected previous level = true ↔
     ∃ l, level = Some l ∧ (l <=? Js.ofZ 20)%js = true ∧
          (previous = None ∨
           ∃ p, previous = Some p ∧ (p >? Js.ofZ 20)%js = true)) ∧
  serverBatteryDetections None (Js.ofZ <$> [55; 18; 15; 25; 10])
  = [false; true; false; false; true] ∧
  (∀ profile newLevel now refs,
     batteryAction profile newLevel now refs = SendLowBatteryAlert ↔
     (newLevel <=? Js.ofZ 20)%js = true ∧
     (∃ p, profile = Some p ∧ truthyString (up_familyId p) = true ∧
           default true (up_settings p ≫= batteryAlerts) = true) ∧
     (lastLowBatteryAlertSent refs = None ∨
      lastLowBatteryAlertSent refs = Some 0 ∨
      ∃ t, lastLowBatteryAlertSent refs = Some t ∧ 15 * 60 * 1000 < now - t)) ∧
  (∀ uid p t0 t1 t2 t3 t4 prev cooldowns db,
     truthyString (up_familyId p) = true →
     default true (up_settings p ≫= batteryAlerts) = true →
     clientBatteryTrace numberToString uid (Some p)
       [(percent 55, t0); (percent 18, t1); (percent 15, t2); (percent 25, t3);
        (percent 10, t4)]
       (mkRefs prev None cooldowns) db
     = [ResetLowBatteryCooldown;
        SendLowBatteryAlert;
        if (t1 =? 0) || (15 * 60 * 1000 <? t2 - t1)
        then SendLowBatteryAlert else NoBatteryAction;
        ResetLowBatteryCooldown;
        SendLowBatteryAlert]).
Proof.
  repeat apply conj.
  - intros previous level. unfold lowBatteryDetected.
    change LOW_BATTERY_THRESHOLD with (Js.ofZ 20).
    destruct level as [l|]; [|split; [done|by intros (? & ? & _)]].
    split.
    + intros [H1 H2]%andb_prop. exists l. split; [done|]. split; [done|].
      destruct previous as [p|]; [right; by exists p|by left].
    + intros (l' & [= <-] & H1 & H2). rewrite H1. simpl.
      by destruct H2 as [-> | (p & -> & H2)].
  - by vm_compute.
  - intros profile newLevel now refs.
    rewrite batteryAction_send, clientCooldownOver_spec. reflexivity.
  - intros uid p t0 t1 t2 t3 t4 prev cooldowns db Hfam Halerts.
    by rewrite clientBatteryTrace_sequence.
Qed.

End BatteryFacts.

(** The witness of C5: the listener of alice, one sample per minute. *)
Lemma C5_low_battery_witness :
  clientBatteryTrace (λ _, "") "alice" (Some sampleProfile)
    [(percent 55, 60000); (percent 18, 120000); (percent 15, 180000);
     (percent 25, 240000); (percent 10, 300000)]
    (mkRefs None None ∅) sampleDb
  = [ResetLowBatteryCooldown; SendLowBatteryAlert; NoBatteryAction;
     ResetLowBatteryCooldown; SendLowBatteryAlert].
Proof.
  exact (proj2 (proj2 (proj2 (C5_low_battery_edge_on_server_cooldown_on_client
           (λ _, ""))))
           "alice" sampleProfile 60000 120000 180000 240000 300000 None ∅
           sampleDb eq_refl eq_refl).
Defined.

(** C5 fails on the client.  With 16 minutes between the samples 18 and 15,
    the listener alerts at index 2 as well, although the level was already
    low: the notifications stored for bob and carol are those of the indices
    1, 2 and 4. *)
Lemma C5_counterexample :
  let samples :=
    [(percent 55, 60000); (percent 18, 120000); (percent 15, 1080000);
     (percent 25, 1140000); (percent 10, 1200000)] in
  clientBatteryTrace (λ _, "") "alice" (Some sampleProfile) samples
    (mkRefs None None ∅) sampleDb
  = [ResetLowBatteryCooldown; SendLowBatteryAlert; SendLowBatteryAlert;
     ResetLowBatteryCooldown; SendLowBatteryAlert] ∧
  (λ d, (n_recipientUid d, n_timestamp d))
  <$> notifications
        (foldl (λ st sample,
                  onBatteryLevel (λ _, "") "alice" (Some sampleProfile)
                    sample.1 sample.2 st.1 st.2)
               (mkRefs None None ∅, sampleDb) samples).2
  = [("bob", 120000); ("carol", 120000); ("bob", 1080000); ("carol", 1080000);
     ("bob", 1200000); ("carol", 1200000)].
Proof. split; by vm_compute. Qed.

(** ** The geofence edit screen: what an accepted save writes *)

Lemma digits2_pos_bounds m :
  2 ^ (Zpos (digits2_pos m) - 1) ≤ Zpos m < 2 ^ Zpos (digits2_pos m).
Proof.
  pose proof (Zdigits2_log2 (Zpos m) eq_refl) as H.
  change (Zdigits2 (Zpos m)) with (Zpos (digits2_pos m)) in H. rewrite H.
  replace (Z.log2 (Zpos m) + 1 - 1) with (Z.log2 (Zpos m)) by lia.
  pose proof (Z.log2_spec (Zpos m) eq_refl). unfold Z.succ in *. lia.
Qed.

Lemma round_range m k :
  4503599627370496 ≤ Z.pos m < 9007199254740992 →
  40 ≤ Zpos k ≤ 47 →
  (Zpos k = 47 → 7036874417766400 ≤ Z.pos m) →
  (Zpos k = 40 → Z.pos m ≤ 5497558138880000) →
  50 ≤ (if Zpos m mod 2 ^ Zpos k <? 2 ^ (Zpos k - 1)
        then Zpos m / 2 ^ Zpos k else Zpos m / 2 ^ Zpos k + 1) ≤ 5000.
Proof.
  intros Hd He Hlo Hhi.
  assert (Zpos k = 40 ∨ Zpos k = 41 ∨ Zpos k = 42 ∨ Zpos k = 43 \/
          Zpos k = 44 ∨ Zpos k = 45 ∨ Zpos k = 46 ∨ Zpos k = 47) as Hk by lia.
  destruct Hk as [Hk|[Hk|[Hk|[Hk|[Hk|[Hk|[Hk|Hk]]]]]]]; injection Hk as ->;
    match goal with
    | |- context [2 ^ Z.pos ?a] =>
        let v := eval vm_compute in (2 ^ Z.pos a) in
        change (2 ^ Z.pos a) with v;
        let w := eval vm_compute in (2 ^ (Z.pos a - 1)) in
        change (2 ^ (Z.pos a - 1)) with w
    end;
    (destruct (_ <? _) eqn:E; [apply Z.ltb_lt in E | apply Z.ltb_ge in E]);
    Z.div_mod_to_equations; lia.
Qed.

Lemma MIN_RADIUS_eq : MIN_RADIUS = S754_finite false 7036874417766400 (-47).
Proof. by vm_compute. Qed.

Lemma MAX_RADIUS_eq : MAX_RADIUS = S754_finite false 5497558138880000 (-40).
Proof. by vm_compute. Qed.

(** [x < y] is false on two positive finite numbers: [y] is not above
    [x]. *)
Lemma SFltb_false_finite s1 m1 e1 m2 e2 :
  SFltb (S754_finite s1 m1 e1) (S754_finite false m2 e2) = false →
  s1 = false ∧ e2 ≤ e1 ∧ (e1 = e2 → Z.pos m2 ≤ Z.pos m1).
Proof.
  unfold SFltb, SFcompare. destruct s1; [done|]. intros H. split; [done|].
  destruct (Z.compare_spec e1 e2) as [->|Hlt|Hgt]; try done.
  - split; [lia|]. intros _. rewrite Pos.compare_cont_spec in H.
    destruct (Pos.compare_spec m1 m2) as [->|Hm|Hm]; simpl in H; try done.
    apply Pos2Z.pos_lt_pos in Hm. lia.
  - split; lia.
Qed.

Lemma radius_bounds s m e :
  valid_binary Js.prec Js.emax (S754_finite s m e) = true →
  (S754_finite s m e <? MIN_RADIUS)%js = false →
  (S754_finite s m e >? MAX_RADIUS)%js = false →
  s = false ∧ 4503599627370496 ≤ Z.pos m < 9007199254740992 ∧
  -47 ≤ e ≤ -40 ∧
  (e = -47 → 7036874417766400 ≤ Z.pos m) ∧
  (e = -40 → Z.pos m ≤ 5497558138880000).
Proof.
  rewrite MIN_RADIUS_eq, MAX_RADIUS_eq. unfold Js.lt, Js.gt.
  intros Hv Hmin Hmax.
  apply SFltb_false_finite in Hmin as (-> & He1 & Hm1).
  apply SFltb_false_finite in Hmax as (_ & He2 & Hm2).
  unfold valid_binary, bounded, canonical_mantissa, fexp, emin, Js.prec, Js.emax in Hv.
  apply andb_prop in Hv as [Hc _]. apply Z.eqb_eq in Hc.
  pose proof (digits2_pos_bounds m) as Hd.
  assert (Zpos (digits2_pos m) = 53) as Hd53 by (clear Hd Hm1 Hm2; lia).
  rewrite Hd53 in Hd.
  assert (2 ^ (53 - 1) = 4503599627370496) as E1 by reflexivity.
  assert (2 ^ 53 = 9007199254740992) as E2 by reflexivity.
  rewrite E1, E2 in Hd.
  split; [done|]. split; [done|]. split; [lia|]. split.
  - intros ->. by apply Hm1.
  - intros ->. by apply Hm2.
Qed.

Lemma radius_in_range r :
  valid_binary Js.prec Js.emax r = true → Js.is_nan r = false →
  (r <? MIN_RADIUS)%js = false → (r >? MAX_RADIUS)%js = false →
  ∃ n, 50 ≤ n ≤ 5000 ∧ Js.Math_round r = Js.ofZ n.
Proof.
  intros Hv Hnan Hmin Hmax.
  destruct r as [s|s| |s m e].
  - by rewrite MIN_RADIUS_eq in Hmin.
  - rewrite MIN_RADIUS_eq in Hmin. rewrite MAX_RADIUS_eq in Hmax. by destruct s.
  - done.
  - destruct (radius_bounds s m e Hv Hmin Hmax) as (-> & Hd & He & Hlo & Hhi).
    destruct e as [|k|k]; try lia.
    pose proof (round_range m k Hd ltac:(lia) ltac:(intros [= ->]; by apply Hlo)
                  ltac:(intros [= ->]; by apply Hhi)) as Hn.
    unfold Js.Math_round.
    set (n := if _ <? _ then _ else _) in *. clearbody n. clear -Hn.
    exists n. split; [exact Hn|].
    destruct (Z.eqb_spec n 0) as [->|_]; [lia|].
    by destruct n.
Qed.

Lemma ofZ_wellFormed n : 50 ≤ n ≤ 5000 → wellFormed (Js.ofZ n) = true.
Proof.
  intros Hn.
  assert (forallb (λ k, wellFormed (Js.ofZ k)) (seqZ 50 4951) = true) as H
    by (by vm_compute).
  rewrite forallb_forall in H. apply H. apply list_elem_of_In, elem_of_seqZ. lia.
Qed.

Lemma Math_min_cases x y :
  Js.Math_min x y = x ∨ Js.Math_min x y = y ∨
  (Js.is_nan x = true ∨ Js.is_nan y = true).
Proof.
  unfold Js.Math_min. destruct (SFcompare x y) as [[]|] eqn:E; auto.
  - destruct x as [[]| | |]; auto.
  - right. right. destruct x, y; simpl in E; try done; auto.
Qed.

Lemma Math_max_cases x y :
  Js.Math_max x y = x ∨ Js.Math_max x y = y ∨
  (Js.is_nan x = true ∨ Js.is_nan y = true).
Proof.
  unfold Js.Math_max. destruct (SFcompare x y) as [[]|] eqn:E; auto.
  - destruct x as [[]| | |]; auto.
  - right. right. destruct x, y; simpl in E; try done; auto.
Qed.

Section EditScreenFacts.

Variable trim : string -> string.
Variable parseInt : string -> Js.number.
Variable user : option string.
Variable currentUserProfile : option AuthProfile.
Variable geofenceId : string.

(** [parseInt] returns a binary64 value. *)
Hypothesis parseInt_valid :
  ∀ text, valid_binary Js.prec Js.emax (parseInt text) = true.

Lemma updateDoc_Forall (P : GeofenceData → Prop) id data gs gs' :
  updateDoc id data gs = Some gs' → P data →
  Forall P (snd <$> gs) → Forall P (snd <$> gs').
Proof.
  revert gs'. induction gs as [|d gs IH]; intros gs'; simpl; [done|].
  destruct (decide (d.1 = id)).
  - intros [= <-] Hdata Hgs. inversion Hgs; subst. by constructor.
  - destruct (updateDoc id data gs) as [gs1|]; simpl; [|done].
    intros [= <-] Hdata Hgs. inversion Hgs; subst. constructor; [done|].
    by apply IH.
Qed.

Lemma getDoc_elem {A} id (docs : list (string * A)) data :
  getDoc id docs = Some data → data ∈ snd <$> docs.
Proof.
  induction docs as [|d docs IH]; simpl; [done|].
  destruct (decide (d.1 = id)).
  - intros [= <-]. by left.
  - intros H. right. by apply IH.
Qed.

(** An accepted save: the checks passed and the document that is written. *)
Lemma handleSave_saved newId scr gs gs' :
  wellFormed (radius scr) = true →
  handleSave trim user currentUserProfile geofenceId newId scr gs = (Saved, gs') →
  ∃ familyId c n,
    center scr = Some c ∧ trim (name scr) ≠ "" ∧ 50 ≤ n ≤ 5000 ∧
    Js.Math_round (radius scr) = Js.ofZ n ∧
    let data :=
      {| g_name := Some (trim (name scr));
         g_familyId := Some familyId;
         g_center := Some {| c_latitude := JsNumber (latitude c);
                             c_longitude := JsNumber (longitude c) |};
         g_radius := JsNumber (Js.ofZ n) |} in
    gs' = gs ++ [(newId, data)] ∨ updateDoc geofenceId data gs = Some gs'.
Proof.
  intros [Hv Hnan%negb_true_iff]%andb_prop. unfold handleSave.
  destruct user; [|done].
  destruct (currentUserProfile ≫= ap_familyId) as [familyId|]; [|done].
  destruct (String.eqb familyId ""); [done|].
  destruct (negb (isAdmin currentUserProfile)); [done|].
  destruct (center scr) as [c|]; [|done].
  destruct (String.eqb_spec (trim (name scr)) "") as [|Hname]; [done|].
  destruct (radius scr <? MIN_RADIUS)%js eqn:Hmin; [done|].
  destruct (radius scr >? MAX_RADIUS)%js eqn:Hmax; [done|]. simpl.
  destruct (radius_in_range (radius scr) Hv Hnan Hmin Hmax) as (n & Hn & Hround).
  unfold geofenceDataToSave. rewrite Hround.
  intros H. exists familyId, c, n. do 4 (split; [done|]). simpl.
  destruct (_ && _).
  - destruct (updateDoc _ _ _) as [gs1|]; [|done]. right. congruence.
  - left. congruence.
Qed.

Lemma handleSave_alerted newId scr gs title gs' :
  handleSave trim user currentUserProfile geofenceId newId scr gs
  = (Alerted title, gs') → gs' = gs.
Proof.
  unfold handleSave.
  repeat (match goal with
          | |- context [match ?x with _ => _ end] => destruct x
          end; try congruence).
Qed.

Lemma handleSave_boundedRadius newId scr gs :
  wellFormed (radius scr) = true →
  Forall boundedRadius (snd <$> gs) →
  Forall boundedRadius
    (snd <$> (handleSave trim user currentUserProfile geofenceId newId scr gs).2).
Proof.
  intros Hwf Hgs.
  destruct (handleSave _ _ _ _ _ _ _) as [[title|] gs'] eqn:E; simpl.
  - by rewrite (handleSave_alerted _ _ _ _ _ E).
  - destruct (handleSave_saved _ _ _ _ Hwf E)
      as (familyId & c & n & _ & _ & Hn & _ & [-> | Hupd]).
    + rewrite fmap_app. apply Forall_app. split; [done|].
      constructor; [|constructor]. by exists n.
    + eapply updateDoc_Forall; [exact Hupd| |done]. by exists n.
Qed.

Lemma onChangeRadiusText_wellFormed text scr :
  wellFormed (radius scr) = true →
  wellFormed (radius (onChangeRadiusText parseInt text scr)) = true.
Proof.
  intros Hwf. unfold onChangeRadiusText.
  destruct (Js.is_nan (parseInt text)) eqn:Hnan; simpl.
  - by destruct (String.eqb text "").
  - assert (wellFormed (parseInt text) = true) as Hnum.
    { unfold wellFormed. by rewrite parseInt_valid, Hnan. }
    assert (wellFormed (Js.Math_min MAX_RADIUS (parseInt text)) = true) as Hmin.
    { destruct (Math_min_cases MAX_RADIUS (parseInt text))
        as [-> | [-> | [H | H]]]; try done; by rewrite H in Hnan. }
    destruct (Math_max_cases MIN_RADIUS
                (Js.Math_min MAX_RADIUS (parseInt text)))
      as [-> | [-> | [H | H]]]; try done.
    unfold wellFormed in Hmin. rewrite H in Hmin.
    by rewrite andb_false_r in Hmin.
Qed.

Lemma loadGeofence_wellFormed gs scr :
  wellFormed (radius scr) = true →
  Forall boundedRadius (snd <$> gs) →
  wellFormed (radius (loadGeofence geofenceId gs scr)) = true.
Proof.
  intros Hwf Hgs. unfold loadGeofence.
  destruct (getDoc geofenceId gs) as [data|] eqn:E; [|done].
  destruct (_ && _); [|done]. simpl.
  apply getDoc_elem in E.
  destruct (proj1 (Forall_forall _ _) Hgs data E) as (n & Hn & ->).
  by apply ofZ_wellFormed.
Qed.

(** The invariant of the screen and of the collection is kept by every
    event. *)
Lemma screenStep_invariant st ev :
  wellFormed (radius st.1) = true ∧ Forall boundedRadius (snd <$> st.2) →
  let st' := screenStep trim parseInt user currentUserProfile geofenceId st ev in
  wellFormed (radius st'.1) = true ∧ Forall boundedRadius (snd <$> st'.2).
Proof.
  intros [Hwf Hgs]. destruct ev; simpl.
  - split; [|done]. unfold setupScreen.
    destruct (_ && _); [by apply loadGeofence_wellFormed|done].
  - done.
  - split; [by apply onChangeRadiusText_wellFormed|done].
  - split; [|done]. unfold handleMapPress. by destruct (_ && _).
  - split; [done|]. by apply handleSave_boundedRadius.
Qed.

(** C8. Every save that the edit screen accepts writes a radius that is an
    integer between 50 and 5000, the trimmed name, which is not empty, and
    the center that was set; a save with a radius below 50 or above 5000, a
    name that is empty once trimmed, or no center shows an alert and writes
    nothing.  Hence, whatever the user does on the screen, every stored
    geofence keeps the bounded-radius invariant. *)
Theorem C8_saved_geofence_has_bounded_radius :
  (∀ events newId gs0 gs',
     Forall boundedRadius (snd <$> gs0) →
     let st :=
       foldl (screenStep trim parseInt user currentUserProfile geofenceId)
             (initialEditScreen, gs0) events in
     handleSave trim user currentUserProfile geofenceId newId st.1 st.2
     = (Saved, gs') →
     ∃ familyId c n,
       center st.1 = Some c ∧ trim (name st.1) ≠ "" ∧ 50 ≤ n ≤ 5000 ∧
       Js.Math_round (radius st.1) = Js.ofZ n ∧
       let data :=
         {| g_name := Some (trim (name st.1));
            g_familyId := Some familyId;
            g_center := Some {| c_latitude := JsNumber (latitude c);
                                c_longitude := JsNumber (longitude c) |};
            g_radius := JsNumber (Js.ofZ n) |} in
       gs' = st.2 ++ [(newId, data)] ∨
       updateDoc geofenceId data st.2 = Some gs') ∧
  (∀ newId scr gs,
     (radius scr <? Js.ofZ 50)%js = true ∨ (radius scr >? Js.ofZ 5000)%js = true ∨
     trim (name scr) = "" ∨ center scr = None →
     ∃ title,
       handleSave trim user currentUserProfile geofenceId newId scr gs
       = (Alerted title, gs)) ∧
  (∀ events gs0,
     Forall boundedRadius (snd <$> gs0) →
     Forall boundedRadius
       (snd <$> (foldl (screenStep trim parseInt user currentUserProfile
                          geofenceId)
                       (initialEditScreen, gs0) events).2)).
Proof.
  assert (∀ events gs0,
            Forall boundedRadius (snd <$> gs0) →
            let st :=
              foldl (screenStep trim parseInt user currentUserProfile geofenceId)
                    (initialEditScreen, gs0) events in
            wellFormed (radius st.1) = true ∧
            Forall boundedRadius (snd <$> st.2)) as Hinv.
  { intros events gs0 Hgs0.
    assert (wellFormed (radius (initialEditScreen, gs0).1) = true ∧
            Forall boundedRadius (snd <$> (initialEditScreen, gs0).2)) as Hst
      by (split; [by vm_compute|done]).
    revert Hst. generalize (initialEditScreen, gs0).
    induction events as [|ev events IH]; intros st Hst; simpl; [done|].
    apply IH. by apply screenStep_invariant. }
  split; [|split].
  - intros events newId gs0 gs' Hgs0 st Hsave.
    destruct (Hinv events gs0 Hgs0) as [Hwf _]. fold st in Hwf.
    exact (handleSave_saved _ _ _ _ Hwf Hsave).
  - intros newId scr gs Hbad. unfold handleSave.
    change MIN_RADIUS with (Js.ofZ 50). change MAX_RADIUS with (Js.ofZ 5000).
    destruct user; [|by eexists].
    destruct (currentUserProfile ≫= ap_familyId) as [fam|]; [|by eexists].
    destruct (String.eqb fam ""); [by eexists|].
    destruct (negb (isAdmin currentUserProfile)); [by eexists|].
    destruct (center scr) as [c|]; [|by eexists].
    destruct (String.eqb_spec (trim (name scr)) "") as [|Hname]; [by eexists|].
    destruct (radius scr <? Js.ofZ 50)%js; [by eexists|].
    destruct (radius scr >? Js.ofZ 5000)%js; [by eexists|].
    by destruct Hbad as [? | [? | [? | ?]]].
  - intros events gs0 Hgs0. by destruct (Hinv events gs0 Hgs0).
Qed.

End EditScreenFacts.

(** The sample run stores one geofence, of radius 120. *)
Example sampleEvents_store :
  (foldl (screenStep (λ s, s) (λ _, Js.ofZ 120) (Some "alice") (Some adminProfile)
            "new")
         (initialEditScreen, []) sampleEvents).2
  = [("g1",
      {| g_name := Some "Home"; g_familyId := Some "fam";
         g_center := Some {| c_latitude := JsNumber (Js.ofZ 20);
                             c_longitude := JsNumber (Js.ofZ 10) |};
         g_radius := JsNumber (Js.ofZ 120) |})].
Proof. by vm_compute. Qed.

(** The witness of C8: the sample run from an empty collection. *)
Lemma C8_saved_geofence_witness :
  Forall boundedRadius
    (snd <$> (foldl (screenStep (λ s, s) (λ _, Js.ofZ 120) (Some "alice")
                       (Some adminProfile) "new")
                    (initialEditScreen, []) sampleEvents).2).
Proof.
  refine (proj2 (proj2 (C8_saved_geofence_has_bounded_radius
            (λ s, s) (λ _, Js.ofZ 120) (Some "alice") (Some adminProfile) "new" _))
            sampleEvents [] _).
  - intros text. reflexivity.
  - constructor.
Defined.

(** ** Further properties of the dispatchers *)

Lemma onlyTokensCleared_refl us : onlyTokensCleared us us.
Proof. apply Forall2_same_length_lookup_2; [done|]. intros i u u' H1 H2.
  assert (u = u') as -> by congruence. unfold tokenCleared. tauto. Qed.

Lemma onlyTokensCleared_trans us1 us2 us3 :
  onlyTokensCleared us1 us2 → onlyTokensCleared us2 us3 →
  onlyTokensCleared us1 us3.
Proof.
  unfold onlyTokensCleared. intros H12. revert us3.
  induction H12 as [|u1 u2 us1 us2 H _ IH]; intros us3 H23.
  - by inversion H23.
  - inversion H23 as [|? u3 ? us3' H' H23']; subst. constructor; [|by apply IH].
    destruct H as (E1 & E2 & E3 & E4 & Ht), H' as (E1' & E2' & E3' & E4' & Ht').
    unfold tokenCleared. repeat split; try congruence.
    destruct Ht' as [Ht' | Ht']; [|by right].
    destruct Ht as [Ht | Ht]; [left|right]; congruence.
Qed.

Lemma onlyTokensCleared_delete uid db :
  onlyTokensCleared (users db) (users (deleteFcmToken uid db)).
Proof.
  unfold deleteFcmToken. simpl. induction (users db) as [|u us IH]; simpl.
  - constructor.
  - constructor; [|done]. unfold tokenCleared.
    destruct (decide (u.1 = uid)); simpl; tauto.
Qed.

Section DispatchFrameFacts.
Variable sendToDevice : string -> MessagingPayload -> PushResult.

(** One call: at most one document, for the recipient of the call. *)
Lemma sendAndStoreNotification_step now recipientUid payload data us gs :
  ∃ us1 new1,
    (∀ log, sendAndStoreNotification sendToDevice now recipientUid payload data
              (mkFirestore us gs log) = mkFirestore us1 gs (log ++ new1)) ∧
    onlyTokensCleared us us1 ∧
    (new1 = [] ∨ new1 = [notificationDocOf data recipientUid now]).
Proof.
  destruct (usableToken us recipientUid) as [token|] eqn:Et.
  - destruct (sendToDevice token payload) as [|code] eqn:Es.
    + exists us, [notificationDocOf data recipientUid now].
      split; [|split; [apply onlyTokensCleared_refl|by right]]. intros log.
      rewrite sendAndStoreNotification_cases. simpl. by rewrite Et, Es.
    + destruct (invalidTokenCode code) eqn:Ec.
      * eexists _, []. split; [|split; [|by left]].
        -- intros log. rewrite sendAndStoreNotification_cases. simpl.
           rewrite Et, Es, Ec. unfold deleteFcmToken. simpl.
           by rewrite app_nil_r.
        -- apply (onlyTokensCleared_delete recipientUid (mkFirestore us gs [])).
      * exists us, []. split; [|split; [apply onlyTokensCleared_refl|by left]].
        intros log. rewrite sendAndStoreNotification_cases. simpl.
        rewrite Et, Es, Ec. by rewrite app_nil_r.
  - exists us, []. split; [|split; [apply onlyTokensCleared_refl|by left]].
    intros log. rewrite sendAndStoreNotification_cases. simpl. rewrite Et.
    by rewrite app_nil_r.
Qed.

(** A batch: the documents appended are those of some of the calls, in
    the order of the calls. *)
Lemma runDispatches_sublist now calls us gs :
  ∃ us' kept,
    (∀ log, runDispatches sendToDevice now calls (mkFirestore us gs log)
            = mkFirestore us' gs (log ++ (docOfCall now <$> kept))) ∧
    onlyTokensCleared us us' ∧ sublist kept calls.
Proof.
  revert us. induction calls as [|c calls IH]; intros us.
  - exists us, []. split; [|split; [apply onlyTokensCleared_refl|done]].
    intros log. simpl. by rewrite app_nil_r.
  - destruct (sendAndStoreNotification_step now (d_recipientUid c) (d_payload c)
                (d_data c) us gs) as (us1 & new1 & Hstep & Hus1 & Hnew1).
    destruct (IH us1) as (us' & kept & Hrest & Hus' & Hkept).
    exists us'. destruct Hnew1 as [-> | ->].
    + exists kept. split; [|split].
      * intros log. rewrite runDispatches_cons, Hstep, Hrest. by rewrite app_nil_r.
      * by eapply onlyTokensCleared_trans.
      * by apply sublist_cons.
    + exists (c :: kept). split; [|split].
      * intros log. rewrite runDispatches_cons, Hstep, Hrest.
        by rewrite <- app_assoc.
      * by eapply onlyTokensCleared_trans.
      * by apply sublist_skip.
Qed.

Lemma runDispatches_frame now calls db :
  serverFrame db (runDispatches sendToDevice now calls db).
Proof.
  destruct db as [us gs log].
  destruct (runDispatches_sublist now calls us gs) as (us' & kept & H & Hus & _).
  rewrite H. split; [done|]. split; [done|]. by apply prefix_app_r.
Qed.

Lemma serverFrame_refl db : serverFrame db db.
Proof. split; [done|]. split; [apply onlyTokensCleared_refl|done]. Qed.

End DispatchFrameFacts.

Lemma newDocs_elem_prefix db db' d :
  notifications db `prefix_of` notifications db' →
  d ∈ newDocs db db' → d ∈ notifications db'.
Proof.
  intros [new E] Hd. unfold newDocs in Hd. rewrite E in *.
  rewrite drop_app_length in Hd. apply elem_of_app. by right.
Qed.

Lemma newDocs_runDispatches sendToDevice now calls db :
  ∃ kept, sublist kept calls ∧
    newDocs db (runDispatches sendToDevice now calls db) = docOfCall now <$> kept.
Proof.
  destruct db as [us gs log].
  destruct (runDispatches_sublist sendToDevice now calls us gs)
    as (us' & kept & H & _ & Hkept).
  exists kept. split; [done|]. by rewrite H, newDocs_app.
Qed.

Lemma clientFrame_refl db : clientFrame db db.
Proof. by repeat split. Qed.

Lemma clientFrame_trans db1 db2 db3 :
  clientFrame db1 db2 → clientFrame db2 db3 → clientFrame db1 db3.
Proof.
  intros (H1 & H2 & H3) (H1' & H2' & H3'). repeat split; try congruence.
  by etrans.
Qed.

Lemma createNotificationsForFamily_frame now senderUid payload db :
  clientFrame db (createNotificationsForFamily now senderUid payload db).2.
Proof.
  rewrite createNotificationsForFamily_log. repeat split. simpl.
  by apply prefix_app_r.
Qed.

Section FrameFacts.

Variable Math_sin Math_cos : Js.number -> Js.number.
Variable Math_atan2 : Js.number -> Js.number -> Js.number.
Variable sendToDevice : string -> MessagingPayload -> PushResult.
Variable numberToString toFixed4 : Js.number -> string.
Variable sosTitle : string -> string.
Variable sosMessageBody : string -> option LatLng -> option Js.number -> string.

Lemma checkOneGeofence_frame uid profile familyId prev cur now st fence :
  clientFrame st.2
    (checkOneGeofence Math_sin Math_cos Math_atan2 uid profile familyId prev cur
       now st fence).2.
Proof.
  unfold checkOneGeofence.
  destruct (fenceTransitionClient _ _ _ _ _ _); [|apply clientFrame_refl].
  destruct (clientCooldownOver _ _ _); [|apply clientFrame_refl].
  apply createNotificationsForFamily_frame.
Qed.

Lemma checkCurrentUserGeofences_frame user profile fences newLocation now refs db :
  clientFrame db
    (checkCurrentUserGeofences Math_sin Math_cos Math_atan2 user profile fences
       newLocation now refs db).2.
Proof.
  unfold checkCurrentUserGeofences.
  destruct user, newLocation, (previousUserLocation refs), profile;
    try apply clientFrame_refl.
  destruct (_ || _); [apply clientFrame_refl|].
  change db with (refs, db).2 at 1. generalize (refs, db).
  induction fences as [|fence fences IH]; intros st; simpl.
  - apply clientFrame_refl.
  - eapply clientFrame_trans; [|apply IH]. apply checkOneGeofence_frame.
Qed.

Lemma checkLowBattery_frame userId previous level now db :
  serverFrame db
    (checkLowBattery sendToDevice numberToString userId previous level now db).
Proof.
  unfold checkLowBattery.
  destruct (lowBatteryDetected _ _); [|apply serverFrame_refl].
  destruct (cooldownActive _ _ _); [apply serverFrame_refl|].
  destruct (getDoc userId (users db) ≫= u_familyId) as [familyId|];
    [|apply serverFrame_refl].
  destruct (String.eqb familyId ""); [apply serverFrame_refl|].
  apply runDispatches_frame.
Qed.

Lemma onSosActivated_frame userId after location now db :
  serverFrame db
    (onSosActivated sendToDevice toFixed4 userId after location now db).2.
Proof.
  unfold onSosActivated.
  destruct after as [[| |[]| |]|]; simpl; try apply serverFrame_refl.
  destruct (getDoc userId (users db) ≫= u_familyId) as [familyId|];
    [|apply serverFrame_refl].
  destruct (String.eqb familyId ""); [apply serverFrame_refl|].
  destruct (sosLocation toFixed4 location) as [[locationString locationGeoPoint]|];
    [|apply serverFrame_refl].
  apply runDispatches_frame.
Qed.

Lemma checkGeofences_frame userId oldLocation newLocation now db :
  serverFrame db
    (checkGeofences Math_sin Math_cos Math_atan2 sendToDevice userId
       oldLocation newLocation now db).
Proof.
  unfold checkGeofences.
  destruct (invalidLocationData _ _); [apply serverFrame_refl|].
  destruct (getDoc userId (users db) ≫= u_familyId) as [familyId|];
    [|apply serverFrame_refl].
  destruct (String.eqb familyId ""); [apply serverFrame_refl|].
  destruct (geofencesOf familyId (geofences db)); [apply serverFrame_refl|].
  apply runDispatches_frame.
Qed.

(** X2. The server triggers and the client paths only add to the database:
    none of them changes or removes a geofence or a stored notification,
    and none changes the name, the family or the role of a user.  The
    server triggers may remove push tokens and do nothing else to the
    users; the client paths leave the users as they are. *)
Theorem X2_triggers_only_append_and_clear_tokens :
  (∀ userId previous level now db,
     serverFrame db
       (checkLowBattery sendToDevice numberToString userId previous level now db)) ∧
  (∀ userId after location now db,
     serverFrame db
       (onSosActivated sendToDevice toFixed4 userId after location now db).2) ∧
  (∀ userId oldLocation newLocation now db,
     serverFrame db
       (checkGeofences Math_sin Math_cos Math_atan2 sendToDevice userId
          oldLocation newLocation now db)) ∧
  (∀ user profile fences memberId liveData now refs db,
     clientFrame db
       (onLiveData Math_sin Math_cos Math_atan2 user profile fences memberId
          liveData now refs db).2) ∧
  (∀ uid profile level now refs db,
     clientFrame db (onBatteryLevel numberToString uid profile level now refs db).2) ∧
  (∀ user profile latestMemberData now db,
     clientFrame db
       (handleSosPress sosTitle sosMessageBody user profile latestMemberData
          now db).2).
Proof.
  repeat apply conj.
  - apply checkLowBattery_frame.
  - apply onSosActivated_frame.
  - apply checkGeofences_frame.
  - intros user profile fences memberId liveData now refs db. unfold onLiveData.
    destruct (liveData ≫= currentLocation); [|apply clientFrame_refl].
    case_bool_decide; [|apply clientFrame_refl].
    destruct (previousUserLocation refs); [|apply clientFrame_refl].
    apply checkCurrentUserGeofences_frame.
  - intros uid profile level now refs db. unfold onBatteryLevel.
    destruct (batteryAction _ _ _ _); try apply clientFrame_refl.
    apply createNotificationsForFamily_frame.
  - intros user profile latestMemberData now db. unfold handleSosPress.
    destruct user, profile; try apply clientFrame_refl.
    destruct (truthyString _); [|apply clientFrame_refl].
    apply createNotificationsForFamily_frame.
Qed.

End FrameFacts.

(** ** Who is notified *)

Lemma othersOf_withinFamily userId familyId us payload data now c :
  core_familyId data = familyId →
  c ∈ othersOf userId (membersOf familyId us) payload data →
  withinFamily us familyId (docOfCall now c).
Proof.
  intros Hfam Hc. apply othersOf_elem in Hc as (_ & Hdata & _ & u & Hu).
  apply membersOf_elem in Hu as [Hu1 Hu2]. split.
  - simpl. by rewrite Hdata.
  - by exists u.
Qed.

Lemma newDocs_runDispatches_elem sendToDevice now calls db d :
  d ∈ newDocs db (runDispatches sendToDevice now calls db) →
  ∃ c, c ∈ calls ∧ d = docOfCall now c.
Proof.
  destruct (newDocs_runDispatches sendToDevice now calls db) as (kept & Hk & ->).
  intros (c & -> & Hc)%list_elem_of_fmap. exists c. split; [|done].
  by eapply elem_of_sublist.
Qed.

Lemma newDocs_createNotificationsForFamily now senderUid payload db :
  newDocs db (createNotificationsForFamily now senderUid payload db).2 =
  if String.eqb (p_familyId payload) "" then []
  else notificationData now payload
       <$> getOtherFamilyMemberUids (p_familyId payload) senderUid db.
Proof.
  rewrite createNotificationsForFamily_log. destruct db as [us gs log].
  apply newDocs_app.
Qed.

Lemma getOtherFamilyMemberUids_elem familyId selfUid db r :
  r ∈ getOtherFamilyMemberUids familyId selfUid db →
  r ≠ selfUid ∧ ∃ u, (r, u) ∈ users db ∧ u_familyId u = Some familyId.
Proof.
  unfold getOtherFamilyMemberUids. destruct (_ || _); [by intros ?%elem_of_nil|].
  intros (doc & -> & Hdoc)%list_elem_of_fmap.
  apply list_elem_of_filter in Hdoc as [Hne Hdoc].
  apply membersOf_elem in Hdoc as [Hfam Hdoc]. split; [done|].
  exists doc.2. by destruct doc.
Qed.

Lemma createNotificationsForFamily_withinFamily now senderUid payload db d :
  d ∈ newDocs db (createNotificationsForFamily now senderUid payload db).2 →
  withinFamily (users db) (p_familyId payload) d.
Proof.
  rewrite newDocs_createNotificationsForFamily.
  destruct (String.eqb _ _); [by intros ?%elem_of_nil|].
  intros (r & -> & Hr)%list_elem_of_fmap.
  apply getOtherFamilyMemberUids_elem in Hr as [_ Hr]. by split.
Qed.

Lemma newDocs_trans db1 db2 db3 d :
  notifications db1 `prefix_of` notifications db2 →
  notifications db2 `prefix_of` notifications db3 →
  d ∈ newDocs db1 db3 → d ∈ newDocs db1 db2 ∨ d ∈ newDocs db2 db3.
Proof.
  intros [n1 E1] [n2 E2]. unfold newDocs. rewrite E2, E1.
  rewrite <- app_assoc, !drop_app_length.
  rewrite (app_assoc _ n1 n2), drop_app_length. apply elem_of_app.
Qed.

Section StayInFamilyFacts.

Variable Math_sin Math_cos : Js.number -> Js.number.
Variable Math_atan2 : Js.number -> Js.number -> Js.number.
Variable sendToDevice : string -> MessagingPayload -> PushResult.
Variable numberToString toFixed4 : Js.number -> string.
Variable sosTitle : string -> string.
Variable sosMessageBody : string -> option LatLng -> option Js.number -> string.

Lemma fenceDispatches_withinFamily userId familyId userName oldLocation
    newLocation now db us fenceDoc c :
  c ∈ fenceDispatches Math_sin Math_cos Math_atan2 userId familyId userName
        oldLocation newLocation now db (membersOf familyId us) fenceDoc →
  withinFamily us familyId (docOfCall now c).
Proof.
  unfold fenceDispatches.
  destruct (fenceTransition _ _ _ _ _ _) as [ty|]; [|by intros ?%elem_of_nil].
  destruct (cooldownActive _ _ _); [by intros ?%elem_of_nil|].
  destruct (newGeoPoint _ _); [|by intros ?%elem_of_nil].
  by apply othersOf_withinFamily.
Qed.

Lemma checkOneGeofence_withinFamily uid profile familyId prev cur now st fence d :
  d ∈ newDocs st.2
        (checkOneGeofence Math_sin Math_cos Math_atan2 uid profile familyId prev
           cur now st fence).2 →
  withinFamily (users st.2) familyId d.
Proof.
  unfold checkOneGeofence.
  destruct (fenceTransitionClient _ _ _ _ _ _) as [ty|];
    [|rewrite newDocs_same; by intros ?%elem_of_nil].
  destruct (clientCooldownOver _ _ _);
    [|rewrite newDocs_same; by intros ?%elem_of_nil].
  intros Hd. by apply createNotificationsForFamily_withinFamily in Hd.
Qed.

Lemma foldl_checkOneGeofence_withinFamily uid profile familyId prev cur now
    fences st d :
  d ∈ newDocs st.2
        (foldl (checkOneGeofence Math_sin Math_cos Math_atan2 uid profile
                  familyId prev cur now) st fences).2 →
  withinFamily (users st.2) familyId d.
Proof.
  revert st. induction fences as [|fence fences IH]; intros st; simpl.
  - rewrite newDocs_same. by intros ?%elem_of_nil.
  - intros Hd.
    pose proof (checkOneGeofence_frame Math_sin Math_cos Math_atan2 uid profile
                  familyId prev cur now st fence) as (Hus & _ & Hpre).
    set (st1 := checkOneGeofence _ _ _ _ _ _ _ _ _ st fence) in *.
    assert (clientFrame st1.2
              (foldl (checkOneGeofence Math_sin Math_cos Math_atan2 uid profile
                        familyId prev cur now) st1 fences).2) as (_ & _ & Hpre').
    { clear. generalize st1. induction fences as [|f fs IH]; intros s; simpl.
      - apply clientFrame_refl.
      - eapply clientFrame_trans; [|apply IH]. apply checkOneGeofence_frame. }
    destruct (newDocs_trans _ _ _ _ Hpre Hpre' Hd) as [H | H].
    + by apply checkOneGeofence_withinFamily in H.
    + apply IH in H. by rewrite Hus in H.
Qed.

(** X3. Notifications stay inside the family.  Every notification that a
    server trigger records carries the family of the user who triggered it
    and is addressed to a user of this family; every notification that a
    client path records carries the family of the profile and is addressed
    to a user of this family. *)
Theorem X3_notifications_stay_in_the_family :
  (∀ userId previous level now db d,
     d ∈ newDocs db
           (checkLowBattery sendToDevice numberToString userId previous level
              now db) →
     ∃ familyId, getDoc userId (users db) ≫= u_familyId = Some familyId ∧
                 withinFamily (users db) familyId d) ∧
  (∀ userId after location now db d,
     d ∈ newDocs db
           (onSosActivated sendToDevice toFixed4 userId after location now db).2 →
     ∃ familyId, getDoc userId (users db) ≫= u_familyId = Some familyId ∧
                 withinFamily (users db) familyId d) ∧
  (∀ userId oldLocation newLocation now db d,
     d ∈ newDocs db
           (checkGeofences Math_sin Math_cos Math_atan2 sendToDevice userId
              oldLocation newLocation now db) →
     ∃ familyId, getDoc userId (users db) ≫= u_familyId = Some familyId ∧
                 withinFamily (users db) familyId d) ∧
  (∀ user profile fences memberId liveData now refs db d,
     d ∈ newDocs db
           (onLiveData Math_sin Math_cos Math_atan2 user profile fences memberId
              liveData now refs db).2 →
     ∃ familyId, profile ≫= up_familyId = Some familyId ∧
                 withinFamily (users db) familyId d) ∧
  (∀ uid profile level now refs db d,
     d ∈ newDocs db (onBatteryLevel numberToString uid profile level now refs db).2 →
     ∃ familyId, profile ≫= up_familyId = Some familyId ∧
                 withinFamily (users db) familyId d) ∧
  (∀ user profile latestMemberData now db d,
     d ∈ newDocs db
           (handleSosPress sosTitle sosMessageBody user profile latestMemberData
              now db).2 →
     ∃ familyId, profile ≫= up_familyId = Some familyId ∧
                 withinFamily (users db) familyId d).
Proof.
  assert (∀ db d (P : Prop), d ∈ newDocs db db → P) as Hsame.
  { intros db d P. rewrite newDocs_same. by intros ?%elem_of_nil. }
  repeat apply conj.
  - intros userId previous level now db d. unfold checkLowBattery.
    destruct (lowBatteryDetected _ _); [|apply Hsame].
    destruct (cooldownActive _ _ _); [apply Hsame|].
    destruct (getDoc userId (users db) ≫= u_familyId) as [familyId|];
      [|apply Hsame].
    destruct (String.eqb familyId ""); [apply Hsame|].
    intros (c & Hc & ->)%newDocs_runDispatches_elem.
    exists familyId. split; [done|].
    eapply othersOf_withinFamily; [|exact Hc]. reflexivity.
  - intros userId after location now db d. unfold onSosActivated.
    destruct after as [[| |[]| |]|]; simpl; try apply Hsame.
    destruct (getDoc userId (users db) ≫= u_familyId) as [familyId|];
      [|apply Hsame].
    destruct (String.eqb familyId ""); [apply Hsame|].
    destruct (sosLocation toFixed4 location) as [[locationString locationGeoPoint]|];
      [|apply Hsame].
    intros (c & Hc & ->)%newDocs_runDispatches_elem.
    exists familyId. split; [done|].
    eapply othersOf_withinFamily; [|exact Hc]. reflexivity.
  - intros userId oldLocation newLocation now db d. unfold checkGeofences.
    destruct (invalidLocationData _ _); [apply Hsame|].
    destruct (getDoc userId (users db) ≫= u_familyId) as [familyId|];
      [|apply Hsame].
    destruct (String.eqb familyId ""); [apply Hsame|].
    destruct (geofencesOf familyId (geofences db)) as [|fd fds]; [apply Hsame|].
    intros (c & Hc & ->)%newDocs_runDispatches_elem.
    apply list_elem_of_bind in Hc as (fenceDoc & Hc & _).
    exists familyId. split; [done|]. by eapply fenceDispatches_withinFamily.
  - intros user profile fences memberId liveData now refs db d. unfold onLiveData.
    destruct (liveData ≫= currentLocation); [|apply Hsame].
    case_bool_decide; [|apply Hsame].
    destruct (previousUserLocation refs) as [prev|] eqn:Eprev; [|apply Hsame].
    cbn [snd]. unfold checkCurrentUserGeofences. rewrite Eprev.
    destruct user, profile as [p|]; try apply Hsame.
    destruct (_ || _) eqn:Eguard; [apply Hsame|].
    apply orb_false_elim in Eguard as [_ Efam].
    apply negb_false_iff in Efam.
    destruct (up_familyId p) as [familyId|] eqn:Ef; [|done].
    intros Hd. exists familyId. split; [done|].
    by apply (foldl_checkOneGeofence_withinFamily _ _ _ _ _ _ _ (refs, db)) in Hd.
  - intros uid profile level now refs db d. unfold onBatteryLevel.
    destruct (batteryAction _ _ _ _) eqn:Ea; try apply Hsame.
    apply batteryAction_send in Ea as (_ & (p & -> & Hfam & _) & _).
    intros Hd%createNotificationsForFamily_withinFamily. simpl in *.
    destruct (up_familyId p) as [familyId|]; [|done]. by exists familyId.
  - intros user profile latestMemberData now db d. unfold handleSosPress.
    destruct user, profile as [p|]; try apply Hsame.
    destruct (truthyString _) eqn:Hfam; [|apply Hsame].
    intros Hd%createNotificationsForFamily_withinFamily. simpl in *.
    destruct (up_familyId p) as [familyId|]; [|done]. by exists familyId.
Qed.

End StayInFamilyFacts.

(** ** A recorded alert starts the cooldown of the server *)

(** A matching document younger than the window closes the gate. *)
Lemma cooldownActive_elem now window (P : NotificationDoc → Prop)
    `{∀ d, Decision (P d)} log d :
  d ∈ log → P d → now < n_timestamp d + window →
  cooldownActive now window (filter P log) = true.
Proof.
  intros Hd HP Hnow. unfold cooldownActive.
  assert (d ∈ filter P log) as Hf by (by apply list_elem_of_filter).
  destruct (newest (filter P log)) as [last|] eqn:E.
  - apply newest_greatest in E as [_ Hmax]. specialize (Hmax d Hf).
    apply Z.ltb_lt. lia.
  - apply newest_nil in E. rewrite E in Hf. by apply elem_of_nil in Hf.
Qed.

Section CooldownStartFacts.

Variable Math_sin Math_cos : Js.number -> Js.number.
Variable Math_atan2 : Js.number -> Js.number -> Js.number.
Variable sendToDevice : string -> MessagingPayload -> PushResult.
Variable numberToString : Js.number -> string.

Lemma checkLowBattery_newDocs userId previous level now db d :
  d ∈ newDocs db
        (checkLowBattery sendToDevice numberToString userId previous level now db) →
  n_type d = low_battery ∧ n_triggeringUid d = Some userId ∧
  n_relatedGeofenceId d = None ∧ n_timestamp d = now ∧ n_read d = false.
Proof.
  unfold checkLowBattery.
  assert (∀ (P : Prop), d ∈ newDocs db db → P) as Hsame.
  { intros P. rewrite newDocs_same. by intros ?%elem_of_nil. }
  destruct (lowBatteryDetected _ _); [|apply Hsame].
  destruct (cooldownActive _ _ _); [apply Hsame|].
  destruct (getDoc userId (users db) ≫= u_familyId) as [familyId|];
    [|apply Hsame].
  destruct (String.eqb familyId ""); [apply Hsame|].
  intros (c & Hc & ->)%newDocs_runDispatches_elem.
  apply othersOf_elem in Hc as (_ & Hdata & _). unfold docOfCall. simpl.
  by rewrite Hdata.
Qed.

(** X4. A recorded low-battery alert starts the cooldown of the server:
    once [checkLowBattery] has recorded a notification at time [now], every
    battery update of the same user that the trigger handles before
    [now + 15 min] leaves the database as it is, whatever its levels. *)
Theorem X4_recorded_low_battery_alert_starts_cooldown :
  ∀ userId previous level now db previous' level' now',
    let db' :=
      checkLowBattery sendToDevice numberToString userId previous level now db in
    newDocs db db' ≠ [] →
    now' < now + 15 * 60 * 1000 →
    checkLowBattery sendToDevice numberToString userId previous' level' now' db'
    = db'.
Proof.
  intros userId previous level now db previous' level' now' db' Hnew Hnow.
  destruct (newDocs db db') as [|d new] eqn:E; [done|].
  assert (d ∈ newDocs db db') as Hd by (rewrite E; by left).
  pose proof (checkLowBattery_newDocs _ _ _ _ _ _ Hd) as (Hty & Htrig & _ & Hts & _).
  assert (d ∈ notifications db') as Hlog.
  { eapply newDocs_elem_prefix; [|exact Hd].
    apply checkLowBattery_frame. }
  unfold checkLowBattery at 1.
  destruct (lowBatteryDetected previous' level'); [|done].
  unfold recentLowBattery.
  rewrite (cooldownActive_elem now' _
             (λ d, n_triggeringUid d = Some userId ∧ n_type d = low_battery)
             (notifications db') d); try done.
  rewrite Hts. unfold NOTIFICATION_COOLDOWN_MS.lowBattery. lia.
Qed.

Lemma fenceTransition_kind oldLocation newLocation fence ty :
  fenceTransition Math_sin Math_cos Math_atan2 oldLocation newLocation fence
  = Some ty → ty = geofence_entry ∨ ty = geofence_exit.
Proof.
  unfold fenceTransition. destruct (invalidGeofence _); [done|].
  unfold eventType.
  destruct (_ && _); [left; congruence|].
  destruct (_ && _); [right; congruence|done].
Qed.

Lemma checkGeofences_newDocs userId oldLocation newLocation now db d :
  d ∈ newDocs db
        (checkGeofences Math_sin Math_cos Math_atan2 sendToDevice userId
           oldLocation newLocation now db) →
  n_triggeringUid d = Some userId ∧ n_timestamp d = now ∧ n_read d = false ∧
  ∃ fenceDoc familyId,
    getDoc userId (users db) ≫= u_familyId = Some familyId ∧
    fenceDoc ∈ geofencesOf familyId (geofences db) ∧
    n_relatedGeofenceId d = Some fenceDoc.1 ∧
    fenceTransition Math_sin Math_cos Math_atan2 oldLocation newLocation
      fenceDoc.2 = Some (n_type d) ∧
    (n_type d = geofence_entry ∨ n_type d = geofence_exit).
Proof.
  unfold checkGeofences.
  assert (∀ (P : Prop), d ∈ newDocs db db → P) as Hsame.
  { intros P. rewrite newDocs_same. by intros ?%elem_of_nil. }
  destruct (invalidLocationData _ _); [apply Hsame|].
  destruct (getDoc userId (users db) ≫= u_familyId) as [familyId|];
    [|apply Hsame].
  destruct (String.eqb familyId ""); [apply Hsame|].
  destruct (geofencesOf familyId (geofences db)) as [|fd fds] eqn:Efences;
    [apply Hsame|].
  intros (c & Hc & ->)%newDocs_runDispatches_elem.
  apply list_elem_of_bind in Hc as (fenceDoc & Hc & Hfence).
  unfold fenceDispatches in Hc.
  destruct (fenceTransition _ _ _ _ _ _) as [ty|] eqn:Ety;
    [|by apply elem_of_nil in Hc].
  destruct (cooldownActive _ _ _); [by apply elem_of_nil in Hc|].
  destruct (newGeoPoint _ _); [|by apply elem_of_nil in Hc].
  apply othersOf_elem in Hc as (_ & Hdata & _). unfold docOfCall. simpl.
  rewrite Hdata. simpl. do 3 (split; [done|]).
  exists fenceDoc, familyId. split; [done|]. split; [by rewrite Efences|].
  split; [done|]. split; [done|]. by eapply fenceTransition_kind.
Qed.

(** X5. A recorded geofence alert starts the cooldown of the server for its
    fence and its kind: a notification recorded by [checkGeofences] at time
    [now] names a fence and is an entry or an exit; as long as it is in the
    log, every transition of the same kind of the same user for this fence
    that the trigger handles before [now + 5 min] is dropped. *)
Theorem X5_recorded_geofence_alert_starts_cooldown :
  ∀ userId oldLocation newLocation now db d,
    d ∈ newDocs db
          (checkGeofences Math_sin Math_cos Math_atan2 sendToDevice userId
             oldLocation newLocation now db) →
    ∃ fenceId,
      n_relatedGeofenceId d = Some fenceId ∧
      (n_type d = geofence_entry ∨ n_type d = geofence_exit) ∧
      ∀ familyId userName oldLocation' newLocation' now' db' members fence,
        d ∈ notifications db' →
        now' < now + 5 * 60 * 1000 →
        fenceTransition Math_sin Math_cos Math_atan2 oldLocation' newLocation'
          fence = Some (n_type d) →
        fenceDispatches Math_sin Math_cos Math_atan2 userId familyId userName
          oldLocation' newLocation' now' db' members (fenceId, fence) = [].
Proof.
  intros userId oldLocation newLocation now db d Hd.
  apply checkGeofences_newDocs in Hd
    as (Htrig & Hts & _ & fenceDoc & fam & _ & _ & Hfence & _ & Hty).
  exists fenceDoc.1. split; [done|]. split; [done|].
  intros familyId userName oldLocation' newLocation' now' db' members fence
    Hlog Hnow Htrans.
  unfold fenceDispatches. cbn [fst snd]. rewrite Htrans.
  unfold recentGeofence.
  rewrite (cooldownActive_elem now' _
             (λ d', n_triggeringUid d' = Some userId ∧
                    n_relatedGeofenceId d' = Some fenceDoc.1 ∧
                    n_type d' = n_type d)
             (notifications db') d); try done.
  rewrite Hts. unfold NOTIFICATION_COOLDOWN_MS.geofence. lia.
Qed.

End CooldownStartFacts.

(** ** Nobody is notified twice of one event *)

Lemma sublist_fmap {A B} (f : A → B) (l1 l2 : list A) :
  l1 `sublist_of` l2 → f <$> l1 `sublist_of` f <$> l2.
Proof.
  induction 1; simpl; [done|by apply sublist_skip|by apply sublist_cons].
Qed.

Lemma NoDup_fst_inj {A} (l : list (string * A)) x y :
  NoDup (fst <$> l) → x ∈ l → y ∈ l → x.1 = y.1 → x = y.
Proof.
  induction l as [|z l IH]; simpl; [by intros _ ?%elem_of_nil|].
  intros Hnd Hx Hy Hxy. apply NoDup_cons in Hnd as [Hz Hnd].
  apply elem_of_cons in Hx as [->|Hx], Hy as [->|Hy]; auto.
  - destruct Hz. rewrite Hxy. apply list_elem_of_fmap. by exists y.
  - destruct Hz. rewrite <- Hxy. apply list_elem_of_fmap. by exists x.
Qed.

Lemma NoDup_fst_NoDup {A} (l : list (string * A)) : NoDup (fst <$> l) → NoDup l.
Proof. apply NoDup_fmap_1. Qed.

Lemma othersOf_NoDup userId familyId us payload data :
  NoDup (fst <$> us) →
  NoDup (d_recipientUid <$> othersOf userId (membersOf familyId us) payload data).
Proof.
  intros Hnd. rewrite othersOf_recipients.
  eapply sublist_NoDup; [exact Hnd|]. apply sublist_fmap.
  etrans; [apply sublist_filter|]. unfold membersOf. apply sublist_filter.
Qed.

Lemma getOtherFamilyMemberUids_NoDup familyId selfUid db :
  NoDup (fst <$> users db) → NoDup (getOtherFamilyMemberUids familyId selfUid db).
Proof.
  intros Hnd. unfold getOtherFamilyMemberUids.
  destruct (_ || _); [constructor|].
  eapply sublist_NoDup; [exact Hnd|]. apply sublist_fmap.
  etrans; [apply sublist_filter|]. unfold membersOf. apply sublist_filter.
Qed.

Lemma newDocs_runDispatches_NoDup {K} (key : NotificationDoc → K)
    sendToDevice now calls db :
  NoDup (key ∘ docOfCall now <$> calls) →
  NoDup (key <$> newDocs db (runDispatches sendToDevice now calls db)).
Proof.
  intros Hnd.
  destruct (newDocs_runDispatches sendToDevice now calls db) as (kept & Hk & ->).
  rewrite <- list_fmap_compose.
  eapply sublist_NoDup; [exact Hnd|]. by apply sublist_fmap.
Qed.

Section OnceFacts.

Variable Math_sin Math_cos : Js.number -> Js.number.
Variable Math_atan2 : Js.number -> Js.number -> Js.number.
Variable sendToDevice : string -> MessagingPayload -> PushResult.
Variable numberToString toFixed4 : Js.number -> string.
Variable sosTitle : string -> string.
Variable sosMessageBody : string -> option LatLng -> option Js.number -> string.

Lemma fenceDispatches_keys userId familyId userName oldLocation newLocation now
    db us fenceDoc :
  NoDup (fst <$> us) →
  NoDup (recipientAndFence ∘ docOfCall now <$>
         fenceDispatches Math_sin Math_cos Math_atan2 userId familyId userName
           oldLocation newLocation now db (membersOf familyId us) fenceDoc) ∧
  ∀ k, k ∈ (recipientAndFence ∘ docOfCall now <$>
            fenceDispatches Math_sin Math_cos Math_atan2 userId familyId userName
              oldLocation newLocation now db (membersOf familyId us) fenceDoc) →
       k.2 = Some fenceDoc.1.
Proof.
  intros Hnd. unfold fenceDispatches.
  destruct (fenceTransition _ _ _ _ _ _) as [ty|];
    [|split; [constructor|by intros k ?%elem_of_nil]].
  destruct (cooldownActive _ _ _);
    [split; [constructor|by intros k ?%elem_of_nil]|].
  destruct (newGeoPoint _ _);
    [|split; [constructor|by intros k ?%elem_of_nil]].
  split.
  - apply (NoDup_fmap_1 fst). rewrite <- list_fmap_compose.
    change (fst ∘ (recipientAndFence ∘ docOfCall now)) with d_recipientUid.
    by apply othersOf_NoDup.
  - intros k (c & -> & Hc)%list_elem_of_fmap.
    apply othersOf_elem in Hc as (_ & Hdata & _). simpl. by rewrite Hdata.
Qed.

(** X6. Nobody is notified twice of one event.  When the ids of the user
    documents are pairwise different, the notifications recorded by one run
    of the low-battery trigger, of the SOS trigger, of the client battery
    listener or of the SOS button have pairwise different recipients; when
    the ids of the geofence documents are pairwise different too, one run of
    the geofence trigger records at most one notification per recipient and
    fence. *)
Theorem X6_nobody_is_notified_twice_of_one_event :
  ∀ db, NoDup (fst <$> users db) →
    (∀ userId previous level now,
       NoDup (n_recipientUid <$>
              newDocs db (checkLowBattery sendToDevice numberToString userId
                            previous level now db))) ∧
    (∀ userId after location now,
       NoDup (n_recipientUid <$>
              newDocs db (onSosActivated sendToDevice toFixed4 userId after
                            location now db).2)) ∧
    (∀ userId oldLocation newLocation now,
       NoDup (fst <$> geofences db) →
       NoDup (recipientAndFence <$>
              newDocs db (checkGeofences Math_sin Math_cos Math_atan2
                            sendToDevice userId oldLocation newLocation now db))) ∧
    (∀ uid profile level now refs,
       NoDup (n_recipientUid <$>
              newDocs db (onBatteryLevel numberToString uid profile level now
                            refs db).2)) ∧
    (∀ user profile latestMemberData now,
       NoDup (n_recipientUid <$>
              newDocs db (handleSosPress sosTitle sosMessageBody user profile
                            latestMemberData now db).2)).
Proof.
  intros db Hnd.
  assert (∀ {K} (key : NotificationDoc → K), NoDup (key <$> newDocs db db))
    as Hsame by (intros; rewrite newDocs_same; constructor).
  assert (∀ now senderUid payload,
            NoDup (n_recipientUid <$>
                   newDocs db (createNotificationsForFamily now senderUid
                                 payload db).2)) as Hclient.
  { intros now senderUid payload. rewrite newDocs_createNotificationsForFamily.
    destruct (String.eqb _ _); [constructor|].
    rewrite <- list_fmap_compose.
    assert (∀ l : list string,
              n_recipientUid ∘ notificationData now payload <$> l = l) as ->
      by (induction l as [|r l IH]; [done|]; csimpl; by rewrite IH).
    by apply getOtherFamilyMemberUids_NoDup. }
  repeat apply conj.
  - intros userId previous level now. unfold checkLowBattery.
    destruct (lowBatteryDetected _ _); [|apply Hsame].
    destruct (cooldownActive _ _ _); [apply Hsame|].
    destruct (getDoc userId (users db) ≫= u_familyId) as [familyId|];
      [|apply Hsame].
    destruct (String.eqb familyId ""); [apply Hsame|].
    apply newDocs_runDispatches_NoDup.
    change (n_recipientUid ∘ docOfCall now) with d_recipientUid.
    by apply othersOf_NoDup.
  - intros userId after location now. unfold onSosActivated.
    destruct after as [[| |[]| |]|]; simpl; try apply Hsame.
    destruct (getDoc userId (users db) ≫= u_familyId) as [familyId|];
      [|apply Hsame].
    destruct (String.eqb familyId ""); [apply Hsame|].
    destruct (sosLocation toFixed4 location) as [[locationString locationGeoPoint]|];
      [|apply Hsame].
    apply newDocs_runDispatches_NoDup.
    change (n_recipientUid ∘ docOfCall now) with d_recipientUid.
    by apply othersOf_NoDup.
  - intros userId oldLocation newLocation now Hfences. unfold checkGeofences.
    destruct (invalidLocationData _ _); [apply Hsame|].
    destruct (getDoc userId (users db) ≫= u_familyId) as [familyId|];
      [|apply Hsame].
    destruct (String.eqb familyId ""); [apply Hsame|].
    destruct (geofencesOf familyId (geofences db)) as [|fd fds] eqn:Efences;
      [apply Hsame|].
    rewrite <- Efences. apply newDocs_runDispatches_NoDup.
    assert (geofencesOf familyId (geofences db) `sublist_of` geofences db)
      as Hsub by apply sublist_filter.
    assert (NoDup (fst <$> geofencesOf familyId (geofences db))) as Hnd'.
    { eapply sublist_NoDup; [exact Hfences|]. by apply sublist_fmap. }
    clear Efences. revert Hnd'.
    induction (geofencesOf familyId (geofences db)) as [|fenceDoc rest IH];
      csimpl; [constructor|].
    intros [Hfresh Hrest]%NoDup_cons. rewrite fmap_app.
    destruct (fenceDispatches_keys userId familyId
                (orDefault (getDoc userId (users db) ≫= u_name) "A family member")
                oldLocation newLocation now db (users db) fenceDoc Hnd)
      as [Hhere Hkey].
    apply NoDup_app. split; [done|]. split; [|apply IH; [|done]].
    + intros k Hk Hk'. apply Hkey in Hk.
      apply list_elem_of_fmap in Hk' as (c & -> & Hc).
      apply list_elem_of_bind in Hc as (fenceDoc' & Hc & Hin).
      destruct (fenceDispatches_keys userId familyId
                  (orDefault (getDoc userId (users db) ≫= u_name)
                     "A family member")
                  oldLocation newLocation now db (users db) fenceDoc' Hnd)
        as [_ Hkey'].
      specialize (Hkey' ((recipientAndFence ∘ docOfCall now) c)).
      rewrite Hkey' in Hk by (apply list_elem_of_fmap; by exists c).
      injection Hk as Hk. destruct Hfresh. rewrite <- Hk.
      apply list_elem_of_fmap. by exists fenceDoc'.
    + etrans; [|exact Hsub]. by apply sublist_cons.
  - intros uid profile level now refs. unfold onBatteryLevel.
    destruct (batteryAction _ _ _ _); try apply Hsame. apply Hclient.
  - intros user profile latestMemberData now. unfold handleSosPress.
    destruct user, profile; try apply Hsame.
    destruct (truthyString _); [|apply Hsame]. apply Hclient.
Qed.

End OnceFacts.

(** ** The fan-out when every push succeeds *)

Section FanOutFacts.

Variable sendToDevice : string -> MessagingPayload -> PushResult.
Variable numberToString : Js.number -> string.

(** X7. When a low battery is detected outside the cooldown and the push
    succeeds for every other member of the family, [checkLowBattery] records
    exactly one notification for each of them, in the order of the members
    snapshot: a [low_battery] notification about the user, in the family of
    the user, unread, at the time of the run.  The users and the geofences
    are left as they are. *)
Theorem X7_low_battery_reaches_every_other_member :
  ∀ userId previous level now db familyId,
    lowBatteryDetected previous level = true →
    cooldownActive now NOTIFICATION_COOLDOWN_MS.lowBattery
      (recentLowBattery userId db) = false →
    getDoc userId (users db) ≫= u_familyId = Some familyId →
    familyId ≠ "" →
    (∀ doc, doc ∈ membersOf familyId (users db) → doc.1 ≠ userId →
            ∃ token, usableToken (users db) doc.1 = Some token ∧
                     ∀ payload, sendToDevice token payload = PushSent) →
    let db' :=
      checkLowBattery sendToDevice numberToString userId previous level now db in
    users db' = users db ∧ geofences db' = geofences db ∧
    n_recipientUid <$> newDocs db db' =
    fst <$> filter (λ doc, doc.1 ≠ userId) (membersOf familyId (users db)) ∧
    Forall (λ d, n_type d = low_battery ∧ n_triggeringUid d = Some userId ∧
                 n_familyId d = familyId ∧ n_timestamp d = now ∧
                 n_read d = false)
           (newDocs db db').
Proof.
  intros userId previous level now db familyId Hdetected Hgate Hfam Hne Hpush db'.
  subst db'. unfold checkLowBattery. rewrite Hdetected, Hgate, Hfam.
  apply String.eqb_neq in Hne. rewrite Hne. unfold notifyOthers.
  destruct db as [us gs log]. simpl in *.
  rewrite runDispatches_all_sent.
  - rewrite newDocs_app. simpl. do 2 (split; [done|]). split.
    + rewrite <- list_fmap_compose.
      change (n_recipientUid ∘ docOfCall now) with d_recipientUid.
      apply othersOf_recipients.
    + apply Forall_fmap, Forall_forall. intros c Hc.
      apply othersOf_elem in Hc as (_ & Hdata & _). simpl. by rewrite Hdata.
  - apply Forall_forall. intros c Hc.
    pose proof (othersOf_elem _ _ _ _ _ Hc) as (_ & _ & Hother & u & Hu).
    destruct (Hpush _ Hu Hother) as (token & Htoken & Hsent).
    exists token. split; [done|]. apply Hsent.
Qed.

End FanOutFacts.

(** ** Users without a family *)

Section NoFamilyFacts.
Variable Math_sin Math_cos : Js.number -> Js.number.
Variable Math_atan2 : Js.number -> Js.number -> Js.number.
Variable sendToDevice : string -> MessagingPayload -> PushResult.
Variable numberToString toFixed4 : Js.number -> string.
Variable sosTitle : string -> string.
Variable sosMessageBody : string -> option LatLng -> option Js.number -> string.

Lemma noFamily_cases (o : option string) :
  truthyString o = false → o = None ∨ o = Some "".
Proof.
  destruct o as [s|]; [|by left]. simpl. intros H. right. f_equal.
  apply String.eqb_eq. by destruct (String.eqb s "").
Qed.

(** X1. A user without a family causes no notification: when the user
    document holds no family id (as right after sign-up), the three server
    triggers leave the database as it is; when the profile on the device
    holds none, the geofence check, the battery listener and the SOS button
    store nothing, and the SOS button reports the error. *)
Theorem X1_no_family_no_notification :
  (∀ userId previous level after location oldLocation newLocation now db,
     truthyString (getDoc userId (users db) ≫= u_familyId) = false →
     checkLowBattery sendToDevice numberToString userId previous level now db
     = db ∧
     (onSosActivated sendToDevice toFixed4 userId after location now db).2 = db ∧
     checkGeofences Math_sin Math_cos Math_atan2 sendToDevice userId
       oldLocation newLocation now db = db) ∧
  (∀ uid profile fences memberId liveData level latestMemberData now refs db,
     truthyString (profile ≫= up_familyId) = false →
     (onLiveData Math_sin Math_cos Math_atan2 (Some uid) profile fences memberId
        liveData now refs db).2 = db ∧
     (onBatteryLevel numberToString uid profile level now refs db).2 = db ∧
     handleSosPress sosTitle sosMessageBody (Some uid) profile latestMemberData
       now db = (None, db)).
Proof.
  split.
  - intros userId previous level after location oldLocation newLocation now db
      Hfam.
    apply noFamily_cases in Hfam.
    split; [|split].
    + unfold checkLowBattery.
      destruct (lowBatteryDetected _ _); [|done].
      destruct (cooldownActive _ _ _); [done|].
      by destruct Hfam as [-> | ->].
    + unfold onSosActivated.
      destruct after as [[| |[]| |]|]; try done.
      by destruct Hfam as [-> | ->].
    + unfold checkGeofences.
      destruct (invalidLocationData _ _); [done|].
      by destruct Hfam as [-> | ->].
  - intros uid profile fences memberId liveData level latestMemberData now refs
      db Hfam.
    split; [|split].
    + unfold onLiveData.
      destruct (liveData ≫= currentLocation) as [loc|]; [|done].
      case_bool_decide; [|done].
      destruct (previousUserLocation refs) as [prev|] eqn:Eprev; [|done].
      unfold checkCurrentUserGeofences. rewrite Eprev.
      destruct profile as [p|]; simpl in *; [|done].
      rewrite Hfam. simpl. by rewrite !orb_true_r.
    + unfold onBatteryLevel, batteryAction. rewrite Hfam.
      rewrite andb_false_r. by destruct (_ >? _)%js.
    + unfold handleSosPress. destruct profile as [p|]; simpl in *; [|done].
      by rewrite Hfam.
Qed.
End NoFamilyFacts.

(** ** Settings and cooldown of the client *)

Section ClientSettingsFacts.

Variable Math_sin Math_cos : Js.number -> Js.number.
Variable Math_atan2 : Js.number -> Js.number -> Js.number.
Variable numberToString : Js.number -> string.

(** X8. With battery alerts switched off in the settings of the profile,
    the battery listener never stores a notification and never remembers an
    alert time, whatever the sequence of levels and times. *)
Theorem X8_battery_alerts_off_silences_the_listener :
  ∀ uid p samples refs db,
    up_settings p ≫= batteryAlerts = Some false →
    let after :=
      foldl (λ st sample,
               onBatteryLevel numberToString uid (Some p) sample.1 sample.2
                 st.1 st.2)
            (refs, db) samples in
    after.2 = db ∧
    (lastLowBatteryAlertSent after.1 = lastLowBatteryAlertSent refs ∨
     lastLowBatteryAlertSent after.1 = None) ∧
    Forall (λ a, a ≠ SendLowBatteryAlert)
           (clientBatteryTrace numberToString uid (Some p) samples refs db).
Proof.
  intros uid p samples refs db Hoff.
  assert (∀ newLevel now refs',
            batteryAction (Some p) newLevel now refs' ≠ SendLowBatteryAlert)
    as Hnever.
  { intros newLevel now refs' (_ & (p' & [= <-] & _ & Hon) & _)%batteryAction_send.
    by rewrite Hoff in Hon. }
  assert (∀ level now refs0,
            ∃ refs1, onBatteryLevel numberToString uid (Some p) level now refs0 db
                     = (refs1, db) ∧
                     (lastLowBatteryAlertSent refs1 = lastLowBatteryAlertSent refs0 ∨
                      lastLowBatteryAlertSent refs1 = None)) as Hstep.
  { intros level now refs0. unfold onBatteryLevel.
    pose proof (Hnever (Js.Math_round (level * Js.ofZ 100)%js) now refs0).
    destruct (batteryAction _ _ _ _); [done| |].
    - eexists. split; [done|]. by right.
    - eexists. split; [done|]. by left. }
  revert refs. induction samples as [|[level now] samples IH]; intros refs.
  - split_and!; [done|by left|by apply Forall_nil].
  - destruct (Hstep level now refs) as (refs1 & E & Hlast).
    destruct (IH refs1) as (H1 & H2 & H3).
    cbn [foldl clientBatteryTrace fst snd]. rewrite E. cbn [fst snd].
    split_and!; [done| |].
    + destruct H2 as [-> | ->]; [done|by right].
    + apply Forall_cons. split; [apply Hnever|done].
Qed.

(** X9. The cooldown of the client is per fence, whatever the kind of the
    transition: once the geofence check has alerted for a fence at a time
    [now] other than 0, every transition of a fence with the same id, entry
    or exit, that it sees up to [now + 5 min] is dropped and changes
    neither the refs nor the database. *)
Theorem X9_client_cooldown_is_per_fence_whatever_the_kind :
  ∀ uid profile familyId prev cur now st fence ty
    uid' profile' familyId' prev' cur' now' fence' ty',
    fenceTransitionClient Math_sin Math_cos Math_atan2 prev cur fence = Some ty →
    clientCooldownOver now GEOFENCE_COOLDOWN_PERIOD
      (geofenceCooldowns st.1 !! f_id fence) = true →
    now ≠ 0 →
    let st1 :=
      checkOneGeofence Math_sin Math_cos Math_atan2 uid profile familyId prev cur
        now st fence in
    f_id fence' = f_id fence →
    fenceTransitionClient Math_sin Math_cos Math_atan2 prev' cur' fence'
    = Some ty' →
    now' - now ≤ 5 * 60 * 1000 →
    checkOneGeofence Math_sin Math_cos Math_atan2 uid' profile' familyId' prev'
      cur' now' st1 fence' = st1.
Proof.
  intros uid profile familyId prev cur now st fence ty uid' profile' familyId'
    prev' cur' now' fence' ty' Hty Hover Hnow st1 Hid Hty' Hsoon.
  assert (geofenceCooldowns st1.1 !! f_id fence' = Some now) as Hmem.
  { subst st1. unfold checkOneGeofence. rewrite Hty, Hover. cbn [fst].
    rewrite Hid. apply lookup_insert_eq. }
  unfold checkOneGeofence at 1. rewrite Hty', Hmem.
  unfold clientCooldownOver, noAlertTime, GEOFENCE_COOLDOWN_PERIOD. simpl.
  destruct (Z.eqb_spec now 0); [done|]. simpl.
  destruct (Z.ltb_spec (5 * 60 * 1000) (now' - now)); [lia|done].
Qed.

End ClientSettingsFacts.

(** ** The two detectors on the same data *)

Section SameDetectionFacts.

Variable Math_sin Math_cos : Js.number -> Js.number.
Variable Math_atan2 : Js.number -> Js.number -> Js.number.

Lemma notANonZeroNumber_number x : notANonZeroNumber (JsNumber x) = negb (Js.truthy x).
Proof. unfold notANonZeroNumber. simpl. by rewrite orb_false_r. Qed.

Lemma fenceTransition_client prev cur fence :
  fenceTransition Math_sin Math_cos Math_atan2 (locationDataOf prev)
    (locationDataOf cur) (geofenceDocOf fence).2 =
  fenceTransitionClient Math_sin Math_cos Math_atan2 prev cur fence.
Proof.
  unfold fenceTransition, fenceTransitionClient, invalidGeofence,
    centerLatitude, centerLongitude. simpl.
  by rewrite !notANonZeroNumber_number.
Qed.

(** X10. The server and the client run the same detector on the same data.
    For a pair of samples and a fence as the client holds them, the server
    trigger, reading the same numbers from the databases, detects the
    transition that the client detects; when the four coordinates of the
    samples are numbers other than 0 and NaN, the transitions of one update
    are the same for every list of fences.  The two differ in the samples
    they accept: the server rejects the update as soon as one of the four
    coordinates is 0 or NaN, the client runs the check when the two
    latitudes are not, whatever the longitudes. *)
Theorem X10_server_and_client_detect_the_same_transitions :
  (∀ prev cur fence,
     fenceTransition Math_sin Math_cos Math_atan2 (locationDataOf prev)
       (locationDataOf cur) (geofenceDocOf fence).2 =
     fenceTransitionClient Math_sin Math_cos Math_atan2 prev cur fence) ∧
  (∀ prev cur,
     invalidLocationData (locationDataOf prev) (locationDataOf cur) =
     negb (Js.truthy (latitude cur) && Js.truthy (longitude cur) &&
           Js.truthy (latitude prev) && Js.truthy (longitude prev))) ∧
  (∀ prev cur fences,
     invalidLocationData (locationDataOf prev) (locationDataOf cur) = false →
     serverTransitions Math_sin Math_cos Math_atan2 (locationDataOf prev)
       (locationDataOf cur) (geofenceDocOf <$> fences) =
     omap (λ fence,
             pair (f_id fence)
             <$> fenceTransitionClient Math_sin Math_cos Math_atan2 prev cur fence)
          fences) ∧
  (∀ uid profile familyId fences prev cur now lastAlert cooldowns db,
     Js.truthy (latitude cur) = true → Js.truthy (latitude prev) = true →
     fences ≠ [] → up_familyId profile = Some familyId → familyId ≠ "" →
     checkCurrentUserGeofences Math_sin Math_cos Math_atan2 (Some uid)
       (Some profile) fences (Some cur) now
       (mkRefs (Some prev) lastAlert cooldowns) db =
     foldl (checkOneGeofence Math_sin Math_cos Math_atan2 uid profile familyId
              prev cur now)
           (mkRefs (Some prev) lastAlert cooldowns, db) fences).
Proof.
  split; [apply fenceTransition_client|]. split; [|split].
  - intros prev cur. unfold invalidLocationData. simpl.
    rewrite !notANonZeroNumber_number.
    by destruct (Js.truthy (latitude cur)), (Js.truthy (longitude cur)),
         (Js.truthy (latitude prev)), (Js.truthy (longitude prev)).
  - intros prev cur fences Hvalid. unfold serverTransitions. rewrite Hvalid.
    induction fences as [|fence fences IH]; [done|]. csimpl.
    rewrite IH.
    change ({| g_name := Some (f_name fence); g_familyId := f_familyId fence;
               g_center := _; g_radius := _ |}) with (geofenceDocOf fence).2.
    rewrite fenceTransition_client.
    by destruct (fenceTransitionClient _ _ _ _ _ _).
  - intros uid profile familyId fences prev cur now lastAlert cooldowns db
      Hcur Hprev Hfences Hfam Hne.
    unfold checkCurrentUserGeofences. simpl. rewrite Hcur, Hprev, Hfam. simpl.
    apply String.eqb_neq in Hne. rewrite Hne. simpl.
    by rewrite bool_decide_eq_false_2.
Qed.

End SameDetectionFacts.

(** ** The geofence edit screen: who writes, what is written, what is read
    back *)

Lemma getDoc_app_ne {A} id id' (docs : list (string * A)) data :
  id' ≠ id → getDoc id' (docs ++ [(id, data)]) = getDoc id' docs.
Proof.
  intros Hne. induction docs as [|d docs IH]; simpl.
  - by rewrite decide_False.
  - by rewrite IH.
Qed.

Lemma getDoc_app_fresh {A} id (docs : list (string * A)) data :
  id ∉ fst <$> docs → getDoc id (docs ++ [(id, data)]) = Some data.
Proof.
  induction docs as [|d docs IH]; simpl.
  - intros _. by rewrite decide_True.
  - intros [Hne Hrest]%not_elem_of_cons. rewrite decide_False by done. by apply IH.
Qed.

Lemma getDoc_updateDoc id data gs gs' :
  updateDoc id data gs = Some gs' →
  getDoc id gs' = Some data ∧ ∀ id', id' ≠ id → getDoc id' gs' = getDoc id' gs.
Proof.
  revert gs'. induction gs as [|d gs IH]; intros gs'; simpl; [done|].
  destruct (decide (d.1 = id)) as [E|E].
  - intros [= <-]. simpl. rewrite decide_True by done. split; [done|].
    intros id' Hne. rewrite !decide_False; [done|congruence|congruence].
  - destruct (updateDoc id data gs) as [gs1|]; simpl; [|done].
    intros [= <-]. simpl. rewrite decide_False by done.
    destruct (IH gs1 eq_refl) as [H1 H2]. split; [done|].
    intros id' Hne. by rewrite H2.
Qed.

Lemma getDoc_deleteDoc id gs :
  getDoc id (deleteDoc id gs) = None ∧
  ∀ id', id' ≠ id → getDoc id' (deleteDoc id gs) = getDoc id' gs.
Proof.
  unfold deleteDoc. induction gs as [|d gs [IH1 IH2]]; [done|].
  rewrite filter_cons. destruct (decide (d.1 ≠ id)) as [E|E]; simpl.
  - rewrite decide_False by done. split; [done|]. intros id' Hne.
    by rewrite IH2.
  - split; [done|]. intros id' Hne. rewrite IH2 by done.
    rewrite decide_False; [done|]. intros E'. apply E. congruence.
Qed.

Lemma getDoc_elem_of {A} id (docs : list (string * A)) data :
  getDoc id docs = Some data → (id, data) ∈ docs.
Proof.
  induction docs as [|d docs IH]; simpl; [done|].
  destruct (decide (d.1 = id)) as [<-|].
  - intros [= <-]. destruct d. by left.
  - intros H. right. by apply IH.
Qed.

Section EditScreenMoreFacts.

Variable trim : string -> string.
Variable parseInt : string -> Js.number.
Variable user : option string.
Variable currentUserProfile : option AuthProfile.
Variable geofenceId : string.

(** The document that an accepted save writes and the id under which it is
    written. *)
Lemma handleSave_written newId scr gs gs' :
  handleSave trim user currentUserProfile geofenceId newId scr gs = (Saved, gs') →
  ∃ familyId c,
    currentUserProfile ≫= ap_familyId = Some familyId ∧ familyId ≠ "" ∧
    isAdmin currentUserProfile = true ∧ center scr = Some c ∧
    let data := geofenceDataToSave trim familyId scr c in
    if negb (isCreating geofenceId) && truthyString (actualGeofenceId geofenceId)
    then updateDoc geofenceId data gs = Some gs'
    else gs' = gs ++ [(newId, data)].
Proof.
  unfold handleSave. destruct user; [|done].
  destruct (currentUserProfile ≫= ap_familyId) as [familyId|]; [|done].
  destruct (String.eqb_spec familyId ""); [done|].
  destruct (isAdmin currentUserProfile); [|done]. simpl.
  destruct (center scr) as [c|]; [|done].
  destruct (String.eqb (trim (name scr)) ""); [done|].
  destruct (_ || _); [done|].
  intros H. exists familyId, c. do 4 (split; [done|]). simpl.
  destruct (_ && _).
  - destruct (updateDoc _ _ _); [|done]. congruence.
  - congruence.
Qed.

(** X11. What the edit screen saves is what it loads.  After an accepted
    save, opening the edit screen on the saved geofence (the new document
    when one was created under an unused id, the edited document
    otherwise) fills the form with the trimmed name, the rounded radius and
    the center that were saved, provided the center is off the equator and
    off the prime meridian; a geofence centered on one of them is saved but
    refused by the loader, which leaves the form as it is. *)
Theorem X11_saved_geofence_is_loaded_back :
  ∀ newId scr gs gs' form,
    handleSave trim user currentUserProfile geofenceId newId scr gs = (Saved, gs') →
    let savedId :=
      if negb (isCreating geofenceId) && truthyString (actualGeofenceId geofenceId)
      then geofenceId else newId in
    (savedId = newId → newId ∉ fst <$> gs) →
    ∃ c, center scr = Some c ∧
         loadGeofence savedId gs' form =
         if offTheAxes c
         then {| name := trim (name scr);
                 radius := Js.Math_round (radius scr);
                 center := Some c |}
         else form.
Proof.
  intros newId scr gs gs' form Hsave savedId Hfresh.
  destruct (handleSave_written _ _ _ _ Hsave)
    as (familyId & c & _ & _ & _ & Hc & Hwritten).
  exists c. split; [done|].
  assert (getDoc savedId gs' = Some (geofenceDataToSave trim familyId scr c))
    as Hdoc.
  { subst savedId. simpl in Hwritten. destruct (_ && _).
    - by apply getDoc_updateDoc in Hwritten as [? _].
    - subst gs'. apply getDoc_app_fresh. by apply Hfresh. }
  unfold loadGeofence. rewrite Hdoc. unfold offTheAxes. simpl.
  rewrite andb_true_r.
  destruct (Js.truthy (latitude c) && Js.truthy (longitude c)); [|reflexivity].
  destruct c. by destruct (String.eqb_spec (trim (name scr)) "") as [->|].
Qed.

(** X12. Only an admin writes.  When the profile does not hold the role
    [admin], no sequence of actions on the edit screen (changes of the
    form, map presses, saves, confirmed deletions) changes the [geofences]
    collection. *)
Theorem X12_only_an_admin_changes_the_geofences :
  ∀ actions st,
    isAdmin currentUserProfile = false →
    (foldl (screenAction trim parseInt user currentUserProfile geofenceId)
           st actions).2 = st.2.
Proof.
  intros actions st Hno.
  assert (∀ st a,
            (screenAction trim parseInt user currentUserProfile geofenceId st a).2
            = st.2) as Hstep.
  { clear st. intros st [[| | | |newId]|confirmed]; simpl; try done.
    - unfold handleSave. rewrite Hno. destruct user; [|done].
      destruct (currentUserProfile ≫= ap_familyId) as [fam|]; [|done].
      by destruct (String.eqb fam "").
    - unfold handleDelete. by rewrite Hno. }
  revert st. induction actions as [|a actions IH]; intros st; simpl; [done|].
  by rewrite IH, Hstep.
Qed.

(** X13. The edit screen of one geofence touches no other geofence: for
    every sequence of actions, a document whose id is neither the id of the
    screen nor an id under which the sequence adds a document is the same
    before and after. *)
Theorem X13_edit_screen_touches_no_other_geofence :
  ∀ actions st id,
    id ≠ geofenceId →
    (∀ newId, Event (Save newId) ∈ actions → newId ≠ id) →
    getDoc id
      (foldl (screenAction trim parseInt user currentUserProfile geofenceId)
             st actions).2
    = getDoc id st.2.
Proof.
  intros actions st id Hid. revert st.
  induction actions as [|a actions IH]; intros st Hnew; simpl; [done|].
  rewrite IH by (intros newId H; apply Hnew; by right).
  destruct a as [[| | | |newId]|confirmed]; simpl; try done.
  - destruct (handleSave _ _ _ _ _ _ _) as [[title|] gs'] eqn:E; simpl.
    + by rewrite (handleSave_alerted _ _ _ _ _ _ _ _ _ E).
    + destruct (handleSave_written _ _ _ _ E)
        as (familyId & c & _ & _ & _ & _ & Hwritten).
      simpl in Hwritten. destruct (_ && _).
      * apply getDoc_updateDoc in Hwritten as [_ H]. by apply H.
      * subst gs'. apply getDoc_app_ne. intros ->.
        by apply (Hnew newId); [left|].
  - unfold handleDelete. destruct (_ || _); [done|].
    destruct confirmed; [|done]. by apply getDoc_deleteDoc.
Qed.

(** X14. A confirmed deletion by an admin removes the geofence of the
    screen and nothing else: afterwards no document carries its id, so that
    neither the server trigger nor the list nor the map finds it, and the
    other documents are the ones from before, in the same order.  A
    cancelled deletion, a deletion on the creation screen and a deletion by
    a member change nothing. *)
Theorem X14_deletion_removes_exactly_the_geofence :
  ∀ gs,
    (isAdmin currentUserProfile = true → isCreating geofenceId = false →
     geofenceId ≠ "" →
     let gs' := handleDelete currentUserProfile geofenceId true gs in
     gs' = filter (λ d, d.1 ≠ geofenceId) gs ∧
     getDoc geofenceId gs' = None ∧
     (∀ familyId fenceDoc, fenceDoc ∈ geofencesOf familyId gs' →
                            fenceDoc.1 ≠ geofenceId) ∧
     (∀ u p item, item ∈ listScreenGeofences u p gs' → i_id item ≠ geofenceId) ∧
     (∀ u p item, item ∈ mapScreenGeofences u p gs' → i_id item ≠ geofenceId)) ∧
    handleDelete currentUserProfile geofenceId false gs = gs ∧
    (isAdmin currentUserProfile = false ∨ isCreating geofenceId = true →
     ∀ confirmed, handleDelete currentUserProfile geofenceId confirmed gs = gs).
Proof.
  intros gs. split; [|split].
  - intros Hadmin Hedit Hid gs'.
    assert (gs' = deleteDoc geofenceId gs) as E.
    { subst gs'. unfold handleDelete, actualGeofenceId.
      rewrite Hadmin, Hedit. simpl.
      apply String.eqb_neq in Hid. by rewrite Hid. }
    assert (∀ doc, doc ∈ gs' → doc.1 ≠ geofenceId) as Hgone.
    { rewrite E. unfold deleteDoc. by intros doc [H _]%list_elem_of_filter. }
    split; [done|]. split; [rewrite E; apply getDoc_deleteDoc|].
    split; [|split].
    + intros familyId fenceDoc [_ H]%list_elem_of_filter. by apply Hgone.
    + intros u p item. unfold listScreenGeofences.
      destruct u; [|by intros ?%elem_of_nil].
      destruct (p ≫= ap_familyId) as [fam|]; [|by intros ?%elem_of_nil].
      destruct (String.eqb fam ""); [by intros ?%elem_of_nil|].
      intros (doc & -> & Hdoc)%list_elem_of_fmap.
      apply list_elem_of_filter in Hdoc as [_ Hdoc].
      apply list_elem_of_filter in Hdoc as [_ Hdoc]. by apply Hgone.
    + intros u p item. unfold mapScreenGeofences.
      destruct u; [|by intros ?%elem_of_nil].
      destruct (p ≫= up_familyId) as [fam|]; [|by intros ?%elem_of_nil].
      destruct (String.eqb fam ""); [by intros ?%elem_of_nil|].
      intros (doc & -> & Hdoc)%list_elem_of_fmap.
      apply list_elem_of_filter in Hdoc as [_ Hdoc].
      apply list_elem_of_filter in Hdoc as [_ Hdoc]. by apply Hgone.
  - unfold handleDelete. by destruct (_ || _).
  - intros Hno confirmed. unfold handleDelete.
    by destruct Hno as [-> | ->]; rewrite ?orb_true_r.
Qed.

(** [parseInt] returns a binary64 value. *)
Hypothesis parseInt_valid :
  ∀ text, valid_binary Js.prec Js.emax (parseInt text) = true.

Lemma ofZ_truthy n : 50 ≤ n ≤ 5000 → Js.truthy (Js.ofZ n) = true.
Proof.
  intros Hn.
  assert (forallb (λ k, Js.truthy (Js.ofZ k)) (seqZ 50 4951) = true) as H
    by (by vm_compute).
  rewrite forallb_forall in H. apply H. apply list_elem_of_In, elem_of_seqZ. lia.
Qed.

(** The radius of the form is a number on every run of the screen that
    starts from a collection with bounded radii. *)
Lemma screen_radius_wellFormed events gs0 :
  Forall boundedRadius (snd <$> gs0) →
  wellFormed
    (radius (foldl (screenStep trim parseInt user currentUserProfile geofenceId)
                   (initialEditScreen, gs0) events).1) = true.
Proof.
  intros Hgs0.
  assert (wellFormed (radius (initialEditScreen, gs0).1) = true ∧
          Forall boundedRadius (snd <$> (initialEditScreen, gs0).2)) as Hst
    by (split; [by vm_compute|done]).
  revert Hst. generalize (initialEditScreen, gs0).
  induction events as [|ev events IH]; intros st Hst; simpl; [by destruct Hst|].
  apply IH. by apply screenStep_invariant.
Qed.

(** X15. A saved geofence is used by every reader, or by none.  The
    document that an accepted save writes belongs to the family of the
    admin and has a radius that every reader accepts.  When its center is
    off the equator and off the prime meridian, it passes the validation of
    the server trigger and the check of the client, and the list screen and
    the map of the family show it; when the center lies on one of the two,
    the save is accepted all the same and the server, the client check, the
    list and the map all skip the geofence. *)
Theorem X15_saved_geofence_is_used_by_every_reader_or_by_none :
  ∀ events newId gs0 gs',
    Forall boundedRadius (snd <$> gs0) →
    let st :=
      foldl (screenStep trim parseInt user currentUserProfile geofenceId)
            (initialEditScreen, gs0) events in
    handleSave trim user currentUserProfile geofenceId newId st.1 st.2
    = (Saved, gs') →
    ∃ savedId data familyId c,
      (savedId, data) ∈ gs' ∧
      currentUserProfile ≫= ap_familyId = Some familyId ∧
      g_familyId data = Some familyId ∧ center st.1 = Some c ∧
      boundedRadius data ∧
      invalidGeofence data = negb (offTheAxes c) ∧
      (∃ fence, asGeofence (fenceItemOf (savedId, data)) = Some fence ∧
                validGeofenceClient fence = offTheAxes c) ∧
      (fenceItemOf (savedId, data)
         ∈ listScreenGeofences user currentUserProfile gs' ↔
       offTheAxes c = true) ∧
      (∀ uid profile,
         profile ≫= up_familyId = Some familyId →
         fenceItemOf (savedId, data) ∈ mapScreenGeofences (Some uid) profile gs' ↔
         offTheAxes c = true).
Proof.
  intros events newId gs0 gs' Hgs0 st Hsave.
  pose proof (screen_radius_wellFormed events gs0 Hgs0) as Hwf. fold st in Hwf.
  destruct (handleSave_saved _ _ _ _ _ _ _ _ Hwf Hsave)
    as (fam0 & c0 & n & _ & _ & Hn & Hround & _).
  destruct (handleSave_written _ _ _ _ Hsave)
    as (familyId & c & Hfam & Hne & _ & Hc & Hwritten).
  set (data := geofenceDataToSave trim familyId st.1 c) in *.
  set (savedId :=
         if negb (isCreating geofenceId) && truthyString (actualGeofenceId geofenceId)
         then geofenceId else newId).
  assert ((savedId, data) ∈ gs') as Hin.
  { subst savedId. simpl in Hwritten. destruct (_ && _).
    - apply getDoc_updateDoc in Hwritten as [H _]. by apply getDoc_elem_of.
    - subst gs'. apply elem_of_app. right. by left. }
  assert (g_radius data = JsNumber (Js.ofZ n)) as Hradius
    by (subst data; simpl; by rewrite Hround).
  assert (toBoolean (g_radius data) = true ∧ typeofNumber (g_radius data) = true)
    as [Hr1 Hr2] by (rewrite Hradius; split; [by apply ofZ_truthy|done]).
  assert (toBoolean (centerLatitude data) && toBoolean (centerLongitude data)
          = offTheAxes c) as Haxes by reflexivity.
  exists savedId, data, familyId, c.
  do 4 (split; [done|]). split; [by exists n|].
  split; [|split; [|split]].
  - unfold invalidGeofence. rewrite Hradius.
    change (centerLatitude data) with (JsNumber (latitude c)).
    change (centerLongitude data) with (JsNumber (longitude c)).
    rewrite !notANonZeroNumber_number, ofZ_truthy by done. unfold offTheAxes.
    by destruct (Js.truthy (latitude c)), (Js.truthy (longitude c)).
  - eexists. split.
    + unfold asGeofence, fenceItemOf. cbn [i_latitude i_longitude i_radius snd].
      rewrite Hradius. reflexivity.
    + unfold validGeofenceClient, offTheAxes. simpl.
      rewrite ofZ_truthy by done. apply andb_true_r.
  - unfold listScreenGeofences. rewrite Hfam.
    apply String.eqb_neq in Hne. rewrite Hne.
    assert (user ≠ None) as Huser.
    { intros E. unfold handleSave in Hsave. by rewrite E in Hsave. }
    destruct user; [clear Huser|done]. rewrite list_elem_of_fmap. split.
    + intros (doc & E & [Hok _]%list_elem_of_filter).
      apply (f_equal i_latitude) in E as E1. apply (f_equal i_longitude) in E as E2.
      cbn [fenceItemOf i_latitude i_longitude snd] in E1, E2.
      apply andb_prop in Hok as [Hok _].
      rewrite <- E1, <- E2 in Hok. exact Hok.
    + intros Hoff. exists (savedId, data). split; [done|].
      apply list_elem_of_filter. split.
      * cbn [snd]. rewrite Haxes, Hoff, Hr2. done.
      * apply list_elem_of_filter. by split.
  - intros uid profile Hprofile. unfold mapScreenGeofences. rewrite Hprofile.
    apply String.eqb_neq in Hne. rewrite Hne. rewrite list_elem_of_fmap. split.
    + intros (doc & E & [Hok _]%list_elem_of_filter).
      apply (f_equal i_latitude) in E as E1. apply (f_equal i_longitude) in E as E2.
      cbn [fenceItemOf i_latitude i_longitude snd] in E1, E2.
      apply andb_prop in Hok as [Hok _].
      rewrite <- E1, <- E2 in Hok. exact Hok.
    + intros Hoff. exists (savedId, data). split; [done|].
      apply list_elem_of_filter. split.
      * cbn [snd]. rewrite Haxes, Hoff, Hr1. done.
      * apply list_elem_of_filter. by split.
Qed.

End EditScreenMoreFacts.

(** ** The location history *)

Section LocationHistoryFacts.

Variable Math_sin Math_cos : Js.number -> Js.number.
Variable Math_atan2 : Js.number -> Js.number -> Js.number.

Lemma spaced_snoc pts q :
  spaced Math_sin Math_cos Math_atan2 pts →
  shouldWriteHistory Math_sin Math_cos Math_atan2 (last pts) q = true →
  spaced Math_sin Math_cos Math_atan2 (pts ++ [q]).
Proof.
  induction pts as [|p pts IH]; simpl; [done|].
  intros [Hp Hrest] Hq. destruct pts as [|p' pts]; simpl in *; [done|].
  split; [done|]. by apply IH.
Qed.

(** The start of a call: what it leaves and what it awaits. *)
Lemma fetchUpToHistoryWrite_cases user profile granted isMounted run st :
  let started :=
    fetchUpToHistoryWrite Math_sin Math_cos Math_atan2 user profile granted
      isMounted run st in
  locationHistory started.1 = locationHistory st ∧
  lastRecordedHistoryLocation started.1 = lastRecordedHistoryLocation st ∧
  (∀ uid, Some uid ≠ user →
          rtdbLocations started.1 !! uid = rtdbLocations st !! uid) ∧
  ∀ w, started.2 = Some w →
       Some (h_userId (pend_doc w)) = user ∧
       h_timestamp (pend_doc w) = runTime run ∧
       position run = Some (pointOf (pend_doc w)) ∧
       shouldWriteHistory Math_sin Math_cos Math_atan2
         (lastRecordedHistoryLocation st) (pointOf (pend_doc w)) = true.
Proof.
  unfold fetchUpToHistoryWrite.
  destruct (negb (default true _)); [done|].
  destruct user as [uid|]; [|done].
  destruct (_ || _); [done|].
  destruct (position run) as [[lat lon]|]; [|done].
  destruct (negb (rtdbWriteSucceeds run)); [done|].
  assert (∀ uid', Some uid' ≠ Some uid →
            <[uid:=(mkLatLng lat lon, runTime run)]> (rtdbLocations st) !! uid'
            = rtdbLocations st !! uid') as Hframe.
  { intros uid' Hne. apply lookup_insert_ne. congruence. }
  destruct (shouldWriteHistory _ _ _ _ _) eqn:Hwrite; [|done].
  unfold newGeoPoint. cbn [latitude longitude].
  destruct (_ && _); [|done]. cbn [fst snd].
  do 3 (split; [done|]). by intros w [= <-].
Qed.

(** The start of a call that finds the ref empty. *)
Lemma fetchUpToHistoryWrite_first uid profile run st p location :
  ¬ sharingOff profile →
  lastRecordedHistoryLocation st = None →
  position run = Some p → rtdbWriteSucceeds run = true →
  newGeoPoint (latitude p) (longitude p) = Some location →
  fetchUpToHistoryWrite Math_sin Math_cos Math_atan2 (Some uid) profile true
    true run st
  = ({| rtdbLocations := <[uid := (p, runTime run)]> (rtdbLocations st);
        locationHistory := locationHistory st;
        lastRecordedHistoryLocation := None |},
     Some {| pend_doc := {| h_userId := uid; h_location := location;
                            h_timestamp := runTime run |};
             pend_succeeds := historyWriteSucceeds run |}).
Proof.
  intros Hon Hstart Hpos Hwrite Hpoint. unfold fetchUpToHistoryWrite.
  assert (default true ((profile ≫= up_settings) ≫= shareLocation) = true) as ->.
  { unfold sharingOff in Hon.
    by destruct ((profile ≫= up_settings) ≫= shareLocation) as [[]|]. }
  by rewrite Hpos, Hwrite, Hstart, Hpoint.
Qed.

(** The return of a pending write: what it may do to the history and to
    the ref. *)
Lemma afterHistoryWrite_cases w st :
  rtdbLocations (afterHistoryWrite w st) = rtdbLocations st ∧
  ((locationHistory (afterHistoryWrite w st) = locationHistory st ∧
    lastRecordedHistoryLocation (afterHistoryWrite w st)
    = lastRecordedHistoryLocation st) ∨
   (locationHistory (afterHistoryWrite w st) = locationHistory st ++ [pend_doc w] ∧
    lastRecordedHistoryLocation (afterHistoryWrite w st)
    = Some (pointOf (pend_doc w)))).
Proof.
  unfold afterHistoryWrite. destruct (pend_succeeds w); [|by split; [|left]].
  split; [done|]. by right.
Qed.

(** One call that runs to its end: what it may do to the history and to
    the ref. *)
Lemma fetchDeviceLocationAndUpdateRtdb_history user profile granted isMounted
    run st :
  let st' :=
    fetchDeviceLocationAndUpdateRtdb Math_sin Math_cos Math_atan2 user profile
      granted isMounted run st in
  (locationHistory st' = locationHistory st ∧
   lastRecordedHistoryLocation st' = lastRecordedHistoryLocation st) ∨
  (∃ d, Some (h_userId d) = user ∧
        h_timestamp d = runTime run ∧ position run = Some (pointOf d) ∧
        shouldWriteHistory Math_sin Math_cos Math_atan2
          (lastRecordedHistoryLocation st) (pointOf d) = true ∧
        locationHistory st' = locationHistory st ++ [d] ∧
        lastRecordedHistoryLocation st' = Some (pointOf d)).
Proof.
  unfold fetchDeviceLocationAndUpdateRtdb.
  pose proof (fetchUpToHistoryWrite_cases user profile granted isMounted run st)
    as (E1 & E2 & _ & Hw).
  destruct (fetchUpToHistoryWrite _ _ _ _ _ _ _ _ _) as [st1 [w|]];
    cbn [fst snd] in *; [|by left].
  destruct (Hw w eq_refl) as (Hu & Ht & Hp & Hwrite).
  destruct (afterHistoryWrite_cases w st1) as [_ [[E3 E4] | [E3 E4]]].
  - left. by rewrite E3, E4.
  - right. exists (pend_doc w). rewrite E3, E4, E1. by repeat split.
Qed.

(** The invariant of a session whose calls do not overlap. *)
Lemma locationSession_history user calls st history new :
  locationHistory st = history ++ new →
  Forall (λ d, Some (h_userId d) = user) new →
  spaced Math_sin Math_cos Math_atan2 (pointOf <$> new) →
  lastRecordedHistoryLocation st = last (pointOf <$> new) →
  ∃ new',
    locationHistory (locationSession Math_sin Math_cos Math_atan2 user calls st)
    = history ++ new' ∧
    Forall (λ d, Some (h_userId d) = user) new' ∧
    spaced Math_sin Math_cos Math_atan2 (pointOf <$> new') ∧
    lastRecordedHistoryLocation
      (locationSession Math_sin Math_cos Math_atan2 user calls st)
    = last (pointOf <$> new').
Proof.
  revert st new. induction calls as [|c calls IH];
    intros st new Hhist Huser Hspaced Hlast; simpl; [by exists new|].
  destruct (fetchDeviceLocationAndUpdateRtdb_history user (call_profile c)
              (call_granted c) (call_isMounted c) (call_run c) st)
    as [[E1 E2] | (d & Hd & _ & _ & Hwrite & E1 & E2)].
  - apply (IH _ new); by rewrite ?E1, ?E2.
  - apply (IH _ (new ++ [d])).
    + by rewrite E1, Hhist, app_assoc.
    + apply Forall_app. split; [done|]. by constructor.
    + rewrite fmap_app. apply spaced_snoc; [done|]. by rewrite <- Hlast.
    + rewrite E2, fmap_app. csimpl. by rewrite last_snoc.
Qed.

(** The invariant of a session whose calls may overlap. *)
Lemma locationSteps_history user steps s history new ref0 :
  locationHistory s.1 = history ++ new →
  Forall (λ d, Some (h_userId d) = user) new →
  Forall (λ w, Some (h_userId (pend_doc w)) = user) s.2 →
  lastRecordedHistoryLocation s.1 = ref0 ∨
  (∃ d, d ∈ new ∧ lastRecordedHistoryLocation s.1 = Some (pointOf d)) →
  let s' := foldl (locationStep Math_sin Math_cos Math_atan2 user) s steps in
  ∃ new',
    locationHistory s'.1 = history ++ new' ∧
    Forall (λ d, Some (h_userId d) = user) new' ∧
    (lastRecordedHistoryLocation s'.1 = ref0 ∨
     ∃ d, d ∈ new' ∧ lastRecordedHistoryLocation s'.1 = Some (pointOf d)).
Proof.
  revert s new. induction steps as [|step steps IH];
    intros [st pending] new Hhist Huser Hpending Href; simpl in *;
    [by exists new|].
  destruct step as [c|i]; simpl.
  - pose proof (fetchUpToHistoryWrite_cases user (call_profile c)
                  (call_granted c) (call_isMounted c) (call_run c) st)
      as (E1 & E2 & _ & Hw).
    destruct (fetchUpToHistoryWrite _ _ _ _ _ _ _ _ _) as [st1 w];
      cbn [fst snd] in *.
    apply (IH _ new); simpl; rewrite ?E1, ?E2; try done.
    apply Forall_app. split; [done|].
    destruct w as [w|]; simpl; [|constructor].
    constructor; [|constructor]. by destruct (Hw w eq_refl).
  - destruct (pending !! i) as [w|] eqn:Ei; [|by apply (IH _ new)].
    assert (Some (h_userId (pend_doc w)) = user) as Hu.
    { eapply (proj1 (Forall_forall _ _) Hpending).
      by eapply list_elem_of_lookup_2. }
    destruct (afterHistoryWrite_cases w st) as [_ [[E3 E4] | [E3 E4]]].
    + apply (IH _ new); simpl; rewrite ?E3, ?E4; try done.
      by apply Forall_delete.
    + apply (IH _ (new ++ [pend_doc w])); simpl.
      * by rewrite E3, Hhist, app_assoc.
      * apply Forall_app. split; [done|]. by constructor.
      * by apply Forall_delete.
      * right. exists (pend_doc w). split; [|done].
        apply elem_of_app. right. by left.
Qed.

Lemma locationSteps_rtdb user steps s uid :
  Some uid ≠ user →
  rtdbLocations
    (foldl (locationStep Math_sin Math_cos Math_atan2 user) s steps).1 !! uid
  = rtdbLocations s.1 !! uid.
Proof.
  intros Hother. revert s. induction steps as [|step steps IH];
    intros [st pending]; simpl; [done|].
  rewrite IH. destruct step as [c|i]; simpl.
  - by apply fetchUpToHistoryWrite_cases.
  - destruct (pending !! i) as [w|]; [|done]. simpl.
    by destruct (afterHistoryWrite_cases w st) as [-> _].
Qed.

(** Calls that follow one another are a session of steps. *)
Lemma locationSession_steps user calls st :
  foldl (locationStep Math_sin Math_cos Math_atan2 user) (st, [])
    (oneAfterTheOther calls)
  = (locationSession Math_sin Math_cos Math_atan2 user calls st, []).
Proof.
  revert st. induction calls as [|c calls IH]; intros st; [done|].
  change (oneAfterTheOther (c :: calls))
    with ([CallStarts c; HistoryWriteReturns 0] ++ oneAfterTheOther calls).
  rewrite foldl_app.
  assert (foldl (locationStep Math_sin Math_cos Math_atan2 user) (st, [])
            [CallStarts c; HistoryWriteReturns 0]
          = (fetchDeviceLocationAndUpdateRtdb Math_sin Math_cos Math_atan2 user
               (call_profile c) (call_granted c) (call_isMounted c) (call_run c)
               st, [])) as ->.
  { simpl. unfold fetchDeviceLocationAndUpdateRtdb.
    by destruct (fetchUpToHistoryWrite _ _ _ _ _ _ _ _ _) as [st1 [w|]]. }
  apply IH.
Qed.

(** X16. The history of a session.  From the start of a session (the ref
    [lastRecordedHistoryLocation] is empty, no write is pending), whatever
    the positions reported, whichever writes fail and however the calls
    overlap, the history documents that the session adds are documents of
    the signed-in user, the ref holds nothing or the point of one of them,
    and no location of another user in the Realtime Database changes.
    When no two calls overlap, the history is thinned out: each document
    added is at least 50 m away from the one added before it (the test
    [distanceMoved < 50] is false), and the ref holds the point of the last
    one.  Two calls that overlap are not thinned out: when the second starts
    before the history write of the first has returned, both record their
    point, also when it is the same point. *)
Theorem X16_location_history_is_thinned_out_between_calls_that_do_not_overlap :
  (∀ user steps st0,
     lastRecordedHistoryLocation st0 = None →
     let s :=
       foldl (locationStep Math_sin Math_cos Math_atan2 user) (st0, []) steps in
     (∃ new,
        locationHistory s.1 = locationHistory st0 ++ new ∧
        Forall (λ d, Some (h_userId d) = user) new ∧
        (lastRecordedHistoryLocation s.1 = None ∨
         ∃ d, d ∈ new ∧ lastRecordedHistoryLocation s.1 = Some (pointOf d))) ∧
     (∀ uid, Some uid ≠ user →
             rtdbLocations s.1 !! uid = rtdbLocations st0 !! uid)) ∧
  (∀ user calls st0,
     lastRecordedHistoryLocation st0 = None →
     let st := locationSession Math_sin Math_cos Math_atan2 user calls st0 in
     foldl (locationStep Math_sin Math_cos Math_atan2 user) (st0, [])
       (oneAfterTheOther calls) = (st, []) ∧
     ∃ new,
       locationHistory st = locationHistory st0 ++ new ∧
       Forall (λ d, Some (h_userId d) = user) new ∧
       spaced Math_sin Math_cos Math_atan2 (pointOf <$> new) ∧
       lastRecordedHistoryLocation st = last (pointOf <$> new)) ∧
  (∀ uid profile p time1 time2 st0 location,
     lastRecordedHistoryLocation st0 = None →
     ¬ sharingOff profile →
     newGeoPoint (latitude p) (longitude p) = Some location →
     let call time :=
       {| call_profile := profile; call_granted := true; call_isMounted := true;
          call_run := {| position := Some p; rtdbWriteSucceeds := true;
                         historyWriteSucceeds := true; runTime := time |} |} in
     let s :=
       foldl (locationStep Math_sin Math_cos Math_atan2 (Some uid)) (st0, [])
         [CallStarts (call time1); CallStarts (call time2);
          HistoryWriteReturns 0; HistoryWriteReturns 0] in
     locationHistory s.1 =
     locationHistory st0 ++
     [{| h_userId := uid; h_location := location; h_timestamp := time1 |};
      {| h_userId := uid; h_location := location; h_timestamp := time2 |}] ∧
     pointOf {| h_userId := uid; h_location := location; h_timestamp := time1 |}
     = p).
Proof.
  split; [|split].
  - intros user steps st0 Hstart s. subst s. split.
    + apply (locationSteps_history user steps (st0, []) (locationHistory st0) []
               None); simpl; try done; [by rewrite app_nil_r|by left].
    + intros uid Hother. by rewrite locationSteps_rtdb.
  - intros user calls st0 Hstart st. subst st. split.
    + apply locationSession_steps.
    + apply (locationSession_history user calls st0 (locationHistory st0) []);
        try done. by rewrite app_nil_r.
  - intros uid profile p time1 time2 st0 location Hstart Hon Hpoint call s.
    subst s call. simpl.
    rewrite (fetchUpToHistoryWrite_first uid profile _ st0 p location)
      by done. simpl.
    rewrite (fetchUpToHistoryWrite_first uid profile _ _ p location)
      by done. simpl.
    rewrite <- app_assoc. split; [done|].
    unfold newGeoPoint in Hpoint. destruct (_ && _); [|done].
    injection Hpoint as <-. by destruct p.
Qed.

(** X17. The sharing setting that counts is the one of the profile that the
    memoised function has read when it was created.  A call writes nothing
    when this profile has switched location sharing off, when no user is
    signed in, when the permission is not granted or when the screen is not
    mounted.  A profile that arrives later does not reach the function as
    long as neither the user nor the permission changes: when the function
    was created with a profile that has not switched sharing off (at the
    start of the screen there is none), a call that gets a position and
    whose write to the Realtime Database succeeds publishes the position,
    whatever the setting of the current profile. *)
Theorem X17_sharing_setting_is_read_when_the_callback_is_created :
  (∀ s isMounted run,
     sharingOff (ms_callbackProfile s) ∨ ms_user s = None ∨
     ms_locationPermissionStatus s ≠ Some "granted" ∨ isMounted = false →
     mapScreenStep Math_sin Math_cos Math_atan2 s (CallbackCalled isMounted run)
     = s) ∧
  (∀ events s uid run p,
     ¬ sharingOff (ms_callbackProfile s) →
     ms_user s = Some uid → ms_locationPermissionStatus s = Some "granted" →
     Forall keepsCallback events →
     position run = Some p → rtdbWriteSucceeds run = true →
     let s' :=
       foldl (mapScreenStep Math_sin Math_cos Math_atan2) s
         (events ++ [CallbackCalled true run]) in
     ms_callbackProfile s' = ms_callbackProfile s ∧
     rtdbLocations (ms_location s') !! uid = Some (p, runTime run)) ∧
  (∀ s user status,
     (user ≠ ms_user s →
      ms_callbackProfile (mapScreenStep Math_sin Math_cos Math_atan2 s
                            (SetUser user))
      = ms_currentUserProfile s) ∧
     (status ≠ ms_locationPermissionStatus s →
      ms_callbackProfile (mapScreenStep Math_sin Math_cos Math_atan2 s
                            (SetLocationPermissionStatus status))
      = ms_currentUserProfile s)).
Proof.
  split; [|split].
  - intros [user status profile callbackProfile st pending] isMounted run H.
    simpl in *. unfold fetchUpToHistoryWrite.
    destruct H as [Hoff | [-> | [Hstatus | ->]]].
    + unfold sharingOff in Hoff. rewrite Hoff. simpl. by rewrite app_nil_r.
    + destruct (negb _); simpl; by rewrite app_nil_r.
    + rewrite bool_decide_eq_false_2 by done.
      destruct (negb _); [|destruct user]; simpl; by rewrite app_nil_r.
    + destruct (negb _); [|destruct user]; simpl;
        rewrite ?orb_true_r; simpl; by rewrite app_nil_r.
  - intros events s uid run p Hon Huser Hstatus Hkeep Hpos Hwrite s'. subst s'.
    rewrite foldl_app.
    assert (∀ s0,
              ms_callbackProfile s0 = ms_callbackProfile s →
              ms_user s0 = Some uid →
              ms_locationPermissionStatus s0 = Some "granted" →
              let s1 := foldl (mapScreenStep Math_sin Math_cos Math_atan2) s0
                          events in
              ms_callbackProfile s1 = ms_callbackProfile s ∧
              ms_user s1 = Some uid ∧
              ms_locationPermissionStatus s1 = Some "granted") as Hinv.
    { induction Hkeep as [|ev events Hev _ IH]; intros s0 H1 H2 H3; [done|].
      simpl. apply IH; by destruct ev. }
    destruct (Hinv s eq_refl Huser Hstatus) as (H1 & H2 & H3).
    destruct (foldl _ s events) as [user status profile callbackProfile st pending].
    simpl in *. subst user status callbackProfile. split; [done|].
    unfold fetchUpToHistoryWrite. rewrite Hpos, Hwrite.
    unfold sharingOff in Hon.
    destruct ((ms_callbackProfile s ≫= up_settings) ≫= shareLocation) as [[]|];
      simpl; try done;
      (destruct (shouldWriteHistory _ _ _ _ _);
       [destruct (newGeoPoint _ _)|]; simpl; apply lookup_insert_eq).
  - intros s user status. split; intros Hne; simpl; by rewrite decide_False.
Qed.

(** What is used of the engine, as for the distance from a point to
    itself. *)
Hypothesis Math_sin_zero : Math_sin Js.pos_zero = Js.pos_zero.
Hypothesis Math_atan2_zero : Math_atan2 Js.pos_zero (Js.ofZ 1) = Js.pos_zero.
Hypothesis Math_cos_range : ∀ x,
  Js.is_finite x = true →
  valid_binary Js.prec Js.emax (Math_cos x) = true ∧
  (SFabs (Math_cos x) <=? Js.ofZ 1)%js = true.

(** X18. Standing still is silent.  When the device reports the point that
    the last history document holds (a valid latitude and longitude), the
    call publishes the location and writes no history document; and when
    the previous and the current sample are the same, neither the server
    trigger nor the client check detects a transition, for any fence. *)
Theorem X18_standing_still_is_silent :
  (∀ uid profile run st p,
     lastRecordedHistoryLocation st = Some p →
     validLatitude (latitude p) = true → validLongitude (longitude p) = true →
     position run = Some p →
     let st' :=
       fetchDeviceLocationAndUpdateRtdb Math_sin Math_cos Math_atan2 (Some uid)
         profile true true run st in
     locationHistory st' = locationHistory st ∧
     lastRecordedHistoryLocation st' = Some p ∧
     (sharingOff profile ∨ rtdbWriteSucceeds run = false ∨
      rtdbLocations st' !! uid = Some (p, runTime run))) ∧
  (∀ location fence,
     fenceTransition Math_sin Math_cos Math_atan2 location location fence = None) ∧
  (∀ location fence,
     fenceTransitionClient Math_sin Math_cos Math_atan2 location location fence
     = None).
Proof.
  split; [|split].
  - intros uid profile run st p Hlast Hlat Hlon Hpos st'. subst st'.
    assert (shouldWriteHistory Math_sin Math_cos Math_atan2 (Some p) p = false)
      as Hstill.
    { unfold shouldWriteHistory.
      by rewrite (getDistance_diag Math_sin Math_cos Math_atan2 Math_sin_zero
                    Math_atan2_zero Math_cos_range _ _ Hlat Hlon). }
    unfold fetchDeviceLocationAndUpdateRtdb, fetchUpToHistoryWrite, sharingOff.
    rewrite Hpos, Hlast, Hstill.
    destruct ((profile ≫= up_settings) ≫= shareLocation) as [[]|]; simpl;
      try (split; [done|]; split; [done|]; by left);
      (destruct (rtdbWriteSucceeds run); simpl;
       [|split; [done|]; split; [done|]; right; by left]);
      (split; [done|]; split; [done|]; right; right; apply lookup_insert_eq).
  - intros location fence. unfold fenceTransition.
    destruct (invalidGeofence fence); [done|]. unfold eventType.
    by destruct (_ <=? _)%js.
  - intros location fence. unfold fenceTransitionClient.
    destruct (_ || _); [done|]. unfold eventTypeClient.
    by destruct (_ <=? _)%js.
Qed.

End LocationHistoryFacts.

(** ** Families: signing up, creating and joining *)

Lemma getDoc_setDoc {A} id (data : A) docs :
  getDoc id (setDoc id data docs) = Some data ∧
  ∀ id', id' ≠ id → getDoc id' (setDoc id data docs) = getDoc id' docs.
Proof.
  induction docs as [|d docs [IH1 IH2]]; simpl.
  - rewrite decide_True by done. split; [done|]. intros id' Hne.
    by rewrite decide_False.
  - destruct (decide (d.1 = id)) as [E|E]; simpl.
    + rewrite decide_True by done. split; [done|]. intros id' Hne.
      rewrite !decide_False; [done|congruence|congruence].
    + rewrite decide_False by done. split; [done|]. intros id' Hne.
      by rewrite IH2.
Qed.

Lemma setDoc_elem {A} id (data : A) docs x :
  x ∈ setDoc id data docs → x = (id, data) ∨ x ∈ docs.
Proof.
  induction docs as [|d docs IH]; simpl.
  - intros ->%list_elem_of_singleton. by left.
  - destruct (decide (d.1 = id)).
    + intros [->|H]%elem_of_cons; [by left|right; by right].
    + intros [->|H]%elem_of_cons; [right; by left|].
      destruct (IH H); [by left|right; by right].
Qed.

Lemma getDoc_updateFields {A} id (f : A → A) docs docs' :
  updateFields id f docs = Some docs' →
  (∃ data, getDoc id docs = Some data ∧ getDoc id docs' = Some (f data)) ∧
  (∀ id', id' ≠ id → getDoc id' docs' = getDoc id' docs) ∧
  fst <$> docs' = fst <$> docs.
Proof.
  revert docs'. induction docs as [|d docs IH]; intros docs'; simpl; [done|].
  destruct (decide (d.1 = id)) as [E|E].
  - intros [= <-]. simpl. rewrite decide_True by done. split; [by eexists|].
    split; [|done]. intros id' Hne. by rewrite !decide_False by congruence.
  - destruct (updateFields id f docs) as [docs1|]; simpl; [|done].
    intros [= <-]. simpl. rewrite decide_False by done.
    destruct (IH docs1 eq_refl) as (H1 & H2 & H3). split; [done|].
    split; [|by f_equal]. intros id' Hne. by rewrite H2.
Qed.

Lemma updateFields_elem {A} id (f : A → A) docs docs' x :
  updateFields id f docs = Some docs' → x ∈ docs' →
  x ∈ docs ∨ ∃ data, (id, data) ∈ docs ∧ getDoc id docs = Some data ∧
                     x = (id, f data).
Proof.
  revert docs'. induction docs as [|d docs IH]; intros docs'; simpl; [done|].
  destruct (decide (d.1 = id)) as [E|E].
  - intros [= <-] [->|H]%elem_of_cons.
    + right. exists d.2. rewrite <- E. destruct d. split; [by left|done].
    + left. by right.
  - destruct (updateFields id f docs) as [docs1|]; simpl; [|done].
    intros [= <-] [->|H]%elem_of_cons; [left; by left|].
    destruct (IH docs1 eq_refl H) as [H' | (data & H1 & H2 & ->)].
    + left. by right.
    + right. exists data. split; [by right|done].
Qed.

Lemma updateFields_is_Some {A} id (f : A → A) docs :
  is_Some (updateFields id f docs) ↔ is_Some (getDoc id docs).
Proof.
  induction docs as [|d docs IH]; simpl; [by split; intros [? ?]|].
  destruct (decide (d.1 = id)); [by split; eauto|].
  rewrite <- IH. by rewrite fmap_is_Some.
Qed.

Lemma not_truthyString (o : option string) s :
  truthyString o = false → o = Some s → s = "".
Proof. intros H ->. simpl in H. apply String.eqb_eq. by destruct (String.eqb s ""). Qed.

Section FamilyScreenFacts.

Variable trim toUpperCase : string -> string.

(** X19. One family per user.  A user whose document already holds a
    family id can neither create nor join a family: both handlers show the
    error alert and write nothing.  After a family was created or joined,
    every further attempt of this user is therefore refused. *)
Theorem X19_one_family_per_user :
  ∀ uid db,
    truthyString (getDoc uid (fdb_users db) ≫= u_familyId) = true →
    (∀ profile inviteCode newFamilyId now,
       handleCreateFamily (Some uid) profile inviteCode newFamilyId now db
       = (AlertError, db)) ∧
    (∀ familyCodeInput,
       (handleJoinFamily trim toUpperCase (Some uid) familyCodeInput db).2 = db ∧
       (handleJoinFamily trim toUpperCase (Some uid) familyCodeInput db).1
       ≠ AlertJoined).
Proof.
  intros uid db Hfam. split.
  - intros profile inviteCode newFamilyId now. unfold handleCreateFamily.
    destruct profile; [|done]. by rewrite Hfam.
  - intros familyCodeInput. unfold handleJoinFamily.
    destruct (String.eqb familyCodeInput ""); [done|].
    destruct (String.eqb (toUpperCase _) ""); [done|].
    destruct (familyWithCode _ _); [|done]. by rewrite Hfam.
Qed.

(** What a successful creation writes. *)
Lemma handleCreateFamily_created uid profile inviteCode newFamilyId now db u :
  getDoc uid (fdb_users db) = Some u →
  truthyString (u_familyId u) = false →
  let r :=
    handleCreateFamily (Some uid) (Some profile) inviteCode newFamilyId now db in
  r.1 = AlertFamilyCreated inviteCode ∧
  getDoc uid (fdb_users r.2) = Some (withFamily newFamilyId "admin" u) ∧
  (∀ uid', uid' ≠ uid →
           getDoc uid' (fdb_users r.2) = getDoc uid' (fdb_users db)) ∧
  (∃ f, getDoc newFamilyId (fdb_families r.2) = Some f ∧
        fam_members f = {[ uid ]} ∧ fam_adminId f = uid ∧
        fam_inviteCode f = inviteCode) ∧
  (∀ familyId, familyId ≠ newFamilyId →
               getDoc familyId (fdb_families r.2)
               = getDoc familyId (fdb_families db)) ∧
  fdb_families r.2 =
  setDoc newFamilyId
    {| fam_familyName := orElse (up_name profile) "My" +:+ "'s Family";
       fam_members := {[ uid ]};
       fam_inviteCode := inviteCode;
       fam_createdAt := now;
       fam_adminId := uid |}
    (fdb_families db).
Proof.
  intros Hu Hfam r. subst r. unfold handleCreateFamily. rewrite Hu. simpl.
  rewrite Hfam.
  destruct (updateFields uid (withFamily newFamilyId "admin") (fdb_users db))
    as [users|] eqn:E.
  - apply getDoc_updateFields in E as ((u' & Hu' & Hnew) & Hothers & _).
    assert (u' = u) as -> by congruence. simpl.
    split; [done|]. split; [done|]. split; [done|].
    split; [|split; [|done]].
    + eexists. split; [apply getDoc_setDoc|]. done.
    + intros familyId Hne. by apply getDoc_setDoc.
  - assert (is_Some (updateFields uid (withFamily newFamilyId "admin")
                       (fdb_users db))) as [? ?]
      by (apply updateFields_is_Some; by eexists).
    congruence.
Qed.

(** X20. Creating a family makes the creator its admin and only member.
    For a signed-in user whose document exists and holds no family id, and
    whose profile is loaded, [handleCreateFamily] reports the invite code
    and writes two documents: the family document [newFamilyId], with the
    user as admin and only member and with the invite code, and the user
    document, which gets this family and the role [admin] and keeps its
    name and push token, so that the edit screen of geofences treats the
    user as admin.  No other user or family document changes.  Without a
    user document nothing is written. *)
Theorem X20_creating_a_family_makes_its_admin :
  ∀ uid profile inviteCode newFamilyId now db,
    let r :=
      handleCreateFamily (Some uid) (Some profile) inviteCode newFamilyId now db in
    (∀ u,
       getDoc uid (fdb_users db) = Some u →
       truthyString (u_familyId u) = false →
       r.1 = AlertFamilyCreated inviteCode ∧
       getDoc uid (fdb_users r.2) = Some (withFamily newFamilyId "admin" u) ∧
       (∀ uid', uid' ≠ uid →
                getDoc uid' (fdb_users r.2) = getDoc uid' (fdb_users db)) ∧
       (∃ f, getDoc newFamilyId (fdb_families r.2) = Some f ∧
             fam_members f = {[ uid ]} ∧ fam_adminId f = uid ∧
             fam_inviteCode f = inviteCode) ∧
       (∀ familyId, familyId ≠ newFamilyId →
                    getDoc familyId (fdb_families r.2)
                    = getDoc familyId (fdb_families db)) ∧
       isAdmin (authProfileOf <$> getDoc uid (fdb_users r.2)) = true) ∧
    (getDoc uid (fdb_users db) = None → r = (AlertError, db)).
Proof.
  intros uid profile inviteCode newFamilyId now db r. subst r. split.
  - intros u Hu Hfam.
    destruct (handleCreateFamily_created uid profile inviteCode newFamilyId now
                db u Hu Hfam) as (H1 & H2 & H3 & H4 & H5 & _).
    do 5 (split; [done|]). by rewrite H2.
  - intros Hnone. unfold handleCreateFamily. rewrite Hnone. simpl.
    destruct (updateFields _ _ _) as [users|] eqn:E; [|done].
    assert (is_Some (getDoc uid (fdb_users db))) as [? ?]
      by (apply (updateFields_is_Some uid (withFamily newFamilyId "admin"));
          by eexists).
    congruence.
Qed.

Lemma familyWithCode_Some code families familyDoc :
  familyWithCode code families = Some familyDoc →
  familyDoc ∈ families ∧ fam_inviteCode familyDoc.2 = code.
Proof.
  unfold familyWithCode. intros H.
  assert (familyDoc ∈ filter (λ d, fam_inviteCode d.2 = code) families) as Hin.
  { destruct (filter _ families) as [|d l]; [done|]. injection H as ->. by left. }
  apply list_elem_of_filter in Hin. tauto.
Qed.

Lemma getDoc_is_Some_elem {A} id (docs : list (string * A)) data :
  (id, data) ∈ docs → is_Some (getDoc id docs).
Proof.
  induction docs as [|d docs IH]; simpl; [by intros ?%elem_of_nil|].
  destruct (decide (d.1 = id)); [by eexists|].
  intros [E|H]%elem_of_cons; [by subst d|by apply IH].
Qed.

(** What a successful join writes. *)
Lemma handleJoinFamily_joined uid familyCodeInput db u familyDoc :
  getDoc uid (fdb_users db) = Some u →
  truthyString (u_familyId u) = false →
  familyCodeInput ≠ "" → toUpperCase (trim familyCodeInput) ≠ "" →
  familyWithCode (toUpperCase (trim familyCodeInput)) (fdb_families db)
  = Some familyDoc →
  let r := handleJoinFamily trim toUpperCase (Some uid) familyCodeInput db in
  r.1 = AlertJoined ∧
  getDoc uid (fdb_users r.2) = Some (withFamily familyDoc.1 "member" u) ∧
  (∀ uid', uid' ≠ uid →
           getDoc uid' (fdb_users r.2) = getDoc uid' (fdb_users db)) ∧
  (∃ f, getDoc familyDoc.1 (fdb_families db) = Some f ∧
        getDoc familyDoc.1 (fdb_families r.2) =
        Some {| fam_familyName := fam_familyName f;
                fam_members := {[ uid ]} ∪ fam_members f;
                fam_inviteCode := fam_inviteCode f;
                fam_createdAt := fam_createdAt f;
                fam_adminId := fam_adminId f |}) ∧
  (∀ familyId, familyId ≠ familyDoc.1 →
               getDoc familyId (fdb_families r.2)
               = getDoc familyId (fdb_families db)).
Proof.
  intros Hu Hfam Hinput Hcode Hfound r. subst r. unfold handleJoinFamily.
  apply String.eqb_neq in Hinput, Hcode.
  rewrite Hinput, Hcode, Hfound, Hu. simpl. rewrite Hfam.
  apply familyWithCode_Some in Hfound as [Hin _].
  destruct familyDoc as [familyId f0]. simpl.
  destruct (updateFields uid _ (fdb_users db)) as [users|] eqn:E1.
  2:{ assert (is_Some (updateFields uid (withFamily familyId "member")
                         (fdb_users db))) as [? ?]
        by (apply updateFields_is_Some; by eexists).
      congruence. }
  destruct (updateFields familyId _ (fdb_families db)) as [families|] eqn:E2.
  2:{ match type of E2 with
      | updateFields _ ?f _ = None =>
          assert (is_Some (updateFields familyId f (fdb_families db)))
            as [? ?]
            by (apply updateFields_is_Some; by eapply getDoc_is_Some_elem)
      end. congruence. }
  apply getDoc_updateFields in E1 as ((u' & Hu' & Hnew) & Hothers & _).
  assert (u' = u) as -> by congruence.
  apply getDoc_updateFields in E2 as ((f & Hf & Hnewf) & Hotherf & _).
  simpl. split; [done|]. split; [done|]. split; [done|].
  split; [by exists f|done].
Qed.

(** X21. Joining a family makes a member, never an admin.  For a signed-in
    user whose document exists and holds no family id,
    [handleJoinFamily] looks for the first family whose invite code is the
    input, trimmed and in upper case.  When there is one, the user document
    gets this family and the role [member], keeping its name and push
    token, the user is added to the members of the family document, whose
    name, code and admin stay, and no other document changes; the edit
    screen of geofences does not treat the user as admin.  When there is
    none, or when the input is empty, nothing is written. *)
Theorem X21_joining_a_family_makes_a_member :
  ∀ uid familyCodeInput db u,
    getDoc uid (fdb_users db) = Some u →
    truthyString (u_familyId u) = false →
    let codeToJoin := toUpperCase (trim familyCodeInput) in
    let r := handleJoinFamily trim toUpperCase (Some uid) familyCodeInput db in
    (∀ familyDoc,
       familyCodeInput ≠ "" → codeToJoin ≠ "" →
       familyWithCode codeToJoin (fdb_families db) = Some familyDoc →
       r.1 = AlertJoined ∧
       getDoc uid (fdb_users r.2) = Some (withFamily familyDoc.1 "member" u) ∧
       (∀ uid', uid' ≠ uid →
                getDoc uid' (fdb_users r.2) = getDoc uid' (fdb_users db)) ∧
       (∃ f, getDoc familyDoc.1 (fdb_families db) = Some f ∧
             getDoc familyDoc.1 (fdb_families r.2) =
             Some {| fam_familyName := fam_familyName f;
                     fam_members := {[ uid ]} ∪ fam_members f;
                     fam_inviteCode := fam_inviteCode f;
                     fam_createdAt := fam_createdAt f;
                     fam_adminId := fam_adminId f |}) ∧
       (∀ familyId, familyId ≠ familyDoc.1 →
                    getDoc familyId (fdb_families r.2)
                    = getDoc familyId (fdb_families db)) ∧
       isAdmin (authProfileOf <$> getDoc uid (fdb_users r.2)) = false) ∧
    (familyCodeInput = "" ∨ codeToJoin = "" ∨
     familyWithCode codeToJoin (fdb_families db) = None →
     r.2 = db ∧ r.1 ≠ AlertJoined).
Proof.
  intros uid familyCodeInput db u Hu Hfam codeToJoin r. subst r. split.
  - intros familyDoc Hinput Hcode Hfound.
    destruct (handleJoinFamily_joined uid familyCodeInput db u familyDoc
                Hu Hfam Hinput Hcode Hfound) as (H1 & H2 & H3 & H4 & H5).
    do 5 (split; [done|]). by rewrite H2.
  - intros Hno. unfold handleJoinFamily. fold codeToJoin.
    destruct (String.eqb_spec familyCodeInput ""); [done|].
    destruct (String.eqb_spec codeToJoin ""); [done|].
    destruct Hno as [? | [? | ->]]; done.
Qed.

Lemma signup_consistent uid email db :
  familyConsistent db → familyConsistent (signup uid email db).
Proof.
  intros Hdb uid' u familyId Hin Hfam. simpl in Hin.
  apply setDoc_elem in Hin as [[= -> ->] | Hin]; [done|].
  by apply (Hdb uid' u familyId).
Qed.

Lemma handleCreateFamily_consistent user profile inviteCode newFamilyId now db :
  newFamilyId ∉ fst <$> fdb_families db →
  familyConsistent db →
  familyConsistent
    (handleCreateFamily user profile inviteCode newFamilyId now db).2.
Proof.
  intros Hfresh Hdb. unfold handleCreateFamily.
  destruct user as [uid|], profile as [profile|]; try done.
  destruct (truthyString _); [done|].
  destruct (updateFields uid _ (fdb_users db)) as [users|] eqn:E; [|done].
  intros uid' u familyId Hin Hfam. cbn [snd fdb_users fdb_families] in *.
  set (f := {| fam_familyName := _; fam_members := {[uid]} |}).
  destruct (getDoc_setDoc newFamilyId f (fdb_families db)) as [Hnew Hother].
  apply (updateFields_elem _ _ _ _ _ E) in Hin
    as [Hin | (u0 & _ & _ & [= -> ->])].
  - destruct (Hdb uid' u familyId Hin Hfam) as [Ha Hb].
    assert (∀ f0, getDoc familyId (fdb_families db) = Some f0 →
                  familyId ≠ newFamilyId) as Hne.
    { intros f0 Hf0 ->. apply Hfresh. apply getDoc_elem_of in Hf0.
      apply list_elem_of_fmap. by exists (newFamilyId, f0). }
    split.
    + intros H. destruct (Ha H) as (f0 & Hf0 & Hmem). exists f0.
      rewrite Hother by (by eapply Hne). done.
    + intros H. destruct (Hb H) as (f0 & Hf0 & Hadm). exists f0.
      rewrite Hother by (by eapply Hne). done.
  - simpl in Hfam. injection Hfam as <-.
    split; intros _; exists f; (split; [done|]);
      [subst f; simpl; by apply elem_of_singleton|done].
Qed.

Lemma handleJoinFamily_consistent user familyCodeInput db :
  familyConsistent db →
  familyConsistent (handleJoinFamily trim toUpperCase user familyCodeInput db).2.
Proof.
  intros Hdb. unfold handleJoinFamily.
  destruct user as [uid|]; [|done].
  destruct (String.eqb familyCodeInput ""); [done|].
  destruct (String.eqb (toUpperCase _) ""); [done|].
  destruct (familyWithCode _ _) as [[familyId f0]|]; [|done].
  destruct (truthyString _); [done|]. cbn [fst].
  destruct (updateFields uid _ (fdb_users db)) as [users|] eqn:E1; [|done].
  destruct (updateFields familyId _ (fdb_families db)) as [families|] eqn:E2;
    [|done].
  intros uid' u fam Hin Hfam. cbn [snd fdb_users fdb_families] in *.
  pose proof (getDoc_updateFields _ _ _ _ E2) as ((f & Hf & Hnewf) & Hotherf & _).
  assert (∀ (P : FamilyData → Prop),
            (∀ g, P g → P {| fam_familyName := fam_familyName g;
                             fam_members := {[uid]} ∪ fam_members g;
                             fam_inviteCode := fam_inviteCode g;
                             fam_createdAt := fam_createdAt g;
                             fam_adminId := fam_adminId g |}) →
            (∃ g, getDoc fam (fdb_families db) = Some g ∧ P g) →
            ∃ g, getDoc fam families = Some g ∧ P g) as Hkeep.
  { intros P HP (g & Hg & HPg). destruct (decide (fam = familyId)) as [->|Hne].
    - assert (g = f) as -> by congruence. eexists. split; [exact Hnewf|].
      by apply HP.
    - exists g. by rewrite Hotherf. }
  apply (updateFields_elem _ _ _ _ _ E1) in Hin
    as [Hin | (u0 & _ & _ & [= -> ->])].
  - destruct (Hdb uid' u fam Hin Hfam) as [Ha Hb]. split.
    + intros H. apply (Hkeep (λ g, uid' ∈ fam_members g)); [|by apply Ha].
      intros g Hg. simpl. apply elem_of_union. by right.
    + intros H. apply (Hkeep (λ g, fam_adminId g = uid')); [done|by apply Hb].
  - simpl in Hfam. injection Hfam as <-. split; [|done].
    intros _. eexists. split; [exact Hnewf|]. simpl.
    apply elem_of_union. left. by apply elem_of_singleton.
Qed.

(** X22. The user documents and the family documents stay consistent.
    Starting from a consistent state, after every sequence of sign-ups,
    family creations and joins in which each new family document gets an
    unused id, every user who holds a family id is a member of this family
    and every user who holds the role [admin] in a family is the admin that
    the family document names. *)
Theorem X22_users_and_families_stay_consistent :
  ∀ events db,
    familyConsistent db →
    freshFamilyIds trim toUpperCase db events →
    familyConsistent (foldl (familyStep trim toUpperCase) db events).
Proof.
  intros events. induction events as [|ev events IH]; intros db Hdb Hfresh;
    simpl; [done|].
  destruct Hfresh as [Hev Hrest]. apply IH; [|done].
  destruct ev as [uid email|uid profile inviteCode newFamilyId now|uid input];
    unfold familyStep.
  - by apply signup_consistent.
  - by apply handleCreateFamily_consistent.
  - by apply handleJoinFamily_consistent.
Qed.

(** X23. The invite code leads to the family.  When a family is created
    with a code that [isInviteCodeUnique] accepts (no family holds it yet,
    and the query does not fail), under an unused id, another user whose
    document holds no family id and who enters the code, in any spelling
    that trimming and upper-casing turn into the code, joins this very
    family as a member. *)
Theorem X23_the_invite_code_leads_to_the_family :
  ∀ uid profile inviteCode newFamilyId now db u uid' u' familyCodeInput,
    getDoc uid (fdb_users db) = Some u →
    truthyString (u_familyId u) = false →
    isInviteCodeUnique false inviteCode (fdb_families db) = true →
    newFamilyId ∉ fst <$> fdb_families db →
    uid' ≠ uid → getDoc uid' (fdb_users db) = Some u' →
    truthyString (u_familyId u') = false →
    inviteCode ≠ "" → familyCodeInput ≠ "" →
    toUpperCase (trim familyCodeInput) = inviteCode →
    let db1 :=
      (handleCreateFamily (Some uid) (Some profile) inviteCode newFamilyId now
         db).2 in
    let r := handleJoinFamily trim toUpperCase (Some uid') familyCodeInput db1 in
    r.1 = AlertJoined ∧
    getDoc uid' (fdb_users r.2) = Some (withFamily newFamilyId "member" u') ∧
    getDoc uid (fdb_users r.2) = Some (withFamily newFamilyId "admin" u) ∧
    ∃ f, getDoc newFamilyId (fdb_families r.2) = Some f ∧
         fam_members f = {[ uid'; uid ]} ∧ fam_adminId f = uid.
Proof.
  intros uid profile inviteCode newFamilyId now db u uid' u' familyCodeInput
    Hu Hfam Hunique Hfresh Hne Hu' Hfam' Hcode Hinput Hspelling db1 r.
  destruct (handleCreateFamily_created uid profile inviteCode newFamilyId now db
              u Hu Hfam) as (_ & Hadmin & Husers & _ & _ & Hfamilies).
  fold db1 in Hadmin, Husers, Hfamilies.
  set (f := {| fam_familyName := orElse (up_name profile) "My" +:+ "'s Family";
               fam_members := {[ uid ]} |}) in Hfamilies.
  assert (fdb_families db1 = fdb_families db ++ [(newFamilyId, f)]) as Efam.
  { rewrite Hfamilies. clear -Hfresh.
    induction (fdb_families db) as [|d l IH]; simpl; [done|].
    apply not_elem_of_cons in Hfresh as [Hd Hl].
    rewrite decide_False by done. by rewrite IH. }
  assert (familyWithCode (toUpperCase (trim familyCodeInput)) (fdb_families db1)
          = Some (newFamilyId, f)) as Hfound.
  { rewrite Efam, Hspelling. unfold familyWithCode.
    unfold isInviteCodeUnique in Hunique. apply bool_decide_eq_true in Hunique.
    rewrite filter_app, Hunique. simpl.
    by rewrite filter_cons_True by done. }
  assert (getDoc uid' (fdb_users db1) = Some u') as Hu1 by (by rewrite Husers).
  assert (toUpperCase (trim familyCodeInput) ≠ "") as Hcode' by congruence.
  destruct (handleJoinFamily_joined uid' familyCodeInput db1 u' (newFamilyId, f)
              Hu1 Hfam' Hinput Hcode' Hfound)
    as (H1 & H2 & H3 & (f1 & Hf1 & Hf1') & _).
  fold r in H1, H2, H3, Hf1'. simpl in *.
  split; [done|]. split; [done|]. split; [by rewrite H3|].
  assert (f1 = f) as ->.
  { rewrite Efam in Hf1. rewrite getDoc_app_fresh in Hf1 by done. congruence. }
  eexists. split; [exact Hf1'|]. done.
Qed.

End FamilyScreenFacts.

(** ** Invite codes

    [Math.random() * 32] is exact in binary64: the product of a number in
    [0, 1) with a power of two is a shift of its mantissa, so that the
    index [Math.floor(Math.random() * 32)] is one of 0, ..., 31. *)

Lemma digits2_pos_xO p : Zpos (digits2_pos (xO p)) = Zpos (digits2_pos p) + 1.
Proof. simpl. lia. Qed.

(** A binary64 number that [Math.random()] may return is [+0], [-0] or a
    positive number with an exponent of at most -53. *)
Lemma randomValue_cases x :
  randomValue x = true →
  (∃ s, x = S754_zero s) ∨
  ∃ m e, x = S754_finite false m e ∧ -1074 ≤ e ≤ -53 ∧
         Z.max (Zpos (digits2_pos m) + e - 53) (-1074) = e.
Proof.
  unfold randomValue. intros [[Hv Hle]%andb_prop Hlt]%andb_prop.
  destruct x as [s|s| |s m e].
  { left. by exists s. }
  { by destruct s. }
  { done. }
  right. destruct s; [done|]. exists m, e. split; [done|].
  unfold valid_binary, bounded, canonical_mantissa, fexp, emin, Js.prec, Js.emax
    in Hv.
  apply andb_prop in Hv as [Hc _]. apply Z.eqb_eq in Hc.
  assert (Z.max (Z.pos (digits2_pos m) + e - 53) (-1074) = e) as Hc' by exact Hc.
  clear Hc. split; [|done].
  change (Js.ofZ 1) with (S754_finite false 4503599627370496 (-52)) in Hlt.
  unfold Js.lt, SFltb, SFcompare in Hlt.
  destruct (Z.compare_spec e (-52)) as [->|He|He].
  - exfalso. rewrite Pos.compare_cont_spec in Hlt.
    destruct (Pos.compare_spec m 4503599627370496) as [?|Hm|?]; try done.
    pose proof (digits2_pos_bounds m) as Hd.
    assert (Zpos (digits2_pos m) = 53) as Hd53 by (clear Hd Hm Hlt; lia).
    rewrite Hd53 in Hd. apply Pos2Z.pos_lt_pos in Hm.
    assert (2 ^ (53 - 1) = 4503599627370496) as E1 by reflexivity.
    rewrite E1 in Hd. clear -Hd Hm. lia.
  - clear Hlt Hle. lia.
  - done.
Qed.

(** Shifting a mantissa to the right by as many bits as it was shifted to
    the left loses nothing. *)
Lemma iter_pos_nat {A} (f : A → A) p x :
  SpecFloat.iter_pos f p x = Nat.iter (Pos.to_nat p) f x.
Proof.
  revert x. induction p as [p IH|p IH|]; intros x; simpl SpecFloat.iter_pos.
  - rewrite !IH, Pos2Nat.inj_xI, <- Nat.iter_add.
    replace (S (2 * Pos.to_nat p)) with (S (Pos.to_nat p + Pos.to_nat p)) by lia.
    by rewrite Nat.iter_succ_r.
  - rewrite !IH, Pos2Nat.inj_xO, <- Nat.iter_add. f_equal. lia.
  - done.
Qed.

Lemma shiftl_nat_Z m n : Zpos (Pos.shiftl_nat m n) = Zpos m * 2 ^ Z.of_nat n.
Proof.
  induction n as [|n IH]; [simpl; lia|].
  change (Pos.shiftl_nat m (S n)) with (xO (Pos.shiftl_nat m n)).
  rewrite Pos2Z.inj_xO, IH, Nat2Z.inj_succ, Z.pow_succ_r by lia. lia.
Qed.

Lemma shiftl_nat_digits m n :
  Zpos (digits2_pos (Pos.shiftl_nat m n)) = Zpos (digits2_pos m) + Z.of_nat n.
Proof.
  induction n as [|n IH]; [simpl; lia|].
  change (Pos.shiftl_nat m (S n)) with (xO (Pos.shiftl_nat m n)).
  rewrite digits2_pos_xO, IH. lia.
Qed.

Lemma shr_1_shiftl_nat n j m :
  Nat.iter n shr_1 (Build_shr_record (Zpos (Pos.shiftl_nat m (n + j))) false false)
  = Build_shr_record (Zpos (Pos.shiftl_nat m j)) false false.
Proof.
  revert j. induction n as [|n IH]; intros j; [done|].
  rewrite Nat.iter_succ.
  replace (S n + j)%nat with (n + S j)%nat by lia. by rewrite IH.
Qed.

(** The product of a number below 1 with 32 is the number with its exponent
    raised by 5; for a subnormal number, a part [k] of the 5 goes into the
    mantissa. *)
Lemma mul32_exact m e :
  -1074 ≤ e ≤ -53 →
  Z.max (Zpos (digits2_pos m) + e - 53) (-1074) = e →
  ∃ M k, 0 ≤ k ≤ 5 ∧ Zpos M = Zpos m * 2 ^ k ∧
         (S754_finite false m e * Js.ofZ 32)%js = S754_finite false M (e + 5 - k).
Proof.
  intros He Hc.
  change (Js.ofZ 32) with (S754_finite false 4503599627370496 (-47)).
  unfold Js.mul, SFmul. cbn [xorb].
  assert ((m * 4503599627370496)%positive = Pos.shiftl_nat m 52) as ->.
  { rewrite Pos.mul_comm. reflexivity. }
  unfold binary_round_aux, shr_fexp. cbn [Zdigits2 shr_record_of_loc].
  rewrite shiftl_nat_digits.
  unfold fexp, emin, Js.prec, Js.emax.
  set (n := Z.max _ _ - _).
  assert (47 ≤ n ≤ 52 ∧
          Z.max (Zpos (digits2_pos m) + (52 - n) + (e + -47 + n) - 53) (-1074)
          = e + -47 + n) as [Hn Hfix].
  { subst n. clear -He Hc. lia. }
  clearbody n. destruct n as [|p|p]; [lia| |lia].
  cbn [shr]. rewrite iter_pos_nat.
  assert (∃ k : nat, (k ≤ 5)%nat ∧ 52%nat = (Pos.to_nat p + k)%nat ∧
                     Z.of_nat k = 52 - Zpos p) as (k & Hk & E & Ek).
  { exists (52 - Pos.to_nat p)%nat. lia. }
  rewrite E, shr_1_shiftl_nat.
  cbn [shr_m loc_of_shr_record round_nearest_even shr_record_of_loc Zdigits2].
  rewrite shiftl_nat_digits, Ek.
  change (3 - 1024 - 53) with (-1074). rewrite Hfix, Z.sub_diag.
  cbn [shr shr_m].
  assert ((e + -47 + Z.pos p <=? 1024 - 53) = true) as -> by (apply Z.leb_le; lia).
  exists (Pos.shiftl_nat m k), (Z.of_nat k). split; [lia|].
  split; [apply shiftl_nat_Z|]. f_equal. lia.
Qed.

(** The characters at the positions 0, ..., 31. *)
Lemma charAt_small (q : nat) :
  (q < 32)%nat →
  ∃ c, charAt characters (binary_normalize Js.prec Js.emax (Z.of_nat q) 0 false)
       = String c EmptyString ∧ c ∈ charsOf characters.
Proof.
  intros Hq.
  do 32 (destruct q as [|q];
         [eexists; split; [by vm_compute|vm_compute; repeat constructor]|]).
  lia.
Qed.

(** One iteration of the loop appends one character of the alphabet. *)
Lemma charAt_random x :
  randomValue x = true →
  ∃ c, charAt characters (Math_floor (x * charactersLength)%js)
       = String c EmptyString ∧ c ∈ charsOf characters.
Proof.
  intros [[s ->]|(m & e & -> & He & Hc)]%randomValue_cases.
  { destruct s; eexists; (split; [by vm_compute|vm_compute; repeat constructor]). }
  unfold charactersLength.
  destruct (mul32_exact m e He Hc) as (M & k & Hk & HM & ->).
  unfold Math_floor.
  assert ((0 <=? e + 5 - k) = false) as -> by (apply Z.leb_gt; lia).
  set (q := Zpos M / 2 ^ _).
  assert (0 ≤ q < 32) as Hq.
  { subst q. rewrite HM.
    replace (- (e + 5 - k)) with ((- e - 5) + k) by lia.
    rewrite Z.pow_add_r by lia.
    rewrite Z.div_mul_cancel_r by lia.
    pose proof (digits2_pos_bounds m) as [_ Hd].
    assert (Zpos m < 2 ^ 53) as Hm.
    { eapply Z.lt_le_trans; [exact Hd|]. apply Z.pow_le_mono_r; lia. }
    assert (2 ^ 48 ≤ 2 ^ (- e - 5)) as Hp by (apply Z.pow_le_mono_r; lia).
    clear Hd Hc HM. split; [apply Z.div_pos; lia|].
    apply Z.div_lt_upper_bound; [lia|].
    change (2 ^ 53) with (2 ^ 48 * 32) in Hm. change (2 ^ 48) with 281474976710656 in *.
    nia. }
  clearbody q. destruct (charAt_small (Z.to_nat q)) as (c & Hc' & Hin); [lia|].
  rewrite Z2Nat.id in Hc' by lia. by exists c.
Qed.

Lemma charsOf_app s1 s2 : charsOf (s1 +:+ s2) = charsOf s1 ++ charsOf s2.
Proof. induction s1 as [|c s1 IH]; [done|]. simpl. by rewrite IH. Qed.

Lemma charsOf_length s : length (charsOf s) = String.length s.
Proof. induction s as [|c s IH]; [done|]. simpl. by rewrite IH. Qed.

Lemma inviteCodeLoop_chars random i remaining result :
  (∀ j, (i ≤ j < i + remaining)%nat → randomValue (random j) = true) →
  ∃ l, charsOf (inviteCodeLoop random i remaining result) = charsOf result ++ l ∧
       length l = remaining ∧ Forall (λ c, c ∈ charsOf characters) l.
Proof.
  revert i result. induction remaining as [|k IH]; intros i result Hr.
  { exists []. by rewrite app_nil_r. }
  simpl. destruct (charAt_random (random i)) as (c & -> & Hin); [apply Hr; lia|].
  destruct (IH (S i) (result +:+ String c EmptyString)) as (l & -> & Hl & Hall).
  { intros j Hj. apply Hr. lia. }
  exists (c :: l). rewrite charsOf_app. simpl. rewrite <- app_assoc. simpl.
  split; [done|]. split; [by rewrite Hl|by constructor].
Qed.

(** X24. An invite code of [generateInviteCode] has the length asked for,
    and each of its characters is one of the 32 characters of the alphabet,
    whatever values in [0, 1) the random number generator returns. *)
Theorem X24_invite_code_has_the_length_and_the_alphabet random length :
  (∀ i, (i < length)%nat → randomValue (random i) = true) →
  String.length (generateInviteCode random length) = length ∧
  Forall (λ c, c ∈ charsOf characters) (charsOf (generateInviteCode random length)).
Proof.
  intros Hr. unfold generateInviteCode.
  destruct (inviteCodeLoop_chars random 0 length "") as (l & E & Hl & Hall).
  { intros j Hj. apply Hr. lia. }
  rewrite <- charsOf_length, E. simpl. by split.
Qed.

(** The code of six characters that the sample generator gives. *)
Example generateInviteCode_sample :
  generateInviteCode sampleRandom 6 = "AEJNSW".
Proof. by vm_compute. Qed.

(** * The properties on the sample data *)

(** X1 for dave, who has signed up and holds no family: a low battery of
    dave changes nothing. *)
Lemma X1_no_family_no_notification_witness :
  checkLowBattery (λ _ _, PushSent) (λ _, "18") "dave" (Some (Js.ofZ 50))
    (Some (Js.ofZ 18)) 1000 sampleDbNewcomer = sampleDbNewcomer.
Proof.
  refine (proj1 (proj1 (X1_no_family_no_notification
            sampleSin sampleCos sampleAtan2 (λ _ _, PushSent) (λ _, "18")
            (λ _, "") (λ _, "") (λ _ _ _, ""))
            "dave" (Some (Js.ofZ 50)) (Some (Js.ofZ 18)) None None None None
            1000 sampleDbNewcomer _)).
  reflexivity.
Defined.

(** X3 for the entry of alice into the home fence, recorded for bob. *)
Lemma X3_notifications_stay_in_the_family_witness :
  ∃ familyId,
    getDoc "alice" (users sampleDbTwo) ≫= u_familyId = Some familyId ∧
    withinFamily (users sampleDbTwo) familyId sampleServerEntryDoc.
Proof.
  refine (proj1 (proj2 (proj2 (X3_notifications_stay_in_the_family
            sampleSin sampleCos sampleAtan2 (λ _ _, PushSent) (λ _, "18")
            (λ _, "") (λ _, "") (λ _ _ _, ""))))
            "alice" (sampleLocation 20 20) (sampleLocation 10 10) 1000
            sampleDbTwo sampleServerEntryDoc _).
  vm_compute. apply list_elem_of_here.
Defined.

(** X4: alice reports 18 percent at time 1000 and 17 percent one minute
    later, after a recharge in between. *)
Lemma X4_recorded_low_battery_alert_starts_cooldown_witness :
  let db' :=
    checkLowBattery (λ _ _, PushSent) (λ _, "18") "alice" (Some (Js.ofZ 50))
      (Some (Js.ofZ 18)) 1000 sampleDbTwo in
  checkLowBattery (λ _ _, PushSent) (λ _, "18") "alice" (Some (Js.ofZ 50))
    (Some (Js.ofZ 17)) 61000 db' = db'.
Proof.
  refine (X4_recorded_low_battery_alert_starts_cooldown
            (λ _ _, PushSent) (λ _, "18") "alice" (Some (Js.ofZ 50))
            (Some (Js.ofZ 18)) 1000 sampleDbTwo (Some (Js.ofZ 50))
            (Some (Js.ofZ 17)) 61000 _ _).
  - vm_compute. discriminate.
  - lia.
Defined.

(** X5: the recorded entry of alice names the home fence, and an entry of
    alice one minute later is dropped. *)
Lemma X5_recorded_geofence_alert_starts_cooldown_witness :
  ∃ fenceId,
    n_relatedGeofenceId sampleServerEntryDoc = Some fenceId ∧
    fenceDispatches sampleSin sampleCos sampleAtan2 "alice" "fam" "Alice"
      (sampleLocation 20 20) (sampleLocation 10 10) 61000
      (addNotification sampleServerEntryDoc sampleDbTwo) (users sampleDbTwo)
      (fenceId, homeFence) = [].
Proof.
  destruct (X5_recorded_geofence_alert_starts_cooldown
              sampleSin sampleCos sampleAtan2 (λ _ _, PushSent)
              "alice" (sampleLocation 20 20) (sampleLocation 10 10) 1000
              sampleDbTwo sampleServerEntryDoc)
    as (fenceId & Hid & _ & Hdrop).
  - vm_compute. apply list_elem_of_here.
  - exists fenceId. split; [exact Hid|].
    apply Hdrop.
    + vm_compute. apply list_elem_of_here.
    + lia.
    + reflexivity.
Defined.

(** X6 for a low battery of alice in the sample family. *)
Lemma X6_nobody_is_notified_twice_of_one_event_witness :
  NoDup (n_recipientUid <$>
         newDocs sampleDb
           (checkLowBattery (λ _ _, PushSent) (λ _, "18") "alice"
              (Some (Js.ofZ 50)) (Some (Js.ofZ 18)) 1000 sampleDb)).
Proof.
  refine (proj1 (X6_nobody_is_notified_twice_of_one_event
            sampleSin sampleCos sampleAtan2 (λ _ _, PushSent) (λ _, "18")
            (λ _, "") (λ _, "") (λ _ _ _, "") sampleDb _)
            "alice" (Some (Js.ofZ 50)) (Some (Js.ofZ 18)) 1000).
  refine (bool_decide_unpack _ _). vm_compute. exact I.
Defined.

(** X7 for a low battery of alice in the family of two. *)
Lemma X7_low_battery_reaches_every_other_member_witness :
  n_recipientUid <$>
    newDocs sampleDbTwo
      (checkLowBattery (λ _ _, PushSent) (λ _, "18") "alice"
         (Some (Js.ofZ 50)) (Some (Js.ofZ 18)) 1000 sampleDbTwo)
  = fst <$> filter (λ doc, doc.1 ≠ "alice") (membersOf "fam" (users sampleDbTwo)).
Proof.
  refine (proj1 (proj2 (proj2 (X7_low_battery_reaches_every_other_member
            (λ _ _, PushSent) (λ _, "18") "alice" (Some (Js.ofZ 50))
            (Some (Js.ofZ 18)) 1000 sampleDbTwo "fam" _ _ _ _ _)))).
  - reflexivity.
  - reflexivity.
  - reflexivity.
  - discriminate.
  - intros doc Hdoc%list_elem_of_In Hne. simpl in Hdoc.
    destruct Hdoc as [<-|[<-|[]]].
    + by destruct Hne.
    + exists "tokB". split; reflexivity.
Defined.

(** X8: with the battery alerts off, two low levels store nothing. *)
Lemma X8_battery_alerts_off_silences_the_listener_witness :
  (foldl (λ st sample,
            onBatteryLevel (λ _, "") "alice" (Some quietProfile) sample.1
              sample.2 st.1 st.2)
         (mkRefs None None ∅, sampleDb)
         [(percent 18, 60000); (percent 15, 120000)]).2 = sampleDb.
Proof.
  refine (proj1 (X8_battery_alerts_off_silences_the_listener
            (λ _, "") "alice" quietProfile
            [(percent 18, 60000); (percent 15, 120000)] (mkRefs None None ∅)
            sampleDb _)).
  reflexivity.
Defined.

(** X9: alice enters the home fence at time 1000 and leaves it one minute
    later; the exit is dropped. *)
Lemma X9_client_cooldown_is_per_fence_whatever_the_kind_witness :
  let st1 :=
    checkOneGeofence sampleSin sampleCos sampleAtan2 "alice" sampleProfile "fam"
      (sampleLatLng 20 20) (sampleLatLng 10 10) 1000
      (mkRefs None None ∅, sampleDb) homeFenceClient in
  checkOneGeofence sampleSin sampleCos sampleAtan2 "alice" sampleProfile "fam"
    (sampleLatLng 10 10) (sampleLatLng 20 20) 61000 st1 homeFenceClient = st1.
Proof.
  refine (X9_client_cooldown_is_per_fence_whatever_the_kind
            sampleSin sampleCos sampleAtan2 "alice" sampleProfile "fam"
            (sampleLatLng 20 20) (sampleLatLng 10 10) 1000
            (mkRefs None None ∅, sampleDb) homeFenceClient geofence_entry
            "alice" sampleProfile "fam" (sampleLatLng 10 10) (sampleLatLng 20 20)
            61000 homeFenceClient geofence_exit _ _ _ _ _ _).
  - reflexivity.
  - reflexivity.
  - lia.
  - reflexivity.
  - reflexivity.
  - lia.
Defined.

(** X10 for the entry of alice into the home fence. *)
Lemma X10_server_and_client_detect_the_same_transitions_witness :
  serverTransitions sampleSin sampleCos sampleAtan2
    (locationDataOf (sampleLatLng 20 20)) (locationDataOf (sampleLatLng 10 10))
    (geofenceDocOf <$> [homeFenceClient])
  = omap (λ fence,
            pair (f_id fence)
            <$> fenceTransitionClient sampleSin sampleCos sampleAtan2
                  (sampleLatLng 20 20) (sampleLatLng 10 10) fence)
         [homeFenceClient].
Proof.
  refine (proj1 (proj2 (proj2 (X10_server_and_client_detect_the_same_transitions
            sampleSin sampleCos sampleAtan2)))
            (sampleLatLng 20 20) (sampleLatLng 10 10) [homeFenceClient] _).
  reflexivity.
Defined.

(** X11: the geofence of the sample run, saved under the id [g1] and loaded
    into an empty form. *)
Lemma X11_saved_geofence_is_loaded_back_witness :
  ∃ c, center sampleForm = Some c ∧
       loadGeofence "g1"
         (handleSave (λ s, s) (Some "alice") (Some adminProfile) "new" "g1"
            sampleForm []).2 initialEditScreen
       = if offTheAxes c
         then {| name := "Home"; radius := Js.Math_round (Js.ofZ 120);
                 center := Some c |}
         else initialEditScreen.
Proof.
  refine (X11_saved_geofence_is_loaded_back (λ s, s) (Some "alice")
            (Some adminProfile) "new" "g1" sampleForm []
            (handleSave (λ s, s) (Some "alice") (Some adminProfile) "new" "g1"
               sampleForm []).2 initialEditScreen _ _).
  - reflexivity.
  - intros _ H. by apply elem_of_nil in H.
Defined.

(** X12: a member runs the sample events and a deletion on the screen of
    the home fence. *)
Lemma X12_only_an_admin_changes_the_geofences_witness :
  (foldl (screenAction (λ s, s) (λ _, Js.ofZ 120) (Some "bob")
            (Some memberProfile) "home")
         (initialEditScreen, [("home", homeFence)])
         ((Event <$> sampleEvents) ++ [Delete true])).2
  = [("home", homeFence)].
Proof.
  refine (X12_only_an_admin_changes_the_geofences (λ s, s) (λ _, Js.ofZ 120)
            (Some "bob") (Some memberProfile) "home"
            ((Event <$> sampleEvents) ++ [Delete true])
            (initialEditScreen, [("home", homeFence)]) _).
  reflexivity.
Defined.

(** X13: the sample run on the creation screen leaves the home fence as it
    is. *)
Lemma X13_edit_screen_touches_no_other_geofence_witness :
  getDoc "home"
    (foldl (screenAction (λ s, s) (λ _, Js.ofZ 120) (Some "alice")
              (Some adminProfile) "new")
           (initialEditScreen, [("home", homeFence)]) (Event <$> sampleEvents)).2
  = Some homeFence.
Proof.
  refine (X13_edit_screen_touches_no_other_geofence (λ s, s) (λ _, Js.ofZ 120)
            (Some "alice") (Some adminProfile) "new" (Event <$> sampleEvents)
            (initialEditScreen, [("home", homeFence)]) "home" _ _).
  - discriminate.
  - intros newId H%list_elem_of_In. simpl in H.
    destruct H as [H|[H|[H|[H|[H|[]]]]]]; try discriminate H.
    injection H as <-. discriminate.
Defined.

(** X14: the admin deletes the home fence; the school fence stays. *)
Lemma X14_deletion_removes_exactly_the_geofence_witness :
  handleDelete (Some adminProfile) "home" true
    [("home", homeFence); ("school", schoolFence)]
  = filter (λ d, d.1 ≠ "home") [("home", homeFence); ("school", schoolFence)].
Proof.
  refine (proj1 (proj1 (X14_deletion_removes_exactly_the_geofence
            (Some adminProfile) "home"
            [("home", homeFence); ("school", schoolFence)]) _ _ _)).
  - reflexivity.
  - reflexivity.
  - discriminate.
Defined.

(** X15: the geofence saved by the sample run belongs to the sample
    family and is valid for the server. *)
Lemma X15_saved_geofence_is_used_by_every_reader_or_by_none_witness :
  ∃ savedId data,
    (savedId, data)
      ∈ (handleSave (λ s, s) (Some "alice") (Some adminProfile) "new" "g1"
           sampleForm []).2 ∧
    g_familyId data = Some "fam" ∧ boundedRadius data.
Proof.
  destruct (X15_saved_geofence_is_used_by_every_reader_or_by_none
              (λ s, s) (λ _, Js.ofZ 120) (Some "alice") (Some adminProfile)
              "new" (λ _, eq_refl)
              [SetupScreen (sampleLatLng 10 10); ChangeName "Home";
               ChangeRadiusText "120"; MapPress (sampleLatLng 20 10)]
              "g1" []
              (handleSave (λ s, s) (Some "alice") (Some adminProfile) "new" "g1"
                 sampleForm []).2)
    as (savedId & data & familyId & c & Hin & Hfam & Hdata & _ & Hr & _).
  - constructor.
  - reflexivity.
  - exists savedId, data. split; [exact Hin|]. split; [|exact Hr].
    rewrite Hdata. symmetry. exact Hfam.
Defined.

(** X16: a session of alice with a report at (10, 10) and a report at
    (20, 20) that follow one another, and two reports at (10, 10) that
    overlap. *)
Lemma X16_location_history_witness :
  (∃ new,
     locationHistory
       (locationSession sampleSin sampleCos sampleAtan2 (Some "alice")
          [sampleCall (Some sampleProfile) 10 10 1000;
           sampleCall (Some sampleProfile) 20 20 2000] sessionStart)
     = new ∧
     spaced sampleSin sampleCos sampleAtan2 (pointOf <$> new)) ∧
  locationHistory
    (foldl (locationStep sampleSin sampleCos sampleAtan2 (Some "alice"))
       (sessionStart, [])
       [CallStarts (sampleCall (Some sampleProfile) 10 10 1000);
        CallStarts (sampleCall (Some sampleProfile) 10 10 2000);
        HistoryWriteReturns 0; HistoryWriteReturns 0]).1
  = [{| h_userId := "alice";
        h_location := mkGeoPoint (Js.ofZ 10) (Js.ofZ 10);
        h_timestamp := 1000 |};
     {| h_userId := "alice";
        h_location := mkGeoPoint (Js.ofZ 10) (Js.ofZ 10);
        h_timestamp := 2000 |}].
Proof.
  pose proof (X16_location_history_is_thinned_out_between_calls_that_do_not_overlap
                sampleSin sampleCos sampleAtan2) as (_ & Hseq & Hoverlap).
  split.
  - destruct (Hseq (Some "alice")
                [sampleCall (Some sampleProfile) 10 10 1000;
                 sampleCall (Some sampleProfile) 20 20 2000] sessionStart)
      as [_ (new & Hnew & _ & Hspaced & _)]; [reflexivity|].
    exists new. split; [exact Hnew|exact Hspaced].
  - refine (proj1 (Hoverlap "alice" (Some sampleProfile) (sampleLatLng 10 10)
                     1000 2000 sessionStart
                     (mkGeoPoint (Js.ofZ 10) (Js.ofZ 10)) _ _ _));
      [reflexivity|discriminate|reflexivity].
Defined.

(** X17: the function of alice's screen was created before her profile
    arrived; the profile switches location sharing off, and the next call
    publishes her position all the same. *)
Lemma X17_sharing_setting_witness :
  rtdbLocations
    (ms_location
       (foldl (mapScreenStep sampleSin sampleCos sampleAtan2) sampleScreen
          [SetCurrentUserProfile (Some quietProfile);
           CallbackCalled true
             (call_run (sampleCall (Some quietProfile) 10 10 1000))]))
    !! "alice"
  = Some (sampleLatLng 10 10, 1000).
Proof.
  refine (proj2 (proj1 (proj2
            (X17_sharing_setting_is_read_when_the_callback_is_created
               sampleSin sampleCos sampleAtan2))
            [SetCurrentUserProfile (Some quietProfile)] sampleScreen "alice"
            (call_run (sampleCall (Some quietProfile) 10 10 1000))
            (sampleLatLng 10 10) _ _ _ _ _ _)).
  - discriminate.
  - reflexivity.
  - reflexivity.
  - constructor; [exact I|constructor].
  - reflexivity.
  - reflexivity.
Defined.

(** X18: the device of alice reports (10, 10), the point of the last
    history document. *)
Lemma X18_standing_still_is_silent_witness :
  locationHistory
    (fetchDeviceLocationAndUpdateRtdb sampleSin sampleCos sampleAtan2
       (Some "alice") (Some sampleProfile) true true
       (call_run (sampleCall (Some sampleProfile) 10 10 2000))
       {| rtdbLocations := ∅; locationHistory := [];
          lastRecordedHistoryLocation := Some (sampleLatLng 10 10) |})
  = [].
Proof.
  refine (proj1 (proj1 (X18_standing_still_is_silent
            sampleSin sampleCos sampleAtan2 _ _ _)
            "alice" (Some sampleProfile)
            (call_run (sampleCall (Some sampleProfile) 10 10 2000))
            {| rtdbLocations := ∅; locationHistory := [];
               lastRecordedHistoryLocation := Some (sampleLatLng 10 10) |}
            (sampleLatLng 10 10) _ _ _ _)).
  - reflexivity.
  - reflexivity.
  - intros x _. split; reflexivity.
  - reflexivity.
  - reflexivity.
  - reflexivity.
  - reflexivity.
Defined.

(** X19: dave, who has created a family, cannot create a second one. *)
Lemma X19_one_family_per_user_witness :
  handleCreateFamily (Some "dave") (Some daveProfile) "XYZ789" "fam2" 2000
    sampleFamilyDbCreated
  = (AlertError, sampleFamilyDbCreated).
Proof.
  refine (proj1 (X19_one_family_per_user (λ s, s) (λ s, s) "dave"
            sampleFamilyDbCreated _)
            (Some daveProfile) "XYZ789" "fam2" 2000).
  reflexivity.
Defined.

(** X20: dave creates the family [fam1] with the code [ABC234]. *)
Lemma X20_creating_a_family_makes_its_admin_witness :
  (handleCreateFamily (Some "dave") (Some daveProfile) "ABC234" "fam1" 1000
     sampleFamilyDb).1 = AlertFamilyCreated "ABC234".
Proof.
  refine (proj1 (proj1 (X20_creating_a_family_makes_its_admin
            "dave" daveProfile "ABC234" "fam1" 1000 sampleFamilyDb)
            {| u_name := Some "dave"; u_familyId := None; u_fcmToken := None;
               u_role := None |} _ _)).
  - reflexivity.
  - reflexivity.
Defined.

(** X21: erin joins the family of dave with its code. *)
Lemma X21_joining_a_family_makes_a_member_witness :
  (handleJoinFamily (λ s, s) (λ s, s) (Some "erin") "ABC234"
     sampleFamilyDbCreated).1 = AlertJoined.
Proof.
  refine (proj1 (proj1 (X21_joining_a_family_makes_a_member
            (λ s, s) (λ s, s) "erin" "ABC234" sampleFamilyDbCreated
            {| u_name := Some "erin"; u_familyId := None; u_fcmToken := None;
               u_role := None |} _ _)
            ("fam1",
             {| fam_familyName := "dave's Family"; fam_members := {[ "dave" ]};
                fam_inviteCode := "ABC234"; fam_createdAt := 1000;
                fam_adminId := "dave" |}) _ _ _)).
  - reflexivity.
  - reflexivity.
  - discriminate.
  - discriminate.
  - reflexivity.
Defined.

(** X22: dave and erin sign up, dave creates a family and erin joins it. *)
Lemma X22_users_and_families_stay_consistent_witness :
  familyConsistent
    (foldl (familyStep (λ s, s) (λ s, s))
           {| fdb_users := []; fdb_families := [] |}
           [SignUp "dave" "dave@example.org"; SignUp "erin" "erin@example.org";
            CreateFamily "dave" (Some daveProfile) "ABC234" "fam1" 1000;
            JoinFamily "erin" "ABC234"]).
Proof.
  refine (X22_users_and_families_stay_consistent (λ s, s) (λ s, s)
            [SignUp "dave" "dave@example.org"; SignUp "erin" "erin@example.org";
             CreateFamily "dave" (Some daveProfile) "ABC234" "fam1" 1000;
             JoinFamily "erin" "ABC234"]
            {| fdb_users := []; fdb_families := [] |} _ _).
  - intros uid u familyId H. by apply elem_of_nil in H.
  - simpl. repeat split. intros H. by apply elem_of_nil in H.
Defined.

(** X23: dave creates the family [fam1] with the code [ABC234], erin
    enters the code and joins it. *)
Lemma X23_the_invite_code_leads_to_the_family_witness :
  getDoc "erin"
    (fdb_users (handleJoinFamily (λ s, s) (λ s, s) (Some "erin") "ABC234"
                  sampleFamilyDbCreated).2)
  = Some {| u_name := Some "erin"; u_familyId := Some "fam1";
            u_fcmToken := None; u_role := Some "member" |}.
Proof.
  refine (proj1 (proj2 (X23_the_invite_code_leads_to_the_family (λ s, s) (λ s, s)
            "dave" daveProfile "ABC234" "fam1" 1000 sampleFamilyDb
            {| u_name := Some "dave"; u_familyId := None; u_fcmToken := None;
               u_role := None |}
            "erin"
            {| u_name := Some "erin"; u_familyId := None; u_fcmToken := None;
               u_role := None |}
            "ABC234" _ _ _ _ _ _ _ _ _ _))).
  - reflexivity.
  - reflexivity.
  - reflexivity.
  - intros H. by apply elem_of_nil in H.
  - discriminate.
  - reflexivity.
  - reflexivity.
  - discriminate.
  - discriminate.
  - reflexivity.
Defined.

(** X24: a code of six characters from the sample generator. *)
Lemma X24_invite_code_has_the_length_and_the_alphabet_witness :
  String.length (generateInviteCode sampleRandom 6) = 6%nat.
Proof.
  refine (proj1 (X24_invite_code_has_the_length_and_the_alphabet
            sampleRandom 6 _)).
  intros i Hi. do 6 (destruct i as [|i]; [reflexivity|]). lia.
Defined.
